(** * E-Commerce API: cart, checkout, payment and order lifecycle

    A shallow embedding of the request handlers of
    [cart.controller.ts], [order.controller.ts] and [payment.controller.ts]
    over an explicit database state, and the properties of the checkout
    subsystem proved about them. Around it: the review, account and
    wishlist handlers and [updateOrderStatus] of the administration, each
    over its own tables beside [Db], and the middleware and routes that
    stand before the handlers.

    Conventions.
    - The Prisma tables are fields of [Db]; every handler is a function
      from the database (and the request) to a [Response] and the next
      database.
    - A JavaScript [number] is a binary64 float (Rocq's primitive [float],
      the same IEEE 754 arithmetic). Integer columns are [Z]; the 32-bit
      range of the column type is left out. The quantity of a cart request
      is a [BodyNumber]: an integer, or a number that is none, which
      Prisma refuses to write.
    - An identifier in a request is a string, as the route parameters are
      and the body types declare; an absent one is [None].
    - A callback given to [prisma.$transaction] is a function [Db -> option Db]:
      [None] is a thrown error, after which the handler keeps the database it
      started from (rollback) and answers 500 from its [catch] block.
    - Values the handlers draw from the environment ([Date.now],
      [Math.random]) are arguments of the handler.
    - Libraries outside the sources ([bcryptjs], [utils/jwt]) are the
      variables of a section. *)

From Stdlib Require Import ZArith Lia.
From Stdlib Require Import Floats.PrimFloat Floats.SpecFloat Floats.FloatOps.
From Stdlib Require Import Numbers.Cyclic.Int63.Uint63.
From stdpp Require Import gmap strings list pretty.

(** ** Primitive data *)

(** Row identifiers. Prisma generates opaque unique strings; the model
    numbers the rows, [nextId] of the database being the next free one. *)
Abbreviation Id := nat.

(** An integer as a JavaScript number (exact below 2^53). *)
Definition Z2float (z : Z) : float :=
  if (z <? 0)%Z then PrimFloat.opp (PrimFloat.of_uint63 (Uint63.of_Z (- z)))
  else PrimFloat.of_uint63 (Uint63.of_Z z).

(** Modelled from the spec: the catalog price column is declared in
    [schema.prisma], which is not part of the sources at hand; the spec
    makes it a fixed-point decimal with two fraction digits, held here as a
    count of cents. [Number price] is then the binary64 nearest to
    cents/100: both operands are exact and IEEE division rounds
    correctly. *)
Definition Number (cents : Z) : float :=
  PrimFloat.div (Z2float cents) (Z2float 100).

(** A finite positive binary64 number is exactly m·2^e for the mantissa and
    the exponent [Prim2SF] decodes. [exactly_between lo hi d x] decides
    lo/d < x < hi/d over the rationals, for a positive denominator [d]. *)
Definition exactly_between (lo hi d : Z) (x : float) : bool :=
  match Prim2SF x with
  | S754_finite false m e =>
      if (e <? 0)%Z then
        bool_decide (lo * 2 ^ (- e) < Z.pos m * d)%Z
        && bool_decide (Z.pos m * d < hi * 2 ^ (- e))%Z
      else
        bool_decide (lo < Z.pos m * 2 ^ e * d)%Z
        && bool_decide (Z.pos m * 2 ^ e * d < hi)%Z
  | _ => false
  end.

Inductive Role := CUSTOMER | SELLER | ADMIN.

#[global] Instance Role_eq_dec : EqDecision Role.
Proof. solve_decision. Defined.

Module OrderStatus.
Inductive t := PENDING | CONFIRMED | DELIVERED | CANCELLED | REFUNDED.
#[global] Instance eq_dec : EqDecision t.
Proof. solve_decision. Defined.
End OrderStatus.

Module PaymentStatus.
Inductive t := UNPAID | PAID | FAILED | REFUNDED.
#[global] Instance eq_dec : EqDecision t.
Proof. solve_decision. Defined.
End PaymentStatus.

(** ** Tables *)

Module Product.
Record t := mk { name : string; price : Z; stock : Z }.
Definition with_stock (s : Z) (p : t) : t :=
  {| name := name p; price := price p; stock := s |}.
(** [data: { stock: { increment: q } }] and [{ decrement: q }]. *)
Definition increment (q : Z) (p : t) : t := with_stock (stock p + q) p.
Definition decrement (q : Z) (p : t) : t := with_stock (stock p - q) p.
End Product.

Module Cart.
Record t := mk { id : Id; userId : Id }.
End Cart.

Module CartItem.
Record t := mk { id : Id; cartId : Id; productId : Id; quantity : Z }.
Definition with_quantity (q : Z) (ci : t) : t :=
  {| id := id ci; cartId := cartId ci; productId := productId ci;
     quantity := q |}.
End CartItem.

Module Address.
Record t := mk { id : Id; userId : Id }.
End Address.

Module Order.
Record t := mk {
  id : Id;
  userId : Id;
  addressId : Id;
  orderNumber : string;
  paymentMethod : string;
  status : OrderStatus.t;
  paymentStatus : PaymentStatus.t;
  subtotal : float;
  tax : float;
  shipping : float;
  total : float;
  notes : option string;
  stripePaymentId : option string }.

Definition with_status (s : OrderStatus.t) (o : t) : t :=
  {| id := id o; userId := userId o; addressId := addressId o;
     orderNumber := orderNumber o; paymentMethod := paymentMethod o;
     status := s; paymentStatus := paymentStatus o;
     subtotal := subtotal o; tax := tax o; shipping := shipping o;
     total := total o; notes := notes o;
     stripePaymentId := stripePaymentId o |}.

Definition with_paymentStatus (s : PaymentStatus.t) (o : t) : t :=
  {| id := id o; userId := userId o; addressId := addressId o;
     orderNumber := orderNumber o; paymentMethod := paymentMethod o;
     status := status o; paymentStatus := s;
     subtotal := subtotal o; tax := tax o; shipping := shipping o;
     total := total o; notes := notes o;
     stripePaymentId := stripePaymentId o |}.

Definition with_stripePaymentId (s : string) (o : t) : t :=
  {| id := id o; userId := userId o; addressId := addressId o;
     orderNumber := orderNumber o; paymentMethod := paymentMethod o;
     status := status o; paymentStatus := paymentStatus o;
     subtotal := subtotal o; tax := tax o; shipping := shipping o;
     total := total o; notes := notes o;
     stripePaymentId := Some s |}.
End Order.

Module OrderItem.
(** [price] is the catalog decimal copied as it is; [subtotal] is built by
    [new Prisma.Decimal] from a JavaScript number and is kept as that
    number. *)
Record t := mk {
  id : Id; orderId : Id; productId : Id; quantity : Z;
  price : Z; subtotal : float }.
End OrderItem.

(** The database. The product table is keyed by its primary key; the other
    tables keep their rows in insertion order. *)
Record Db := mkDb {
  product : gmap Id Product.t;
  cart : list Cart.t;
  cartItem : list CartItem.t;
  address : list Address.t;
  order : list Order.t;
  orderItem : list OrderItem.t;
  nextId : Id }.

Definition set_product (ps : gmap Id Product.t) (db : Db) : Db :=
  mkDb ps (cart db) (cartItem db) (address db) (order db) (orderItem db)
       (nextId db).
Definition set_cart (cs : list Cart.t) (db : Db) : Db :=
  mkDb (product db) cs (cartItem db) (address db) (order db) (orderItem db)
       (nextId db).
Definition set_cartItem (cis : list CartItem.t) (db : Db) : Db :=
  mkDb (product db) (cart db) cis (address db) (order db) (orderItem db)
       (nextId db).
Definition set_order (os : list Order.t) (db : Db) : Db :=
  mkDb (product db) (cart db) (cartItem db) (address db) os (orderItem db)
       (nextId db).
Definition set_orderItem (ois : list OrderItem.t) (db : Db) : Db :=
  mkDb (product db) (cart db) (cartItem db) (address db) (order db) ois
       (nextId db).
Definition bump_nextId (db : Db) : Db :=
  mkDb (product db) (cart db) (cartItem db) (address db) (order db)
       (orderItem db) (S (nextId db)).

(** ** HTTP responses: [res.status(code).json({ message })] *)

Record Response := resp { status : nat; message : string }.

(** ** Queries *)

(** [findFirst] / [findUnique]: the first row satisfying the filter. *)
Definition findFirst {A} (P : A → Prop) `{∀ x, Decision (P x)}
    (l : list A) : option A :=
  head (filter P l).

(** A JavaScript string used as a condition: absent and empty are falsy. *)
Definition truthy (s : option string) : option string :=
  match s with
  | Some v => if decide (v = EmptyString) then None else Some v
  | None => None
  end.

(** ** Numbers of a request body

    [quantity] is declared [number]: what JSON gives is an integer or a
    number that is none. The handlers compare it with Int columns and add
    it to one, and hand it to Prisma for an Int column. A number that is no
    integer takes part in the comparisons through its floor, since
    [n < x] is [n <= floor x] and [x < n] is [floor x < n] for an integer
    [n]. Its sum with an Int column is taken to be no integer either, with
    the sum of the floors as its floor: binary64 rounds the sum of two
    numbers below 2^31 to an integer, or past one, only when it lies closer
    than 2^-21 to that integer. *)
Inductive BodyNumber :=
| Whole (z : Z)
| Fraction (floor : Z).

(** [!x || x < 1] *)
Definition below_one (x : BodyNumber) : Prop :=
  match x with
  | Whole z => (z = 0 ∨ z < 1)%Z
  | Fraction floor => (floor < 1)%Z
  end.

#[global] Instance below_one_dec x : Decision (below_one x).
Proof. destruct x; simpl; apply _. Defined.

(** [n < x] for an Int column [n]. *)
Definition exceeds (x : BodyNumber) (n : Z) : Prop :=
  match x with
  | Whole z => (n < z)%Z
  | Fraction floor => (n ≤ floor)%Z
  end.

#[global] Instance exceeds_dec x n : Decision (exceeds x n).
Proof. destruct x; simpl; apply _. Defined.

(** [n + x] for an Int column [n]. *)
Definition plus (n : Z) (x : BodyNumber) : BodyNumber :=
  match x with
  | Whole z => Whole (n + z)
  | Fraction floor => Fraction (n + floor)
  end.

(** A number given to Prisma for an Int column: it is written when it is
    an integer, and the query throws when it is not. *)
Definition Int_column (x : BodyNumber) : option Z :=
  match x with
  | Whole z => Some z
  | Fraction _ => None
  end.

(** [prisma.cart.findUnique({ where: { userId } })] *)
Definition cart_findUnique (db : Db) (userId : Id) : option Cart.t :=
  findFirst (λ c, Cart.userId c = userId) (cart db).

(** The [items] relation of a cart. *)
Definition cart_items (db : Db) (cartId : Id) : list CartItem.t :=
  filter (λ ci, CartItem.cartId ci = cartId) (cartItem db).

(** [include: { product: true }] on one cart line. The relation is required:
    a line whose product row is missing makes the query throw. *)
Definition include_product (db : Db) (ci : CartItem.t)
    : option (CartItem.t * Product.t) :=
  p ← product db !! CartItem.productId ci; Some (ci, p).

(** [tx.product.update({ where: { id }, data })]: throws when the row does
    not exist. *)
Definition product_update (id : Id) (f : Product.t → Product.t) (db : Db)
    : option Db :=
  p ← product db !! id; Some (set_product (<[id := f p]> (product db)) db).

(** [tx.order.update({ where: { id }, data })]: throws when the row does not
    exist. *)
Definition order_update (id : Id) (f : Order.t → Order.t) (db : Db)
    : option Db :=
  if decide (Exists (λ o, Order.id o = id) (order db)) then
    Some (set_order
            ((λ o, if decide (Order.id o = id) then f o else o) <$> order db)
            db)
  else None.

(** [for (const x of xs) { await body(x) }] inside a transaction. *)
Fixpoint forEach {A} (body : A → Db → option Db) (xs : list A) (db : Db)
    : option Db :=
  match xs with
  | [] => Some db
  | x :: xs' => db' ← body x db; forEach body xs' db'
  end.

(** ** Cart (cart.controller.ts) *)

(** [getCart]: reads the caller's cart and creates it when absent. *)
Definition getCart (db : Db) (userId : Id) : Response * Db :=
  match cart_findUnique db userId with
  | Some _ => (resp 200 "", db)
  | None =>
      (resp 200 "",
       bump_nextId (set_cart (cart db ++ [Cart.mk (nextId db) userId]) db))
  end.

(** [addToCart]. [quantity] is the number of the request body; an absent
    one and 0 are falsy. The cart is created before the line is written,
    outside any transaction: it stays when the write of the line throws. *)
Definition addToCart (db : Db) (userId : Id)
    (productId : option Id) (quantity : option BodyNumber) : Response * Db :=
  match productId, quantity with
  | Some productId, Some quantity =>
    if decide (below_one quantity) then
      (resp 400 "Product ID and valid quantity are required", db)
    else
    match product db !! productId with
    | None => (resp 404 "Product not found", db)
    | Some p =>
      if decide (exceeds quantity (Product.stock p)) then
        (resp 400 ("Only " +:+ pretty (Product.stock p)
                   +:+ " items available in stock"), db)
      else
      let '(c, db1) :=
        match cart_findUnique db userId with
        | Some c => (c, db)
        | None =>
            let c := Cart.mk (nextId db) userId in
            (c, bump_nextId (set_cart (cart db ++ [c]) db))
        end in
      match findFirst (λ ci, CartItem.cartId ci = Cart.id c
                             ∧ CartItem.productId ci = productId)
                      (cartItem db1) with
      | Some existingItem =>
        let newQuantity := plus (CartItem.quantity existingItem) quantity in
        if decide (exceeds newQuantity (Product.stock p)) then
          (resp 400 ("Only " +:+ pretty (Product.stock p)
                     +:+ " items available in stock"), db1)
        else
          match Int_column newQuantity with
          | Some newQuantity =>
            (resp 200 "Item added to cart",
             set_cartItem
               ((λ ci, if decide (CartItem.id ci = CartItem.id existingItem)
                       then CartItem.with_quantity newQuantity ci else ci)
                  <$> cartItem db1) db1)
          | None => (resp 500 "Failed to add item to cart", db1)
          end
      | None =>
          match Int_column quantity with
          | Some quantity =>
            (resp 200 "Item added to cart",
             bump_nextId
               (set_cartItem
                  (cartItem db1
                   ++ [CartItem.mk (nextId db1) (Cart.id c) productId
                         quantity])
                  db1))
          | None => (resp 500 "Failed to add item to cart", db1)
          end
      end
    end
  | _, _ => (resp 400 "Product ID and valid quantity are required", db)
  end.

(** [updateCartItem]. The line is read with its cart and its product
    ([include: { cart: true, product: true }]); both relations are required. *)
Definition updateCartItem (db : Db) (userId : Id) (itemId : Id)
    (quantity : option BodyNumber) : Response * Db :=
  match quantity with
  | None => (resp 400 "Valid quantity is required", db)
  | Some quantity =>
    if decide (below_one quantity) then
      (resp 400 "Valid quantity is required", db)
    else
    match findFirst (λ ci, CartItem.id ci = itemId) (cartItem db) with
    | None => (resp 404 "Cart item not found", db)
    | Some cartItem0 =>
      match findFirst (λ c, Cart.id c = CartItem.cartId cartItem0) (cart db),
            product db !! CartItem.productId cartItem0 with
      | Some c, Some p =>
        if decide (Cart.userId c ≠ userId) then
          (resp 404 "Cart item not found", db)
        else if decide (exceeds quantity (Product.stock p)) then
          (resp 400 ("Only " +:+ pretty (Product.stock p)
                     +:+ " items available"), db)
        else
          match Int_column quantity with
          | Some quantity =>
            (resp 200 "Cart item updated",
             set_cartItem
               ((λ ci, if decide (CartItem.id ci = itemId)
                       then CartItem.with_quantity quantity ci else ci)
                  <$> cartItem db) db)
          | None => (resp 500 "Failed to update cart item", db)
          end
      | _, _ => (resp 500 "Failed to update cart item", db)
      end
    end
  end.

(** [removeFromCart] *)
Definition removeFromCart (db : Db) (userId : Id) (itemId : Id)
    : Response * Db :=
  match findFirst (λ ci, CartItem.id ci = itemId) (cartItem db) with
  | None => (resp 404 "Cart item not found", db)
  | Some cartItem0 =>
    match findFirst (λ c, Cart.id c = CartItem.cartId cartItem0) (cart db) with
    | None => (resp 500 "Failed to remove item", db)
    | Some c =>
      if decide (Cart.userId c ≠ userId) then
        (resp 404 "Cart item not found", db)
      else
        (resp 200 "Item removed from cart",
         set_cartItem (filter (λ ci, CartItem.id ci ≠ itemId) (cartItem db))
                      db)
    end
  end.

(** [tx.cartItem.deleteMany({ where: { cartId } })] *)
Definition cartItem_deleteMany (cartId : Id) (db : Db) : Db :=
  set_cartItem (filter (λ ci, CartItem.cartId ci ≠ cartId) (cartItem db)) db.

(** [clearCart] *)
Definition clearCart (db : Db) (userId : Id) : Response * Db :=
  match cart_findUnique db userId with
  | None => (resp 404 "Cart not found", db)
  | Some c => (resp 200 "Cart cleared", cartItem_deleteMany (Cart.id c) db)
  end.

(** ** Checkout (order.controller.ts, [createOrder]) *)

Record CreateOrderBody := mkBody {
  addressId : option Id;
  paymentMethod : option string;
  notes : option string }.

Abbreviation CartLine := (CartItem.t * Product.t)%type.

(** [cart.items.reduce((sum, item) => sum + Number(item.product.price) *
    item.quantity, 0)] *)
Definition subtotal_of (items : list CartLine) : float :=
  foldl (λ sum item,
           PrimFloat.add sum
             (PrimFloat.mul (Number (Product.price item.2))
                            (Z2float (CartItem.quantity item.1))))
        (Z2float 0) items.

(** The JavaScript literal [0.1]: the binary64 nearest to one tenth. *)
Definition js_0_1 : float := PrimFloat.div (Z2float 1) (Z2float 10).

Definition tax_of (subtotal : float) : float := PrimFloat.mul subtotal js_0_1.

(** [subtotal > 100 ? 0 : 10] *)
Definition shipping_of (subtotal : float) : float :=
  if PrimFloat.ltb (Z2float 100) subtotal then Z2float 0 else Z2float 10.

Definition total_of (subtotal tax shipping : float) : float :=
  PrimFloat.add (PrimFloat.add subtotal tax) shipping.

(** What [createOrder] holds in its local variables when it reaches
    [prisma.$transaction]: the cart as it was read, with the product rows of
    that read, and the totals computed from them. *)
Record Checkout := mkCheckout {
  co_userId : Id;
  co_addressId : Id;
  co_paymentMethod : option string;
  co_notes : option string;
  co_cart : Cart.t;
  co_items : list CartLine;
  co_subtotal : float;
  co_tax : float;
  co_shipping : float;
  co_total : float }.

Definition insufficient_message (p : Product.t) : string :=
  "Insufficient stock for " +:+ Product.name p +:+ ". Only "
  +:+ pretty (Product.stock p) +:+ " available.".

(** The part of [createOrder] before the transaction: the reads and the
    checks, each answering at once when it fails. *)
Definition createOrder_check (db : Db) (userId : Id) (body : CreateOrderBody)
    : Response + Checkout :=
  match addressId body with
  | None => inl (resp 400 "Shipping address is required")
  | Some addressId =>
    match cart_findUnique db userId with
    | None => inl (resp 400 "Cart is empty")
    | Some c =>
      match mapM (include_product db) (cart_items db (Cart.id c)) with
      | None => inl (resp 500 "Failed to create order")
      | Some items =>
        if decide (length items = 0) then inl (resp 400 "Cart is empty")
        else
        match findFirst (λ a, Address.id a = addressId
                              ∧ Address.userId a = userId) (address db) with
        | None => inl (resp 404 "Address not found")
        | Some _ =>
          match findFirst (λ item : CartLine,
                             (Product.stock item.2
                              < CartItem.quantity item.1)%Z) items with
          | Some item => inl (resp 400 (insufficient_message item.2))
          | None =>
            let subtotal := subtotal_of items in
            let tax := tax_of subtotal in
            let shipping := shipping_of subtotal in
            let total := total_of subtotal tax shipping in
            inr (mkCheckout userId addressId (paymentMethod body)
                   (notes body) c items subtotal tax shipping total)
          end
        end
      end
    end
  end.

(** The row written by [tx.order.create]. Modelled from the spec: the
    defaults of [status] and [paymentStatus] are declared in
    [schema.prisma], which is not among the sources; the spec gives PENDING
    and UNPAID. *)
Definition new_order (co : Checkout) (orderNumber : string) (id : Id)
    : Order.t :=
  Order.mk id (co_userId co) (co_addressId co) orderNumber
    (default "pending" (truthy (co_paymentMethod co)))
    OrderStatus.PENDING PaymentStatus.UNPAID
    (co_subtotal co) (co_tax co) (co_shipping co) (co_total co)
    (co_notes co) None.

(** [tx.order.create]. Modelled from the spec: [orderNumber] carries a
    persisted uniqueness constraint (declared in [schema.prisma]); a
    collision makes the insertion throw. *)
Definition order_create (co : Checkout) (orderNumber : string) (db : Db)
    : option (Order.t * Db) :=
  if decide (Exists (λ o, Order.orderNumber o = orderNumber) (order db))
  then None
  else
    let newOrder := new_order co orderNumber (nextId db) in
    Some (newOrder, bump_nextId (set_order (order db ++ [newOrder]) db)).

(** [tx.orderItem.create] for one cart line. *)
Definition orderItem_create (orderId : Id) (item : CartLine) (db : Db) : Db :=
  bump_nextId
    (set_orderItem
       (orderItem db
        ++ [OrderItem.mk (nextId db) orderId (CartItem.productId item.1)
              (CartItem.quantity item.1) (Product.price item.2)
              (PrimFloat.mul (Number (Product.price item.2))
                             (Z2float (CartItem.quantity item.1)))])
       db).

(** The loop of the checkout transaction: one order line and one stock
    decrement per cart line. *)
Definition checkout_loop (orderId : Id) (items : list CartLine) (db : Db)
    : option Db :=
  forEach (λ item db,
             product_update (CartItem.productId item.1)
               (Product.decrement (CartItem.quantity item.1))
               (orderItem_create orderId item db))
          items db.

(** The callback of [prisma.$transaction] in [createOrder]. *)
Definition createOrder_transaction (co : Checkout) (orderNumber : string)
    (db : Db) : option Db :=
  '(newOrder, db1) ← order_create co orderNumber db;
  db2 ← checkout_loop (Order.id newOrder) (co_items co) db1;
  Some (cartItem_deleteMany (Cart.id (co_cart co)) db2).

(** [createOrder], run to completion. [orderNumber] is the value of
    [generateOrderNumber()]. *)
Definition createOrder (db : Db) (userId : Id) (body : CreateOrderBody)
    (orderNumber : string) : Response * Db :=
  match createOrder_check db userId body with
  | inl r => (r, db)
  | inr co =>
    match createOrder_transaction co orderNumber db with
    | Some db' => (resp 201 "Order placed successfully", db')
    | None => (resp 500 "Failed to create order", db)
    end
  end.

(** ** Order lifecycle (order.controller.ts, payment.controller.ts) *)

(** The [items] relation of an order; also
    [tx.orderItem.findMany({ where: { orderId } })]. *)
Definition order_items (db : Db) (orderId : Id) : list OrderItem.t :=
  filter (λ oi, OrderItem.orderId oi = orderId) (orderItem db).

(** The stock-restoring loop shared by cancellation and refund. *)
Definition restore_stock (items : list OrderItem.t) (db : Db) : option Db :=
  forEach (λ item, product_update (OrderItem.productId item)
                     (Product.increment (OrderItem.quantity item)))
          items db.

(** [cancelOrder] *)
Definition cancelOrder (db : Db) (userId : Id) (id : Id) : Response * Db :=
  match findFirst (λ o, Order.id o = id ∧ Order.userId o = userId)
                  (order db) with
  | None => (resp 404 "Order not found", db)
  | Some o =>
    if decide (Order.status o ≠ OrderStatus.PENDING) then
      (resp 400 "Only pending orders can be cancelled", db)
    else
      match db1 ← restore_stock (order_items db (Order.id o)) db;
            order_update id (Order.with_status OrderStatus.CANCELLED) db1 with
      | Some db' => (resp 200 "Order cancelled successfully", db')
      | None => (resp 500 "Failed to cancel order", db)
      end
  end.

(** [createPaymentIntent]. [intentId] is the mock intent identifier built
    from [Date.now()] and [Math.random()]. *)
Definition createPaymentIntent (db : Db) (userId : Id) (orderId : option Id)
    (intentId : string) : Response * Db :=
  match orderId with
  | None => (resp 400 "Order ID is required", db)
  | Some orderId =>
    match findFirst (λ o, Order.id o = orderId ∧ Order.userId o = userId)
                    (order db) with
    | None => (resp 404 "Order not found", db)
    | Some o =>
      if decide (Order.paymentStatus o = PaymentStatus.PAID) then
        (resp 400 "Order already paid", db)
      else
        match order_update orderId (Order.with_stripePaymentId intentId) db with
        | Some db' => (resp 200 "Payment intent created", db')
        | None => (resp 500 "Failed to create payment intent", db)
        end
    end
  end.

(** [confirmPayment]. [isSuccessful] is the outcome of the mock gateway,
    [Math.random() > 0.1]. *)
Definition confirmPayment (db : Db) (userId : Id)
    (paymentIntentId : option string) (isSuccessful : bool) : Response * Db :=
  match truthy paymentIntentId with
  | None => (resp 400 "Payment intent ID is required", db)
  | Some paymentIntentId =>
    match findFirst (λ o, Order.stripePaymentId o = Some paymentIntentId
                          ∧ Order.userId o = userId) (order db) with
    | None => (resp 404 "Order not found", db)
    | Some o =>
      if isSuccessful then
        match order_update (Order.id o)
                (λ o, Order.with_status OrderStatus.CONFIRMED
                        (Order.with_paymentStatus PaymentStatus.PAID o)) db with
        | Some db' => (resp 200 "Payment successful", db')
        | None => (resp 500 "Failed to process payment", db)
        end
      else
        match order_update (Order.id o)
                (Order.with_paymentStatus PaymentStatus.FAILED) db with
        | Some db' => (resp 400 "Payment failed", db')
        | None => (resp 500 "Failed to process payment", db)
        end
    end
  end.

(** [refundPayment]. [userRole] is [req.user?.role]. The route places the
    middleware [authorize('ADMIN')] before the handler, which answers 403
    to the same callers as the first check below. [orderId] is the field
    of the body: without it [findUnique({ where: { id: undefined } })]
    throws. *)
Definition refundPayment (db : Db) (userRole : option Role)
    (orderId : option Id) : Response * Db :=
  if decide (userRole ≠ Some ADMIN) then
    (resp 403 "Only admins can refund payments", db)
  else
    match orderId with
    | None => (resp 500 "Failed to refund payment", db)
    | Some orderId =>
      match findFirst (λ o, Order.id o = orderId) (order db) with
      | None => (resp 404 "Order not found", db)
      | Some o =>
        if decide (Order.paymentStatus o ≠ PaymentStatus.PAID) then
          (resp 400 "Order is not paid", db)
        else
          match db1 ← restore_stock (order_items db orderId) db;
                order_update orderId
                  (λ o, Order.with_paymentStatus PaymentStatus.REFUNDED
                          (Order.with_status OrderStatus.REFUNDED o)) db1 with
          | Some db' => (resp 200 "Payment refunded successfully", db')
          | None => (resp 500 "Failed to refund payment", db)
          end
      end
    end.

(** ** Checkouts in flight

    A handler runs until it awaits the database, and other requests are
    served meanwhile. [createOrder] awaits its reads, then decides with what
    it has read, then awaits [prisma.$transaction]. Between these two a
    checkout is in flight, its state being the [Checkout] record; [Begin]
    runs a handler up to that point and [Commit] runs its transaction on
    the database of that later moment. *)
Inductive Event :=
| Begin (userId : Id) (body : CreateOrderBody)
| Commit (userId : Id) (orderNumber : string).

Record World := mkWorld {
  w_db : Db;
  w_inflight : list (Id * Checkout);
  w_responses : list (Id * Response) }.

Definition step (w : World) (e : Event) : World :=
  match e with
  | Begin userId body =>
    match createOrder_check (w_db w) userId body with
    | inl r => mkWorld (w_db w) (w_inflight w) (w_responses w ++ [(userId, r)])
    | inr co =>
        mkWorld (w_db w) (w_inflight w ++ [(userId, co)]) (w_responses w)
    end
  | Commit userId orderNumber =>
    match findFirst (λ x : Id * Checkout, x.1 = userId) (w_inflight w) with
    | None => w
    | Some x =>
      let rest := filter (λ x : Id * Checkout, x.1 ≠ userId) (w_inflight w) in
      match createOrder_transaction x.2 orderNumber (w_db w) with
      | Some db' =>
          mkWorld db' rest
            (w_responses w ++ [(userId, resp 201 "Order placed successfully")])
      | None =>
          mkWorld (w_db w) rest
            (w_responses w ++ [(userId, resp 500 "Failed to create order")])
      end
    end
  end.

Definition schedule (es : list Event) (w : World) : World := foldl step w es.

(** ** Requests served one after the other *)

Inductive Request :=
| GetCart (userId : Id)
| AddToCart (userId : Id) (productId : option Id)
    (quantity : option BodyNumber)
| UpdateCartItem (userId itemId : Id) (quantity : option BodyNumber)
| RemoveFromCart (userId itemId : Id)
| ClearCart (userId : Id)
| CreateOrder (userId : Id) (body : CreateOrderBody) (orderNumber : string)
| CancelOrder (userId id : Id)
| CreatePaymentIntent (userId : Id) (orderId : option Id) (intentId : string)
| ConfirmPayment (userId : Id) (paymentIntentId : option string)
    (isSuccessful : bool)
| RefundPayment (userRole : option Role) (orderId : option Id).

Definition handle (db : Db) (req : Request) : Response * Db :=
  match req with
  | GetCart userId => getCart db userId
  | AddToCart userId productId quantity =>
      addToCart db userId productId quantity
  | UpdateCartItem userId itemId quantity =>
      updateCartItem db userId itemId quantity
  | RemoveFromCart userId itemId => removeFromCart db userId itemId
  | ClearCart userId => clearCart db userId
  | CreateOrder userId body orderNumber =>
      createOrder db userId body orderNumber
  | CancelOrder userId id => cancelOrder db userId id
  | CreatePaymentIntent userId orderId intentId =>
      createPaymentIntent db userId orderId intentId
  | ConfirmPayment userId paymentIntentId isSuccessful =>
      confirmPayment db userId paymentIntentId isSuccessful
  | RefundPayment userRole orderId => refundPayment db userRole orderId
  end.

(** The database after the requests [reqs], each run to completion before
    the next one starts. *)
Definition serve (reqs : list Request) (db : Db) : Db :=
  foldl (λ db req, (handle db req).2) db reqs.

(** Each product occurs on at most one line of a cart. *)
Definition cart_lines_unique (db : Db) : Prop :=
  ∀ cartId, NoDup (CartItem.productId <$> cart_items db cartId).

(** What the handlers maintain between requests: no stock is negative, a
    cart has at most one line per product, and the quantity of every cart
    line and of every order line is at least 1. *)
Record consistent (db : Db) : Prop := mkConsistent {
  stock_nonneg :
    ∀ i p, product db !! i = Some p → (0 ≤ Product.stock p)%Z;
  lines_unique : cart_lines_unique db;
  cart_quantity_pos :
    ∀ ci, ci ∈ cartItem db → (1 ≤ CartItem.quantity ci)%Z;
  order_quantity_pos :
    ∀ oi, oi ∈ orderItem db → (1 ≤ OrderItem.quantity oi)%Z }.

(** The requests to the cart handlers and to the payment handlers. *)
Definition product_preserving (req : Request) : Prop :=
  match req with
  | CreateOrder _ _ _ | CancelOrder _ _ | RefundPayment _ _ => False
  | _ => True
  end.

(** ** Stock accounting *)

(** The total quantity that the rows [l] carry for product [i]. *)
Definition quantity_on {A} (pid : A → Id) (qty : A → Z) (i : Id)
    (l : list A) : Z :=
  foldr (λ x acc, if decide (pid x = i) then (qty x + acc)%Z else acc) 0%Z l.

Definition cart_quantity_on (i : Id) (items : list CartLine) : Z :=
  quantity_on (λ item : CartLine, CartItem.productId item.1)
              (λ item : CartLine, CartItem.quantity item.1) i items.

Definition order_quantity_on (i : Id) (items : list OrderItem.t) : Z :=
  quantity_on OrderItem.productId OrderItem.quantity i items.

(** The order lines the checkout loop writes for the cart lines [items],
    the first of them with row number [n]. *)
Fixpoint order_rows (orderId : Id) (n : Id) (items : list CartLine)
    : list OrderItem.t :=
  match items with
  | [] => []
  | item :: items' =>
      OrderItem.mk n orderId (CartItem.productId item.1)
        (CartItem.quantity item.1) (Product.price item.2)
        (PrimFloat.mul (Number (Product.price item.2))
                       (Z2float (CartItem.quantity item.1)))
      :: order_rows orderId (S n) items'
  end.

(** ** Pricing as the specification words it

    The second definition of the pricing rules, following the sentences of
    the specification and not the code: exact arithmetic on cents, each
    derived value a whole number of cents. It is what the handlers are
    compared with. *)
Module PricingSpec.
(** [subtotal = Σ unitPrice·quantity] over lines (unitPrice, quantity). *)
Definition subtotal (lines : list (Z * Z)) : Z :=
  foldr (λ line acc, (line.1 * line.2 + acc)%Z) 0%Z lines.
(** [tax = round2(subtotal × 0.10)], half a cent rounding up. *)
Definition tax (subtotal : Z) : Z := ((subtotal + 5) `div` 10)%Z.
(** [shipping = 0 if subtotal > 100 else 10] *)
Definition shipping (subtotal : Z) : Z :=
  if decide (10000 < subtotal)%Z then 0%Z else 1000%Z.
Definition total (subtotal : Z) : Z :=
  (subtotal + tax subtotal + shipping subtotal)%Z.
(** An order priced in fixed point from the lines of its cart. *)
Definition priced (items : list CartLine) (o : Order.t) : Prop :=
  let s := subtotal ((λ item : CartLine,
                        (Product.price item.2, CartItem.quantity item.1))
                     <$> items) in
  Order.subtotal o = Number s ∧ Order.tax o = Number (tax s) ∧
  Order.shipping o = Number (shipping s) ∧ Order.total o = Number (total s).
End PricingSpec.

(** ** Sample databases *)

(** One product, one customer (user 7) with an address (30) and a cart
    holding one line of that product. *)
Definition shop (price stock quantity : Z) : Db :=
  mkDb {[ 1 := Product.mk "Widget" price stock ]}
       [Cart.mk 10 7] [CartItem.mk 20 10 1 quantity] [Address.mk 30 7]
       [] [] 100.

Definition checkout_body : CreateOrderBody := mkBody (Some 30) None None.

(** ** Postconditions *)

(** An order priced the way [createOrder] computes it: binary64 sums and
    products over the cart lines, nothing rounded. *)
Definition priced_in_binary64 (items : list CartLine) (o : Order.t) : Prop :=
  Order.subtotal o
    = foldl (λ sum (item : CartLine),
               PrimFloat.add sum
                 (PrimFloat.mul (Number (Product.price item.2))
                                (Z2float (CartItem.quantity item.1))))
            (Z2float 0) items ∧
  Order.tax o = PrimFloat.mul (Order.subtotal o) js_0_1 ∧
  Order.shipping o
    = (if PrimFloat.ltb (Z2float 100) (Order.subtotal o)
       then Z2float 0 else Z2float 10) ∧
  Order.total o
    = PrimFloat.add (PrimFloat.add (Order.subtotal o) (Order.tax o))
                    (Order.shipping o).

(** The order line [row] is the snapshot of the cart line [item] for the
    order [orderId]. *)
Definition snapshot_of (db : Db) (orderId : Id) (item : CartLine)
    (row : OrderItem.t) : Prop :=
  product db !! CartItem.productId item.1 = Some item.2 ∧
  OrderItem.orderId row = orderId ∧
  OrderItem.productId row = CartItem.productId item.1 ∧
  OrderItem.quantity row = CartItem.quantity item.1 ∧
  OrderItem.price row = Product.price item.2 ∧
  OrderItem.subtotal row
    = PrimFloat.mul (Number (Product.price item.2))
                    (Z2float (CartItem.quantity item.1)).

(** The database [db'] after the checkout of [userId] on [db]. *)
Definition checked_out (db : Db) (userId : Id) (db' : Db) : Prop :=
  ∃ c items o rows,
    cart_findUnique db userId = Some c ∧
    mapM (include_product db) (cart_items db (Cart.id c)) = Some items ∧
    cart_items db' (Cart.id c) = [] ∧
    order db' = order db ++ [o] ∧
    Order.userId o = userId ∧
    Order.status o = OrderStatus.PENDING ∧
    Order.paymentStatus o = PaymentStatus.UNPAID ∧
    orderItem db' = orderItem db ++ rows ∧
    Forall2 (snapshot_of db (Order.id o)) items rows ∧
    (∀ item : CartLine, item ∈ items →
       (CartItem.quantity item.1 ≤ Product.stock item.2)%Z ∧
       ∃ p', product db' !! CartItem.productId item.1 = Some p' ∧
             Product.name p' = Product.name item.2 ∧
             Product.price p' = Product.price item.2 ∧
             Product.stock p'
               = (Product.stock item.2 - CartItem.quantity item.1)%Z) ∧
    (∀ i, (∀ item : CartLine, item ∈ items → CartItem.productId item.1 ≠ i) →
       product db' !! i = product db !! i).

(** The database [db'] after the lines of order [id] were released to the
    stock of [db] and the rows of that order rewritten by [f]: every stock
    is higher by the quantity the order holds of that product, and nothing
    else has changed. *)
Definition released (db : Db) (id : Id) (f : Order.t → Order.t) (db' : Db)
    : Prop :=
  (∀ i, product db' !! i
        = Product.increment (order_quantity_on i (order_items db id))
            <$> product db !! i) ∧
  order db' = (λ o, if decide (Order.id o = id) then f o else o) <$> order db ∧
  cart db' = cart db ∧ cartItem db' = cartItem db ∧
  address db' = address db ∧ orderItem db' = orderItem db ∧
  nextId db' = nextId db.

(** The row [o'] is the row [o] but for its status and its payment
    status. *)
Definition same_but_statuses (o o' : Order.t) : Prop :=
  Order.id o' = Order.id o ∧ Order.userId o' = Order.userId o ∧
  Order.addressId o' = Order.addressId o ∧
  Order.orderNumber o' = Order.orderNumber o ∧
  Order.paymentMethod o' = Order.paymentMethod o ∧
  Order.subtotal o' = Order.subtotal o ∧ Order.tax o' = Order.tax o ∧
  Order.shipping o' = Order.shipping o ∧ Order.total o' = Order.total o ∧
  Order.notes o' = Order.notes o ∧
  Order.stripePaymentId o' = Order.stripePaymentId o.

(** The database [db'] after the order [id] of [db] was given up. The
    product table has the rows it had, names and prices as they were, and
    the stock of each is what it was plus the quantity the order holds of
    that product. The rows of the order table are those of [db], in their
    order; the one of the order [id] has the status [status] and the
    payment status [paymentStatus], or the one it had when none is given,
    and is otherwise as it was. Nothing else has changed. *)
Definition released_as (db : Db) (id : Id) (status : OrderStatus.t)
    (paymentStatus : option PaymentStatus.t) (db' : Db) : Prop :=
  (∀ i, match product db !! i, product db' !! i with
        | Some p, Some p' =>
            Product.name p' = Product.name p ∧
            Product.price p' = Product.price p ∧
            Product.stock p'
              = (Product.stock p
                 + order_quantity_on i
                     (filter (λ oi, OrderItem.orderId oi = id)
                             (orderItem db)))%Z
        | None, None => True
        | _, _ => False
        end) ∧
  Forall2 (λ o o',
             if decide (Order.id o = id) then
               Order.status o' = status ∧
               Order.paymentStatus o'
                 = default (Order.paymentStatus o) paymentStatus ∧
               same_but_statuses o o'
             else o' = o)
          (order db) (order db') ∧
  cart db' = cart db ∧ cartItem db' = cartItem db ∧
  address db' = address db ∧ orderItem db' = orderItem db ∧
  nextId db' = nextId db.

(** Every line of order [id] refers to a product row. *)
Definition order_products_exist (db : Db) (id : Id) : Prop :=
  ∀ oi, oi ∈ order_items db id → is_Some (product db !! OrderItem.productId oi).

(** The shop of the specification's scenario (price 20.00, stock 5, 3 units
    in the cart) after the checkout of user 7: order 100 is PENDING and the
    stock is 2. *)
Definition ordered_shop : Db :=
  (createOrder (shop 2000 5 3) 7 checkout_body "ORD-A-0001").2.

(** Then, after user 7 has cancelled order 100. *)
Definition cancelled_shop : Db := (cancelOrder ordered_shop 7 100).2.

(** Or, after a payment intent was created for order 100 and the gateway
    has accepted the payment. *)
Definition paid_shop : Db :=
  (confirmPayment
     (createPaymentIntent ordered_shop 7 (Some 100) "pi_mock_1").2
     7 (Some "pi_mock_1") true).2.

(** One unit left of product 1, and two customers (users 7 and 8), each
    with an address and a cart holding one unit of it. *)
Definition last_unit_shop : Db :=
  mkDb {[ 1 := Product.mk "Widget" 2000 1 ]}
       [Cart.mk 10 7; Cart.mk 11 8]
       [CartItem.mk 20 10 1 1; CartItem.mk 21 11 1 1]
       [Address.mk 30 7; Address.mk 31 8]
       [] [] 100.

(** The shop after user 7 has checked out and then put one more unit in
    the cart. *)
Definition restocked_cart_shop : Db :=
  (handle ordered_shop (AddToCart 7 (Some 1) (Some (Whole 1)))).2.

(** * Keys, references and the handlers that only read *)

(** ** Row identifiers

    What the primary keys and the unique indexes of the tables amount to in
    the model: within a table no identifier occurs twice, a user has at most
    one cart, and every identifier in use, as a key or as a reference to a
    cart or to an order, lies below [nextId]. *)
Record keyed (db : Db) : Prop := mkKeyed {
  cart_id_unique : NoDup (Cart.id <$> cart db);
  cart_user_unique : NoDup (Cart.userId <$> cart db);
  cartItem_id_unique : NoDup (CartItem.id <$> cartItem db);
  order_id_unique : NoDup (Order.id <$> order db);
  orderItem_id_unique : NoDup (OrderItem.id <$> orderItem db);
  cart_id_below : ∀ c, c ∈ cart db → Cart.id c < nextId db;
  cartItem_id_below :
    ∀ ci, ci ∈ cartItem db →
      CartItem.id ci < nextId db ∧ CartItem.cartId ci < nextId db;
  order_id_below : ∀ o, o ∈ order db → Order.id o < nextId db;
  orderItem_id_below :
    ∀ oi, oi ∈ orderItem db →
      OrderItem.id oi < nextId db ∧ OrderItem.orderId oi < nextId db }.

(** The quantity the cart [cartId] holds of product [productId]. *)
Definition line_quantity (db : Db) (cartId productId : Id) : Z :=
  quantity_on CartItem.productId CartItem.quantity productId
              (cart_items db cartId).

(** The user on whose behalf a request is made. A refund is made by an
    administrator and names no owner. *)
Definition acting_user (req : Request) : option Id :=
  match req with
  | GetCart userId | AddToCart userId _ _ | UpdateCartItem userId _ _
  | RemoveFromCart userId _ | ClearCart userId | CreateOrder userId _ _
  | CancelOrder userId _ | CreatePaymentIntent userId _ _
  | ConfirmPayment userId _ _ => Some userId
  | RefundPayment _ _ => None
  end.

(** ** References between the tables

    What the foreign keys amount to in the model: every cart line lies in a
    cart and names a product, every order line lies in an order and names
    a product. *)
Record linked (db : Db) : Prop := mkLinked {
  cartItem_cart :
    ∀ ci, ci ∈ cartItem db →
      ∃ c, c ∈ cart db ∧ Cart.id c = CartItem.cartId ci;
  cartItem_product :
    ∀ ci, ci ∈ cartItem db → is_Some (product db !! CartItem.productId ci);
  orderItem_order :
    ∀ oi, oi ∈ orderItem db →
      ∃ o, o ∈ order db ∧ Order.id o = OrderItem.orderId oi;
  orderItem_product :
    ∀ oi, oi ∈ orderItem db → is_Some (product db !! OrderItem.productId oi) }.

(** ** Handlers that only read *)

(** [getOrder]: the caller's order with its lines. The address and the
    product of each line, which the answer also carries, are left out. *)
Definition getOrder (db : Db) (userId id : Id)
    : Response * option (Order.t * list OrderItem.t) :=
  match findFirst (λ o, Order.id o = id ∧ Order.userId o = userId)
                  (order db) with
  | None => (resp 404 "Order not found", None)
  | Some o => (resp 200 "", Some (o, order_items db (Order.id o)))
  end.

(** The columns that [getPaymentStatus] selects. *)
Record PaymentView := mkPaymentView {
  pv_id : Id;
  pv_orderNumber : string;
  pv_status : OrderStatus.t;
  pv_paymentStatus : PaymentStatus.t;
  pv_paymentMethod : string;
  pv_total : float;
  pv_stripePaymentId : option string }.

(** [getPaymentStatus] *)
Definition getPaymentStatus (db : Db) (userId orderId : Id)
    : Response * option PaymentView :=
  match findFirst (λ o, Order.id o = orderId ∧ Order.userId o = userId)
                  (order db) with
  | None => (resp 404 "Order not found", None)
  | Some o =>
      (resp 200 "",
       Some (mkPaymentView (Order.id o) (Order.orderNumber o) (Order.status o)
               (Order.paymentStatus o) (Order.paymentMethod o) (Order.total o)
               (Order.stripePaymentId o)))
  end.

(** * Order numbers ([generateOrderNumber], order.controller.ts) *)

(** The digits of [n] in base 36, the least significant first. [fuel]
    bounds their number. *)
Fixpoint digits36 (fuel : nat) (n : N) : list N :=
  match fuel with
  | 0 => []
  | S fuel =>
      (n `mod` 36)%N
      :: if decide (n `div` 36 = 0)%N then [] else digits36 fuel (n `div` 36)%N
  end.

(** The digit [d] as [toString(36)] writes it: 0 to 9, then a to z. *)
Definition digit36 (d : N) : Ascii.ascii :=
  if decide (d < 10)%N then Ascii.ascii_of_N (48 + d)
  else Ascii.ascii_of_N (87 + d).

(** [n.toString(36)] for an integer [n] that is not negative. *)
Definition toString36 (n : N) : string :=
  String.string_of_list_ascii
    (digit36 <$> reverse (digits36 (S (N.to_nat (N.log2 n))) n)).

(** [String.prototype.toUpperCase] on ASCII text. *)
Definition upper (c : Ascii.ascii) : Ascii.ascii :=
  let k := Ascii.N_of_ascii c in
  if decide (97 ≤ k ≤ 122)%N then Ascii.ascii_of_N (k - 32) else c.

Fixpoint toUpperCase (s : string) : string :=
  match s with
  | EmptyString => EmptyString
  | String c s' => String (upper c) (toUpperCase s')
  end.

(** [generateOrderNumber()]. [now] is [Date.now()] and [random36] is
    [Math.random().toString(36)], of which [substring(2, 6)] keeps up to
    four characters after the leading "0.". *)
Definition generateOrderNumber (now : N) (random36 : string) : string :=
  let timestamp := toUpperCase (toString36 now) in
  let random := toUpperCase (String.substring 2 4 random36) in
  "ORD-" +:+ timestamp +:+ "-" +:+ random.

(** The value of base-36 digits, the least significant first. *)
Fixpoint value36 (ds : list N) : N :=
  match ds with
  | [] => 0
  | d :: ds' => d + 36 * value36 ds'
  end.

(** The character that separates the parts of an order number. *)
Definition dash : Ascii.ascii :=
  Ascii.Ascii true false true true false true false false.

(** The value of an upper-case base-36 digit. *)
Definition val36 (c : Ascii.ascii) : N :=
  let k := Ascii.N_of_ascii c in
  if decide (48 ≤ k ≤ 57)%N then (k - 48)%N
  else if decide (65 ≤ k ≤ 90)%N then (k - 55)%N else 0%N.

(** * Administration (admin.controller.ts) *)

(** [updateOrderStatus]. The two body fields are enum names; a name that
    is given is one that the database accepts. The route lets only
    administrators through. *)
Definition updateOrderStatus (db : Db) (id : Id)
    (status : option OrderStatus.t) (paymentStatus : option PaymentStatus.t)
    : Response * Db :=
  match status, paymentStatus with
  | None, None => (resp 400 "Status or payment status is required", db)
  | _, _ =>
    match findFirst (λ o, Order.id o = id) (order db) with
    | None => (resp 404 "Order not found", db)
    | Some _ =>
      match order_update id
              (λ o, let o1 := match status with
                              | Some s => Order.with_status s o
                              | None => o
                              end in
                    match paymentStatus with
                    | Some ps => Order.with_paymentStatus ps o1
                    | None => o1
                    end)
              db with
      | Some db' => (resp 200 "Order updated successfully", db')
      | None => (resp 500 "Failed to update order", db)
      end
    end
  end.

(** * Reviews (review.controller.ts) *)

Module Review.
(** [rating] is the number of the request body, taken to be integral;
    [images] is left out. *)
Record t := mk {
  id : Id; userId : Id; productId : Id;
  rating : Z; title : option string; comment : string; isVerified : bool }.
Definition with_rating (r : Z) (x : t) : t :=
  {| id := id x; userId := userId x; productId := productId x;
     rating := r; title := title x; comment := comment x;
     isVerified := isVerified x |}.
Definition with_title (s : option string) (x : t) : t :=
  {| id := id x; userId := userId x; productId := productId x;
     rating := rating x; title := s; comment := comment x;
     isVerified := isVerified x |}.
Definition with_comment (s : string) (x : t) : t :=
  {| id := id x; userId := userId x; productId := productId x;
     rating := rating x; title := title x; comment := s;
     isVerified := isVerified x |}.
End Review.

(** The review table, beside the tables of [Db]. *)
Record Reviews := mkReviews { review : list Review.t; nextReviewId : Id }.

(** [prisma.orderItem.findFirst({ where: { productId, order: { userId,
    status: 'DELIVERED' } } })] *)
Definition purchased_line (db : Db) (userId productId : Id)
    : option OrderItem.t :=
  findFirst (λ oi, OrderItem.productId oi = productId
                   ∧ Exists (λ o, Order.id o = OrderItem.orderId oi
                                  ∧ Order.userId o = userId
                                  ∧ Order.status o = OrderStatus.DELIVERED)
                            (order db))
            (orderItem db).

(** [createReview]. A [title] that is absent or null is stored as null. *)
Definition createReview (db : Db) (rs : Reviews) (userId : Id)
    (productId : option Id) (rating : option Z) (title : option string)
    (comment : option string) : Response * Reviews :=
  match productId, rating, truthy comment with
  | Some productId, Some rating, Some comment =>
    if decide (rating = 0)%Z then
      (resp 400 "Product ID, rating, and comment are required", rs)
    else if decide (rating < 1 ∨ 5 < rating)%Z then
      (resp 400 "Rating must be between 1 and 5", rs)
    else
    match product db !! productId with
    | None => (resp 404 "Product not found", rs)
    | Some _ =>
      match findFirst (λ r, Review.userId r = userId
                            ∧ Review.productId r = productId)
                      (review rs) with
      | Some _ => (resp 400 "You have already reviewed this product", rs)
      | None =>
        let hasPurchased := purchased_line db userId productId in
        (resp 201 "Review created successfully",
         mkReviews
           (review rs
            ++ [Review.mk (nextReviewId rs) userId productId rating title
                  comment (bool_decide (is_Some hasPurchased))])
           (S (nextReviewId rs)))
      end
    end
  | _, _, _ =>
      (resp 400 "Product ID, rating, and comment are required", rs)
  end.

(** The [data] of [updateReview]: a rating that is truthy, a title that is
    not undefined (null included), a comment that is truthy. *)
Definition review_patch (rating : option Z) (title : option (option string))
    (comment : option string) (x : Review.t) : Review.t :=
  let x1 := match rating with
            | Some r => if decide (r = 0)%Z then x else Review.with_rating r x
            | None => x
            end in
  let x2 := match title with
            | Some t => Review.with_title t x1
            | None => x1
            end in
  match truthy comment with
  | Some c => Review.with_comment c x2
  | None => x2
  end.

(** [updateReview] *)
Definition updateReview (rs : Reviews) (userId id : Id)
    (rating : option Z) (title : option (option string))
    (comment : option string) : Response * Reviews :=
  match findFirst (λ r, Review.id r = id ∧ Review.userId r = userId)
                  (review rs) with
  | None => (resp 404 "Review not found", rs)
  | Some _ =>
      (resp 200 "Review updated successfully",
       mkReviews
         ((λ r, if decide (Review.id r = id)
                then review_patch rating title comment r else r)
            <$> review rs)
         (nextReviewId rs))
  end.

(** [deleteReview] *)
Definition deleteReview (rs : Reviews) (userId id : Id)
    : Response * Reviews :=
  match findFirst (λ r, Review.id r = id ∧ Review.userId r = userId)
                  (review rs) with
  | None => (resp 404 "Review not found", rs)
  | Some _ =>
      (resp 200 "Review deleted successfully",
       mkReviews (filter (λ r, Review.id r ≠ id) (review rs))
                 (nextReviewId rs))
  end.

(** Requests to the review handlers that write. *)
Inductive ReviewRequest :=
| CreateReview (userId : Id) (productId : option Id) (rating : option Z)
    (title : option string) (comment : option string)
| UpdateReview (userId id : Id) (rating : option Z)
    (title : option (option string)) (comment : option string)
| DeleteReview (userId id : Id).

Definition handle_review (db : Db) (rs : Reviews) (req : ReviewRequest)
    : Response * Reviews :=
  match req with
  | CreateReview userId productId rating title comment =>
      createReview db rs userId productId rating title comment
  | UpdateReview userId id rating title comment =>
      updateReview rs userId id rating title comment
  | DeleteReview userId id => deleteReview rs userId id
  end.

(** The review table is well formed: identifiers are unique and below the
    next one, and a user has at most one review of a product. *)
Record reviewed_once (rs : Reviews) : Prop := mkReviewedOnce {
  review_id_unique : NoDup (Review.id <$> review rs);
  review_id_below : ∀ r, r ∈ review rs → Review.id r < nextReviewId rs;
  review_pair_unique :
    NoDup ((λ r, (Review.userId r, Review.productId r)) <$> review rs) }.

(** Every rating in the table lies between 1 and 5. *)
Definition rating_in_range (rs : Reviews) : Prop :=
  ∀ x, x ∈ review rs → (1 ≤ Review.rating x ≤ 5)%Z.

(** One review, by user 7 of product 1. *)
Definition one_review : Reviews :=
  mkReviews [Review.mk 0 7 1 4 None "Does the job" false] 1.

(** * Accounts (auth.controller.ts, auth.middleware.ts, the routes) *)

(** The payload of an access token ([UserPayload]); it becomes
    [req.user]. *)
Record UserPayload := mkPayload {
  up_id : Id; up_email : string; up_role : Role }.

Module User.
Record t := mk {
  id : Id; email : string; password : string;
  firstName : string; lastName : string; avatar : option string;
  role : Role; refreshToken : option string }.
Definition with_refreshToken (s : string) (u : t) : t :=
  {| id := id u; email := email u; password := password u;
     firstName := firstName u; lastName := lastName u; avatar := avatar u;
     role := role u; refreshToken := Some s |}.
Definition with_firstName (s : string) (u : t) : t :=
  {| id := id u; email := email u; password := password u;
     firstName := s; lastName := lastName u; avatar := avatar u;
     role := role u; refreshToken := refreshToken u |}.
Definition with_lastName (s : string) (u : t) : t :=
  {| id := id u; email := email u; password := password u;
     firstName := firstName u; lastName := s; avatar := avatar u;
     role := role u; refreshToken := refreshToken u |}.
Definition with_avatar (s : string) (u : t) : t :=
  {| id := id u; email := email u; password := password u;
     firstName := firstName u; lastName := lastName u; avatar := Some s;
     role := role u; refreshToken := refreshToken u |}.
Definition payload (u : t) : UserPayload := mkPayload (id u) (email u) (role u).
End User.

(** The user table. *)
Record Users := mkUsers { user : list User.t; nextUserId : Id }.

(** What [register] and [login] hand to the caller. *)
Record Session := mkSession {
  s_user : UserPayload; s_accessToken : string; s_refreshToken : string }.

(** [prisma.user.update({ where: { id }, data })]: throws when the row does
    not exist. *)
Definition user_update (id : Id) (f : User.t → User.t) (us : Users)
    : option Users :=
  if decide (Exists (λ u, User.id u = id) (user us)) then
    Some (mkUsers ((λ u, if decide (User.id u = id) then f u else u)
                     <$> user us)
                  (nextUserId us))
  else None.

(** The columns that [getMe] selects, of those of the model: neither the
    password hash nor the refresh token is among them. *)
Record Profile := mkProfile {
  pr_id : Id; pr_email : string; pr_firstName : string;
  pr_lastName : string; pr_avatar : option string; pr_role : Role }.

Section accounts.

(** [bcryptjs] and [utils/jwt] are libraries and a module outside the
    sources. [bcrypt_hash] takes the salt it draws as its first argument;
    [verifyAccessToken] yields nothing where the original throws. *)
Variable bcrypt_hash : string → string → string.
Variable bcrypt_compare : string → string → bool.
Variable generateAccessToken generateRefreshToken : UserPayload → string.
Variable verifyAccessToken : string → option UserPayload.

(** [register]. A [role] that is given is an enum name that the database
    accepts. *)
Definition register (us : Users)
    (email password firstName lastName : option string) (role : option Role)
    (salt : string) : Response * option Session * Users :=
  match truthy email, truthy password, truthy firstName, truthy lastName with
  | Some email, Some password, Some firstName, Some lastName =>
    match findFirst (λ u, User.email u = email) (user us) with
    | Some _ => (resp 400 "User already exists", None, us)
    | None =>
      let u := User.mk (nextUserId us) email (bcrypt_hash salt password)
                 firstName lastName None (default CUSTOMER role) None in
      let accessToken := generateAccessToken (User.payload u) in
      let refreshToken := generateRefreshToken (User.payload u) in
      (resp 201 "User registered successfully",
       Some (mkSession (User.payload u) accessToken refreshToken),
       mkUsers (user us ++ [User.with_refreshToken refreshToken u])
               (S (nextUserId us)))
    end
  | _, _, _, _ =>
      (resp 400 "Email, password, firstName, and lastName are required",
       None, us)
  end.

(** [login] *)
Definition login (us : Users) (email password : option string)
    : Response * option Session * Users :=
  match truthy email, truthy password with
  | Some email, Some password =>
    match findFirst (λ u, User.email u = email) (user us) with
    | None => (resp 401 "Invalid credentials", None, us)
    | Some u =>
      if bcrypt_compare password (User.password u) then
        let accessToken := generateAccessToken (User.payload u) in
        let refreshToken := generateRefreshToken (User.payload u) in
        match user_update (User.id u) (User.with_refreshToken refreshToken)
                us with
        | Some us' =>
            (resp 200 "Login successful",
             Some (mkSession (User.payload u) accessToken refreshToken), us')
        | None => (resp 500 "Login failed", None, us)
        end
      else (resp 401 "Invalid credentials", None, us)
    end
  | _, _ => (resp 400 "Email and password are required", None, us)
  end.

(** [getMe] *)
Definition getMe (us : Users) (userId : Id) : Response * option Profile :=
  match findFirst (λ u, User.id u = userId) (user us) with
  | None => (resp 404 "User not found", None)
  | Some u =>
      (resp 200 "",
       Some (mkProfile (User.id u) (User.email u) (User.firstName u)
               (User.lastName u) (User.avatar u) (User.role u)))
  end.

(** [updateProfile]: each of the three fields is written when truthy. *)
Definition updateProfile (us : Users) (userId : Id)
    (firstName lastName avatar : option string) : Response * Users :=
  match user_update userId
          (λ u, let u1 := from_option (λ s, User.with_firstName s u) u
                            (truthy firstName) in
                let u2 := from_option (λ s, User.with_lastName s u1) u1
                            (truthy lastName) in
                from_option (λ s, User.with_avatar s u2) u2 (truthy avatar))
          us with
  | Some us' => (resp 200 "Profile updated successfully", us')
  | None => (resp 500 "Failed to update profile", us)
  end.

(** [authenticate]: what it answers, or the [req.user] it passes on. *)
Definition authenticate (authorization : option string)
    : Response + UserPayload :=
  match truthy authorization with
  | None => inl (resp 401 "Access token required")
  | Some authHeader =>
    if String.prefix "Bearer " authHeader then
      let token := String.substring 7 (String.length authHeader - 7)
                     authHeader in
      match verifyAccessToken token with
      | Some decoded => inr decoded
      | None => inl (resp 403 "Invalid or expired token")
      end
    else inl (resp 401 "Access token required")
  end.

(** [authorize(...roles)]: what it answers, or nothing when it calls
    [next()]. *)
Definition authorize (roles : list Role) (user : option UserPayload)
    : option Response :=
  match user with
  | None => Some (resp 401 "User not authenticated")
  | Some u =>
    if decide (up_role u ∈ roles) then None
    else Some (resp 403
                 "You do not have permission to access this resource")
  end.

(** A route of the cart, order and payment routers, all of which start
    with [router.use(authenticate)], other than POST /refund: [call] is
    the handler with its parameters and body, to which the route supplies
    [req.user.id]. *)
Definition customer_route (authorization : option string)
    (call : Id → Request) (db : Db) : Response * Db :=
  match authenticate authorization with
  | inl r => (r, db)
  | inr u => handle db (call (up_id u))
  end.

(** [router.post('/refund', authorize('ADMIN'), refundPayment)] behind
    [router.use(authenticate)]. *)
Definition refund_route (authorization : option string) (db : Db)
    (orderId : option Id) : Response * Db :=
  match authenticate authorization with
  | inl r => (r, db)
  | inr u =>
    match authorize [ADMIN] (Some u) with
    | Some r => (r, db)
    | None => refundPayment db (Some (up_role u)) orderId
    end
  end.

(** [router.put('/orders/:id', updateOrderStatus)] behind
    [router.use(authenticate)] and [router.use(authorize('ADMIN'))]. *)
Definition updateOrderStatus_route (authorization : option string) (db : Db)
    (id : Id) (status : option OrderStatus.t)
    (paymentStatus : option PaymentStatus.t) : Response * Db :=
  match authenticate authorization with
  | inl r => (r, db)
  | inr u =>
    match authorize [ADMIN] (Some u) with
    | Some r => (r, db)
    | None => updateOrderStatus db id status paymentStatus
    end
  end.

End accounts.

(** The user table is well formed: identifiers and e-mail addresses are
    unique, identifiers lie below the next one. *)
Record registered_once (us : Users) : Prop := mkRegisteredOnce {
  user_id_unique : NoDup (User.id <$> user us);
  user_email_unique : NoDup (User.email <$> user us);
  user_id_below : ∀ u, u ∈ user us → User.id u < nextUserId us }.

(** ** Stand-ins for the libraries, to run the account handlers *)

(** A hash that keeps the password under its salt, and tokens that spell
    out the identifier of the user: stand-ins with which the handlers can
    be evaluated, not models of bcrypt or of JWT. *)
Definition toy_hash (salt password : string) : string :=
  salt +:+ "$" +:+ password.
Definition toy_compare (password hashed : string) : bool :=
  bool_decide (String.substring (String.length hashed
                                 - String.length password)
                                (String.length password) hashed = password).
Definition toy_token (u : UserPayload) : string :=
  pretty (up_id u) +:+ (match up_role u with
                        | CUSTOMER => ":customer"
                        | SELLER => ":seller"
                        | ADMIN => ":admin"
                        end).
Definition toy_verify (users : list UserPayload) (token : string)
    : option UserPayload :=
  findFirst (λ u, toy_token u = token) users.

(** One registered customer. *)
Definition one_user : Users :=
  mkUsers [User.mk 0 "ada@example.org" (toy_hash "NaCl" "s3cret") "Ada"
             "Lovelace" None CUSTOMER None] 1.

(** * Wishlists (wishlist.controller.ts) *)

Module Wishlist.
Record t := mk { id : Id; userId : Id }.
End Wishlist.

Module WishlistItem.
Record t := mk { id : Id; wishlistId : Id; productId : Id }.
End WishlistItem.

(** The two wishlist tables, beside the tables of [Db]. *)
Record Wishes := mkWishes {
  wishlist : list Wishlist.t;
  wishlistItem : list WishlistItem.t;
  nextWishId : Id }.

(** [prisma.wishlist.findUnique({ where: { userId } })], and the row that
    [prisma.wishlist.create] adds when there is none. *)
Definition wishlist_of (ws : Wishes) (userId : Id) : Wishlist.t * Wishes :=
  match findFirst (λ w, Wishlist.userId w = userId) (wishlist ws) with
  | Some w => (w, ws)
  | None =>
      let w := Wishlist.mk (nextWishId ws) userId in
      (w, mkWishes (wishlist ws ++ [w]) (wishlistItem ws)
            (S (nextWishId ws)))
  end.

(** [getWishlist]: the caller's wishlist, created when absent, with its
    items. The average rating that the answer adds to each product is left
    out. *)
Definition getWishlist (ws : Wishes) (userId : Id)
    : Response * list WishlistItem.t * Wishes :=
  let '(w, ws1) := wishlist_of ws userId in
  (resp 200 "",
   filter (λ i, WishlistItem.wishlistId i = Wishlist.id w) (wishlistItem ws1),
   ws1).

(** [addToWishlist] *)
Definition addToWishlist (db : Db) (ws : Wishes) (userId : Id)
    (productId : option Id) : Response * Wishes :=
  match productId with
  | None => (resp 400 "Product ID is required", ws)
  | Some productId =>
    match product db !! productId with
    | None => (resp 404 "Product not found", ws)
    | Some _ =>
      let '(w, ws1) := wishlist_of ws userId in
      match findFirst (λ i, WishlistItem.wishlistId i = Wishlist.id w
                            ∧ WishlistItem.productId i = productId)
                      (wishlistItem ws1) with
      | Some _ => (resp 400 "Product already in wishlist", ws1)
      | None =>
          (resp 200 "Product added to wishlist",
           mkWishes (wishlist ws1)
             (wishlistItem ws1
              ++ [WishlistItem.mk (nextWishId ws1) (Wishlist.id w) productId])
             (S (nextWishId ws1)))
      end
    end
  end.

(** [removeFromWishlist]. The item is read with its wishlist
    ([include: { wishlist: true }]), a required relation. *)
Definition removeFromWishlist (ws : Wishes) (userId itemId : Id)
    : Response * Wishes :=
  match findFirst (λ i, WishlistItem.id i = itemId) (wishlistItem ws) with
  | None => (resp 404 "Wishlist item not found", ws)
  | Some item =>
    match findFirst (λ w, Wishlist.id w = WishlistItem.wishlistId item)
                    (wishlist ws) with
    | None => (resp 500 "Failed to remove from wishlist", ws)
    | Some w =>
      if decide (Wishlist.userId w ≠ userId) then
        (resp 404 "Wishlist item not found", ws)
      else
        (resp 200 "Item removed from wishlist",
         mkWishes (wishlist ws)
           (filter (λ i, WishlistItem.id i ≠ itemId) (wishlistItem ws))
           (nextWishId ws))
    end
  end.

(** [clearWishlist] *)
Definition clearWishlist (ws : Wishes) (userId : Id) : Response * Wishes :=
  match findFirst (λ w, Wishlist.userId w = userId) (wishlist ws) with
  | None => (resp 404 "Wishlist not found", ws)
  | Some w =>
      (resp 200 "Wishlist cleared",
       mkWishes (wishlist ws)
         (filter (λ i, WishlistItem.wishlistId i ≠ Wishlist.id w)
                 (wishlistItem ws))
         (nextWishId ws))
  end.

Inductive WishRequest :=
| GetWishlist (userId : Id)
| AddToWishlist (userId : Id) (productId : option Id)
| RemoveFromWishlist (userId itemId : Id)
| ClearWishlist (userId : Id).

Definition handle_wish (db : Db) (ws : Wishes) (req : WishRequest)
    : Response * Wishes :=
  match req with
  | GetWishlist userId =>
      let '(r, _, ws') := getWishlist ws userId in (r, ws')
  | AddToWishlist userId productId => addToWishlist db ws userId productId
  | RemoveFromWishlist userId itemId => removeFromWishlist ws userId itemId
  | ClearWishlist userId => clearWishlist ws userId
  end.

(** The wishlist tables are well formed: identifiers are unique and below
    the next one, a user has at most one wishlist, and a wishlist holds a
    product at most once. *)
Record wished_once (ws : Wishes) : Prop := mkWishedOnce {
  wishlist_id_unique : NoDup (Wishlist.id <$> wishlist ws);
  wishlist_user_unique : NoDup (Wishlist.userId <$> wishlist ws);
  wishlistItem_id_unique : NoDup (WishlistItem.id <$> wishlistItem ws);
  wishlistItem_pair_unique :
    NoDup ((λ i, (WishlistItem.wishlistId i, WishlistItem.productId i))
             <$> wishlistItem ws);
  wishlist_id_below : ∀ w, w ∈ wishlist ws → Wishlist.id w < nextWishId ws;
  wishlistItem_id_below :
    ∀ i, i ∈ wishlistItem ws →
      WishlistItem.id i < nextWishId ws
      ∧ WishlistItem.wishlistId i < nextWishId ws }.

(** No wishlist yet. *)
Definition no_wishes : Wishes := mkWishes [] [] 0.

(** * Properties *)

(** ** Queries *)

Section queries.
Context {A : Type} (P : A → Prop) `{∀ x, Decision (P x)}.

Lemma findFirst_Some (l : list A) x :
  findFirst P l = Some x → x ∈ l ∧ P x.
Proof.
  unfold findFirst. intros Hh. apply head_Some_elem_of in Hh.
  apply list_elem_of_filter in Hh. tauto.
Qed.

Lemma findFirst_None (l : list A) :
  findFirst P l = None ↔ ∀ x, x ∈ l → ¬ P x.
Proof.
  unfold findFirst. rewrite head_None. split.
  - intros Hnil x Hx HP. by apply (filter_nil_not_elem_of P l x).
  - intros Hall. induction l as [|y l IH]; [done|].
    rewrite filter_cons_False; [|apply Hall; left].
    apply IH. intros x Hx. apply Hall. by right.
Qed.

Lemma findFirst_is_Some (l : list A) x :
  x ∈ l → P x → is_Some (findFirst P l).
Proof.
  intros Hx HP. destruct (findFirst P l) eqn:E; [eauto|].
  exfalso. eapply findFirst_None; eauto.
Qed.

(** With several matching rows it is the earliest that is returned. *)
Lemma findFirst_cons (l : list A) x :
  findFirst P (x :: l) = if decide (P x) then Some x else findFirst P l.
Proof. unfold findFirst. rewrite filter_cons. by case_decide. Qed.
End queries.

Lemma cart_lines_deleted cartId (l : list CartItem.t) :
  filter (λ ci, CartItem.cartId ci = cartId)
         (filter (λ ci, CartItem.cartId ci ≠ cartId) l) = [].
Proof.
  induction l as [|x l IH]; [done|].
  rewrite (filter_cons (λ ci, CartItem.cartId ci ≠ cartId)).
  case_decide; [|done]. by rewrite filter_cons_False.
Qed.

(** ** Checkout: what a call that reaches the transaction has established *)

(** The lines read with [include: { product: true }] are the cart lines,
    each with the product row of the database. *)
Lemma include_product_lines db (cis : list CartItem.t) (items : list CartLine) :
  mapM (include_product db) cis = Some items →
  Forall2 (λ ci (item : CartLine),
             item.1 = ci ∧ product db !! CartItem.productId ci = Some item.2)
          cis items.
Proof.
  intros Hm. apply mapM_Some_1 in Hm.
  eapply Forall2_impl; [exact Hm|]. intros ci item. simpl.
  unfold include_product.
  destruct (product db !! CartItem.productId ci) as [p|]; simpl; [|done].
  by intros [= <-].
Qed.

Lemma createOrder_check_inr db userId body co :
  createOrder_check db userId body = inr co →
  ∃ a c items,
    addressId body = Some a ∧
    cart_findUnique db userId = Some c ∧
    mapM (include_product db) (cart_items db (Cart.id c)) = Some items ∧
    items ≠ [] ∧
    is_Some (findFirst (λ x, Address.id x = a ∧ Address.userId x = userId)
                       (address db)) ∧
    (∀ item : CartLine, item ∈ items →
       (CartItem.quantity item.1 ≤ Product.stock item.2)%Z) ∧
    co = mkCheckout userId a (paymentMethod body) (notes body) c items
           (subtotal_of items) (tax_of (subtotal_of items))
           (shipping_of (subtotal_of items))
           (total_of (subtotal_of items) (tax_of (subtotal_of items))
                     (shipping_of (subtotal_of items))).
Proof.
  unfold createOrder_check. intros Hc.
  destruct (addressId body) as [a|]; [|done].
  destruct (cart_findUnique db userId) as [c|]; [|done].
  destruct (mapM _ _) as [items|] eqn:Hm; [|done].
  case_decide as Hlen; [done|].
  destruct (findFirst _ (address db)) as [addr|] eqn:Ha; [|done].
  destruct (findFirst _ items) as [bad|] eqn:Hs; [done|].
  injection Hc as <-. exists a, c, items.
  split_and!; eauto.
  - intros ->. by apply Hlen.
  - intros item Hin. rewrite findFirst_None in Hs.
    specialize (Hs item Hin). simpl in Hs. lia.
Qed.

Lemma createOrder_201 db userId body orderNumber r db' :
  createOrder db userId body orderNumber = (r, db') →
  status r = 201 →
  ∃ co, createOrder_check db userId body = inr co ∧
        createOrder_transaction co orderNumber db = Some db'.
Proof.
  unfold createOrder. intros Hc Hst.
  destruct (createOrder_check db userId body) as [r0|co] eqn:Hchk.
  - injection Hc as <- <-. exfalso. revert Hchk.
    unfold createOrder_check.
    repeat (case_match; try done); intros [= <-]; done.
  - destruct (createOrder_transaction co orderNumber db) as [db1|] eqn:Htx.
    + injection Hc as <- <-. eauto.
    + injection Hc as <- <-. done.
Qed.

(** A call that does not answer 201 leaves the database as it was: every
    check answers before the first write, and a transaction that throws is
    rolled back. *)
Lemma createOrder_all_or_nothing db userId body orderNumber :
  status (createOrder db userId body orderNumber).1 ≠ 201 →
  (createOrder db userId body orderNumber).2 = db.
Proof.
  unfold createOrder. destruct (createOrder_check db userId body); [done|].
  destruct (createOrder_transaction _ _ _); [|done]. simpl. done.
Qed.

(** ** Stock accounting of the transaction loops *)

Lemma increment_increment q1 q2 p :
  Product.increment q2 (Product.increment q1 p) = Product.increment (q1 + q2) p.
Proof.
  unfold Product.increment, Product.with_stock. simpl. f_equal. lia.
Qed.

Lemma increment_0 p : Product.increment 0 p = p.
Proof.
  destruct p. unfold Product.increment, Product.with_stock. simpl.
  f_equal. lia.
Qed.

Lemma decrement_increment q p :
  Product.decrement q p = Product.increment (- q) p.
Proof.
  unfold Product.decrement, Product.increment, Product.with_stock.
  f_equal.
Qed.

Lemma product_update_Some id f db db' :
  product_update id f db = Some db' →
  ∃ p, product db !! id = Some p ∧
       db' = set_product (<[id := f p]> (product db)) db.
Proof.
  unfold product_update. destruct (product db !! id) as [p|]; [|done].
  simpl. intros [= <-]. eauto.
Qed.

Lemma forEach_ext {A} (f g : A → Db → option Db) xs db :
  (∀ x db, f x db = g x db) → forEach f xs db = forEach g xs db.
Proof.
  intros Hfg. revert db. induction xs as [|x xs IH]; intros db; simpl; [done|].
  rewrite Hfg. destruct (g x db); simpl; auto.
Qed.

Lemma quantity_on_opp {A} (pid : A → Id) (qty : A → Z) i xs :
  quantity_on pid (λ x, - qty x)%Z i xs = (- quantity_on pid qty i xs)%Z.
Proof.
  induction xs as [|x xs IH]; simpl; [done|].
  case_decide; lia.
Qed.

Lemma product_update_ext id (f g : Product.t → Product.t) db :
  (∀ p, f p = g p) → product_update id f db = product_update id g db.
Proof.
  intros Hfg. unfold product_update.
  destruct (product db !! id) as [p|]; simpl; [|done]. by rewrite Hfg.
Qed.

(** A loop of stock updates, one per row [x], each adding [delta x] to the
    stock of product [pid x] after a step [pre] that leaves the product
    table alone. *)
Lemma stock_loop_Some {A} (pid : A → Id) (delta : A → Z)
    (pre : A → Db → Db) (xs : list A) :
  (∀ x db, product (pre x db) = product db) →
  ∀ db db',
  forEach (λ x db, product_update (pid x)
                     (Product.increment (delta x)) (pre x db)) xs db
    = Some db' →
  ∀ i, product db' !! i
       = Product.increment (quantity_on pid delta i xs) <$> product db !! i.
Proof.
  intros Hpre. induction xs as [|x xs IH]; intros db db' Hrun i; simpl in *.
  - injection Hrun as <-.
    destruct (product db !! i) as [p|]; simpl; [|done].
    by rewrite increment_0.
  - destruct (product_update _ _ (pre x db)) as [db1|] eqn:Hup; [|done].
    simpl in Hrun. apply product_update_Some in Hup as (p & Hp & ->).
    rewrite (IH _ _ Hrun i). simpl. rewrite Hpre in *.
    case_decide as Heq.
    + subst i. rewrite lookup_insert_eq, Hp. simpl.
      by rewrite increment_increment.
    + by rewrite lookup_insert_ne.
Qed.

Lemma stock_loop_is_Some {A} (pid : A → Id) (f : A → Product.t → Product.t)
    (pre : A → Db → Db) (xs : list A) :
  (∀ x db, product (pre x db) = product db) →
  ∀ db,
  (∀ x, x ∈ xs → is_Some (product db !! pid x)) →
  is_Some (forEach (λ x db, product_update (pid x) (f x) (pre x db)) xs db).
Proof.
  intros Hpre. induction xs as [|x xs IH]; intros db Hall; simpl; [eauto|].
  destruct (Hall x) as [p Hp]; [left|].
  assert (product_update (pid x) (f x) (pre x db)
          = Some (set_product (<[pid x := f x p]> (product db)) (pre x db)))
    as ->.
  { unfold product_update. by rewrite Hpre, Hp. }
  simpl. apply IH. intros y Hy. simpl.
  destruct (decide (pid x = pid y)) as [->|Hne].
  - rewrite lookup_insert_eq. eauto.
  - rewrite lookup_insert_ne by done. apply Hall. by right.
Qed.

Lemma restore_stock_lookup items db db' :
  restore_stock items db = Some db' →
  ∀ i, product db' !! i
       = Product.increment (order_quantity_on i items) <$> product db !! i.
Proof.
  intros Hrun i. unfold restore_stock in Hrun.
  by apply (stock_loop_Some OrderItem.productId OrderItem.quantity
              (λ _ db, db) items (λ _ _, eq_refl) db db').
Qed.

Lemma restore_stock_frame items db db' :
  restore_stock items db = Some db' → db' = set_product (product db') db.
Proof.
  unfold restore_stock. revert db.
  induction items as [|x xs IH]; intros db Hrun; simpl in Hrun.
  - injection Hrun as <-. by destruct db.
  - destruct (product_update _ _ db) as [db1|] eqn:Hup; [|done].
    simpl in Hrun. apply product_update_Some in Hup as (p & Hp & ->).
    by rewrite (IH _ Hrun) at 1.
Qed.

Lemma restore_stock_is_Some items db :
  (∀ oi, oi ∈ items → is_Some (product db !! OrderItem.productId oi)) →
  is_Some (restore_stock items db).
Proof.
  intros Hall. unfold restore_stock.
  by apply (stock_loop_is_Some OrderItem.productId
              (λ oi, Product.increment (OrderItem.quantity oi))
              (λ _ db, db) items (λ _ _, eq_refl) db).
Qed.

Lemma checkout_loop_lookup orderId items db db' :
  checkout_loop orderId items db = Some db' →
  ∀ i, product db' !! i
       = Product.decrement (cart_quantity_on i items) <$> product db !! i.
Proof.
  intros Hrun i. unfold checkout_loop in Hrun.
  rewrite (forEach_ext _
             (λ (item : CartLine) db,
                product_update (CartItem.productId item.1)
                  (Product.increment (- CartItem.quantity item.1))
                  (orderItem_create orderId item db))) in Hrun.
  2:{ intros x d. apply product_update_ext. intros p.
      apply decrement_increment. }
  pose proof (stock_loop_Some (λ item : CartLine, CartItem.productId item.1)
                (λ item : CartLine, - CartItem.quantity item.1)%Z
                (orderItem_create orderId) items (λ _ _, eq_refl) db db')
    as Hloop.
  rewrite (Hloop Hrun i).
  rewrite quantity_on_opp. destruct (product db !! i) as [p|]; simpl; [|done].
  by rewrite decrement_increment.
Qed.

Lemma checkout_loop_frame orderId items db db' :
  checkout_loop orderId items db = Some db' →
  db' = mkDb (product db') (cart db) (cartItem db) (address db) (order db)
          (orderItem db ++ order_rows orderId (nextId db) items)
          (nextId db + length items).
Proof.
  unfold checkout_loop. revert db.
  induction items as [|x xs IH]; intros db Hrun; simpl in Hrun.
  - injection Hrun as <-. simpl. rewrite app_nil_r, Nat.add_0_r.
    by destruct db.
  - destruct (product_update _ _ _) as [db1|] eqn:Hup; [|done].
    simpl in Hrun. apply product_update_Some in Hup as (p & Hp & ->).
    rewrite (IH _ Hrun) at 1. simpl. rewrite <- app_assoc. simpl.
    do 2 f_equal. lia.
Qed.

Lemma checkout_loop_is_Some orderId items db :
  (∀ item : CartLine, item ∈ items →
     is_Some (product db !! CartItem.productId item.1)) →
  is_Some (checkout_loop orderId items db).
Proof.
  intros Hall. unfold checkout_loop.
  by apply (stock_loop_is_Some (λ item : CartLine, CartItem.productId item.1)
              (λ item : CartLine, Product.decrement (CartItem.quantity item.1))
              (orderItem_create orderId) items (λ _ _, eq_refl) db).
Qed.

(** The database a committed checkout transaction leaves. *)
Lemma createOrder_transaction_Some co orderNumber db db' :
  createOrder_transaction co orderNumber db = Some db' →
  (∀ o, o ∈ order db → Order.orderNumber o ≠ orderNumber) ∧
  (∀ i, product db' !! i
        = Product.decrement (cart_quantity_on i (co_items co))
            <$> product db !! i) ∧
  cart db' = cart db ∧
  cartItem db'
    = filter (λ ci, CartItem.cartId ci ≠ Cart.id (co_cart co)) (cartItem db) ∧
  address db' = address db ∧
  order db' = order db ++ [new_order co orderNumber (nextId db)] ∧
  orderItem db'
    = orderItem db ++ order_rows (nextId db) (S (nextId db)) (co_items co) ∧
  nextId db' = S (nextId db + length (co_items co)).
Proof.
  unfold createOrder_transaction, order_create.
  case_decide as Hnum; [done|]. simpl.
  destruct (checkout_loop _ _ _) as [db2|] eqn:Hloop; [|done].
  simpl. intros [= <-].
  pose proof (checkout_loop_lookup _ _ _ _ Hloop) as Hlk.
  apply checkout_loop_frame in Hloop. rewrite Hloop. simpl.
  split_and!; try done.
  intros o Ho Heq. apply Hnum. apply Exists_exists. eauto.
Qed.

(** The transaction reads no stock: with the product rows in place and an
    unused order number it commits, whatever the stocks are. *)
Lemma createOrder_transaction_is_Some co orderNumber db :
  (∀ o, o ∈ order db → Order.orderNumber o ≠ orderNumber) →
  (∀ item : CartLine, item ∈ co_items co →
     is_Some (product db !! CartItem.productId item.1)) →
  is_Some (createOrder_transaction co orderNumber db).
Proof.
  intros Hnum Hprod. unfold createOrder_transaction, order_create.
  rewrite decide_False.
  2:{ intros Hex. apply Exists_exists in Hex as (o & Ho & Heq).
      by apply (Hnum o). }
  simpl.
  destruct (checkout_loop_is_Some (nextId db) (co_items co)
              (bump_nextId
                 (set_order
                    (order db ++ [new_order co orderNumber (nextId db)]) db))
              Hprod) as [db2 ->].
  simpl. eauto.
Qed.

(** X12: a checkout whose preconditions hold is answered 201: the caller
    has a cart with at least one line, every line refers to a product row
    and asks for no more than its stock, the address is the caller's, and
    the order number is not in use. *)
Lemma createOrder_succeeds db userId body orderNumber a c items x :
  addressId body = Some a →
  cart_findUnique db userId = Some c →
  mapM (include_product db) (cart_items db (Cart.id c)) = Some items →
  items ≠ [] →
  x ∈ address db → Address.id x = a → Address.userId x = userId →
  (∀ item : CartLine, item ∈ items →
     (CartItem.quantity item.1 ≤ Product.stock item.2)%Z) →
  (∀ o, o ∈ order db → Order.orderNumber o ≠ orderNumber) →
  (createOrder db userId body orderNumber).1
    = resp 201 "Order placed successfully".
Proof.
  intros Ha Hc Hm Hne Hx Hxa Hxu Hstock Hnum.
  unfold createOrder, createOrder_check. rewrite Ha, Hc, Hm.
  rewrite decide_False by (by destruct items).
  destruct (findFirst_is_Some
              (λ y, Address.id y = a ∧ Address.userId y = userId)
              (address db) x Hx (conj Hxa Hxu)) as [addr ->].
  rewrite (proj2 (findFirst_None
                    (λ item : CartLine,
                       (Product.stock item.2 < CartItem.quantity item.1)%Z)
                    items)).
  2:{ intros item Hin. specialize (Hstock item Hin). lia. }
  match goal with
  | |- context [createOrder_transaction ?co _ _] =>
      destruct (createOrder_transaction_is_Some co orderNumber db Hnum)
        as [db' ->]; [|done]
  end.
  simpl. intros item Hin.
  apply include_product_lines in Hm.
  apply list_elem_of_lookup in Hin as [k Hk].
  destruct (Forall2_lookup_r _ _ _ _ _ Hm Hk) as (ci & _ & <- & Hp). eauto.
Qed.

(** ** Pricing of a checkout *)

(** C1, as the code has it: for every successful checkout the order written
    carries the subtotal summed in binary64 over the cart lines
    (Number(price) times quantity, from 0, in cart order), tax = subtotal *
    0.1, shipping = 0 when subtotal > 100 and 10 otherwise, total =
    subtotal + tax + shipping, all in binary64 and none of them rounded. *)
Theorem createOrder_pricing db userId body orderNumber r db' :
  createOrder db userId body orderNumber = (r, db') →
  status r = 201 →
  ∃ c items o,
    cart_findUnique db userId = Some c ∧
    mapM (include_product db) (cart_items db (Cart.id c)) = Some items ∧
    order db' = order db ++ [o] ∧
    priced_in_binary64 items o.
Proof.
  intros Hc Hst.
  destruct (createOrder_201 _ _ _ _ _ _ Hc Hst) as (co & Hchk & Htx).
  apply createOrder_check_inr in Hchk
    as (a & c & items & _ & Hcart & Hitems & _ & _ & _ & ->).
  apply createOrder_transaction_Some in Htx
    as (_ & _ & _ & _ & _ & Ho & _).
  eexists c, items, _. split_and!; [done|done|exact Ho|].
  by unfold priced_in_binary64.
Qed.

(** The scenario of the specification: price 20.00, stock 5, quantity 3. *)
Lemma createOrder_pricing_witness :
  ∃ c items o,
    cart_findUnique (shop 2000 5 3) 7 = Some c ∧
    mapM (include_product (shop 2000 5 3))
         (cart_items (shop 2000 5 3) (Cart.id c)) = Some items ∧
    order (createOrder (shop 2000 5 3) 7 checkout_body "ORD-A-0001").2
      = order (shop 2000 5 3) ++ [o] ∧
    priced_in_binary64 items o.
Proof.
  apply (createOrder_pricing (shop 2000 5 3) 7 checkout_body "ORD-A-0001"
           (createOrder (shop 2000 5 3) 7 checkout_body "ORD-A-0001").1).
  - vm_compute. reflexivity.
  - vm_compute. reflexivity.
Defined.

(** On that scenario the binary64 values are the ones the specification
    lists: 60.00, 6.00, 10.00, 76.00, and the stock becomes 2. *)
Example createOrder_scenario :
  let db' := (createOrder (shop 2000 5 3) 7 checkout_body "ORD-A-0001").2 in
  (λ o, (Order.subtotal o, Order.tax o, Order.shipping o, Order.total o))
    <$> order db'
    = [(Z2float 60, Z2float 6, Z2float 10, Z2float 76)] ∧
  Product.stock <$> product db' !! 1 = Some 2%Z.
Proof. vm_compute. done. Qed.

(** C1, as the specification states it, fails. One unit at 0.35: the
    specification's tax is round2(0.035) = 0.04, and the tax the checkout
    writes is the binary64 product 0.35 * 0.1 = 0.034999999999999996, which
    is not 0.04 and lies strictly between 0.025 and 0.035, so that rounding
    it to two decimals at any later point gives 0.03. *)
Lemma createOrder_pricing_not_fixed_point :
  ∃ c items o,
    (createOrder (shop 35 5 1) 7 checkout_body "ORD-A-0001").1
      = resp 201 "Order placed successfully" ∧
    cart_findUnique (shop 35 5 1) 7 = Some c ∧
    mapM (include_product (shop 35 5 1))
         (cart_items (shop 35 5 1) (Cart.id c)) = Some items ∧
    order (createOrder (shop 35 5 1) 7 checkout_body "ORD-A-0001").2 = [o] ∧
    PricingSpec.tax (PricingSpec.subtotal [(35, 1)%Z]) = 4%Z ∧
    Order.tax o ≠ Number 4 ∧
    exactly_between 25 35 1000 (Order.tax o) = true ∧
    ¬ PricingSpec.priced items o.
Proof.
  eexists _, _, _. split_and!.
  - vm_compute. reflexivity.
  - vm_compute. reflexivity.
  - vm_compute. reflexivity.
  - vm_compute. reflexivity.
  - reflexivity.
  - vm_compute. intros Ht. discriminate Ht.
  - vm_compute. reflexivity.
  - intros (_ & Ht & _). vm_compute in Ht. discriminate Ht.
Qed.

(** Nor is the subtotal exact: three units at 0.10 add up to
    0.30000000000000004, not to 0.30, and the tax on it is strictly between
    0.03 and 0.04. *)
Example createOrder_subtotal_binary64 :
  ∃ o,
    order (createOrder (shop 10 5 3) 7 checkout_body "ORD-A-0001").2 = [o] ∧
    Order.subtotal o ≠ Number 30 ∧
    exactly_between 30 31 100 (Order.subtotal o) = true ∧
    exactly_between 3 4 100 (Order.tax o) = true.
Proof.
  eexists. split_and!.
  - vm_compute. reflexivity.
  - vm_compute. intros Hs. discriminate Hs.
  - vm_compute. reflexivity.
  - vm_compute. reflexivity.
Qed.

(** With the values rounded to two decimals afterwards the total need not
    be the sum of its parts either: at 1.05 the tax 0.10500000000000001
    rounds to 0.11 and the total 11.154999999999999 to 11.15, one cent less
    than 1.05 + 0.11 + 10. *)
Example createOrder_total_binary64 :
  ∃ o,
    order (createOrder (shop 105 5 1) 7 checkout_body "ORD-A-0001").2 = [o] ∧
    Order.subtotal o = Number 105 ∧
    exactly_between 105 115 1000 (Order.tax o) = true ∧
    Order.shipping o = Number 1000 ∧
    exactly_between 11145 11155 1000 (Order.total o) = true.
Proof.
  eexists. split_and!; vm_compute; reflexivity.
Qed.

(** ** The order of the checks of a checkout *)

(** C4, as the code has it: a call without an address identifier is
    answered 400 "Shipping address is required" before the cart is read; a
    call that gives one is answered "Cart is empty" when the cart is absent
    or has no line, whatever the address; otherwise "Address not found" when
    the caller owns no such address; otherwise, when a line asks for more
    than the stock, "Insufficient stock" with the name and the stock of the
    first such line. The three answers differ, and none of these calls
    changes the database. *)
Theorem createOrder_checks_in_order db userId body orderNumber :
  (addressId body = None →
     createOrder db userId body orderNumber
       = (resp 400 "Shipping address is required", db)) ∧
  (∀ a, addressId body = Some a →
     (cart_findUnique db userId = None ∨
      ∃ c, cart_findUnique db userId = Some c ∧
           cart_items db (Cart.id c) = []) →
     createOrder db userId body orderNumber = (resp 400 "Cart is empty", db)) ∧
  (∀ a c items, addressId body = Some a →
     cart_findUnique db userId = Some c →
     mapM (include_product db) (cart_items db (Cart.id c)) = Some items →
     items ≠ [] →
     (∀ x, x ∈ address db →
        ¬ (Address.id x = a ∧ Address.userId x = userId)) →
     createOrder db userId body orderNumber
       = (resp 404 "Address not found", db)) ∧
  (∀ a c items x, addressId body = Some a →
     cart_findUnique db userId = Some c →
     mapM (include_product db) (cart_items db (Cart.id c)) = Some items →
     x ∈ address db → Address.id x = a → Address.userId x = userId →
     (∃ item : CartLine, item ∈ items ∧
        (Product.stock item.2 < CartItem.quantity item.1)%Z) →
     ∃ item : CartLine,
       item ∈ items ∧
       product db !! CartItem.productId item.1 = Some item.2 ∧
       (Product.stock item.2 < CartItem.quantity item.1)%Z ∧
       createOrder db userId body orderNumber
         = (resp 400 ("Insufficient stock for " +:+ Product.name item.2
                      +:+ ". Only " +:+ pretty (Product.stock item.2)
                      +:+ " available."), db)) ∧
  (∀ p, resp 400 "Cart is empty" ≠ resp 404 "Address not found" ∧
        resp 400 "Cart is empty" ≠ resp 400 (insufficient_message p) ∧
        resp 404 "Address not found" ≠ resp 400 (insufficient_message p)).
Proof.
  unfold createOrder, createOrder_check. split_and!.
  - by intros ->.
  - intros a -> [->|(c & -> & ->)]; [done|]. by simpl.
  - intros a c items -> -> -> Hne Haddr.
    case_decide as Hlen; [by destruct items|].
    by rewrite (proj2 (findFirst_None
                         (λ x, Address.id x = a ∧ Address.userId x = userId)
                         (address db)) Haddr).
  - intros a c items x -> -> Hm Hx Hxa Hxu (bad & Hbad & Hlt).
    rewrite Hm. case_decide as Hlen; [destruct items; [inversion Hbad|done]|].
    destruct (findFirst_is_Some
                (λ y, Address.id y = a ∧ Address.userId y = userId)
                (address db) x Hx (conj Hxa Hxu)) as [addr ->].
    destruct (findFirst_is_Some
                (λ item : CartLine,
                   (Product.stock item.2 < CartItem.quantity item.1)%Z)
                items bad Hbad Hlt) as [item Hitem].
    rewrite Hitem. apply findFirst_Some in Hitem as [Hin Hshort].
    exists item. split_and!; try done.
    apply include_product_lines in Hm.
    apply list_elem_of_lookup in Hin as [k Hk].
    destruct (Forall2_lookup_r _ _ _ _ _ Hm Hk) as (ci & _ & <- & Hp).
    done.
  - intros p. split_and!; done.
Qed.

(** Each branch at a concrete call: no address given; a user without cart;
    an address of somebody else; a line of 3 units against a stock of 2. *)
Lemma createOrder_checks_in_order_witness :
  createOrder (shop 2000 5 3) 7 (mkBody None None None) "ORD-A-0001"
    = (resp 400 "Shipping address is required", shop 2000 5 3) ∧
  createOrder (shop 2000 5 3) 8 (mkBody (Some 99) None None) "ORD-A-0001"
    = (resp 400 "Cart is empty", shop 2000 5 3) ∧
  createOrder (shop 2000 5 3) 7 (mkBody (Some 99) None None) "ORD-A-0001"
    = (resp 404 "Address not found", shop 2000 5 3) ∧
  createOrder (shop 2000 2 3) 7 checkout_body "ORD-A-0001"
    = (resp 400 "Insufficient stock for Widget. Only 2 available.",
       shop 2000 2 3).
Proof.
  split_and!.
  - apply (createOrder_checks_in_order (shop 2000 5 3) 7
             (mkBody None None None) "ORD-A-0001"). reflexivity.
  - apply (createOrder_checks_in_order (shop 2000 5 3) 8
             (mkBody (Some 99) None None) "ORD-A-0001") with (a := 99);
      [reflexivity | left; vm_compute; reflexivity].
  - apply (createOrder_checks_in_order (shop 2000 5 3) 7
             (mkBody (Some 99) None None) "ORD-A-0001")
      with (a := 99) (c := Cart.mk 10 7)
           (items := [(CartItem.mk 20 10 1 3, Product.mk "Widget" 2000 5)]);
      [reflexivity | vm_compute; reflexivity | vm_compute; reflexivity
      | discriminate |].
    intros x Hx [Hid _]. apply list_elem_of_singleton in Hx. subst x.
    discriminate Hid.
  - destruct (createOrder_checks_in_order (shop 2000 2 3) 7 checkout_body
                "ORD-A-0001") as (_ & _ & _ & Hstock & _).
    destruct (Hstock 30 (Cart.mk 10 7)
                [(CartItem.mk 20 10 1 3, Product.mk "Widget" 2000 2)]
                (Address.mk 30 7))
      as (item & Hin & _ & _ & ->);
      [reflexivity | vm_compute; reflexivity | vm_compute; reflexivity
      | left | reflexivity | reflexivity
      | eexists; split; [left | simpl; lia] |].
    apply list_elem_of_singleton in Hin. subst item. reflexivity.
Defined.

(** C4, as the specification states it, fails: with an empty cart and no
    address identifier the answer is not "Cart is empty". *)
Lemma createOrder_empty_cart_without_address :
  cart_findUnique (shop 2000 5 3) 8 = None ∧
  (createOrder (shop 2000 5 3) 8 (mkBody None None None) "ORD-A-0001").1
    = resp 400 "Shipping address is required" ∧
  (createOrder (shop 2000 5 3) 8 (mkBody None None None) "ORD-A-0001").1
    ≠ resp 400 "Cart is empty".
Proof. split_and!; [vm_compute; reflexivity | reflexivity | discriminate]. Qed.

(** ** All-or-nothing checkout *)

Lemma createOrder_status db userId body orderNumber :
  status (createOrder db userId body orderNumber).1 = 201
  ∨ 400 ≤ status (createOrder db userId body orderNumber).1.
Proof.
  unfold createOrder.
  destruct (createOrder_check db userId body) as [r|co] eqn:Hchk.
  - right. simpl. revert Hchk. unfold createOrder_check.
    repeat (case_match; try done); intros [= <-]; simpl; lia.
  - destruct (createOrder_transaction co orderNumber db);
      simpl; [by left | right; lia].
Qed.

(** C2: a checkout in which some line of the caller's cart asks for more
    than the stock of its product fails (its answer is an error status), and
    leaves the whole database as it was: the stock of every product, the
    tables of orders and order lines, and the cart. *)
Theorem createOrder_insufficient_stock db userId body orderNumber c ci p :
  cart_findUnique db userId = Some c →
  ci ∈ cart_items db (Cart.id c) →
  product db !! CartItem.productId ci = Some p →
  (Product.stock p < CartItem.quantity ci)%Z →
  400 ≤ status (createOrder db userId body orderNumber).1 ∧
  (createOrder db userId body orderNumber).2 = db.
Proof.
  intros Hcart Hci Hp Hlt.
  assert (status (createOrder db userId body orderNumber).1 ≠ 201) as Hne.
  { intros Hst.
    destruct (createOrder_201 db userId body orderNumber _ _
                (surjective_pairing _) Hst) as (co & Hchk & _).
    apply createOrder_check_inr in Hchk
      as (a & c' & items & _ & Hcart' & Hitems & _ & _ & Hstock & _).
    assert (c' = c) as -> by congruence.
    apply include_product_lines in Hitems.
    apply list_elem_of_lookup in Hci as [k Hk].
    destruct (Forall2_lookup_l _ _ _ _ _ Hitems Hk)
      as (item & Hitem & Hfst & Hsnd).
    apply list_elem_of_lookup_2 in Hitem. specialize (Hstock item Hitem).
    rewrite Hfst in Hstock. assert (item.2 = p) as Heq by congruence.
    rewrite Heq in Hstock. lia. }
  split; [|by apply createOrder_all_or_nothing].
  destruct (createOrder_status db userId body orderNumber); [done|lia].
Qed.

Lemma createOrder_insufficient_stock_witness :
  400 ≤ status (createOrder (shop 2000 2 3) 7 checkout_body "ORD-A-0001").1 ∧
  (createOrder (shop 2000 2 3) 7 checkout_body "ORD-A-0001").2
    = shop 2000 2 3.
Proof.
  apply (createOrder_insufficient_stock (shop 2000 2 3) 7 checkout_body
           "ORD-A-0001" (Cart.mk 10 7) (CartItem.mk 20 10 1 3)
           (Product.mk "Widget" 2000 2)).
  - vm_compute. reflexivity.
  - vm_compute. left.
  - vm_compute. reflexivity.
  - simpl. lia.
Defined.

(** ** Clearing the cart *)

(** C10: [clearCart] for a user without cart row answers 404 "Cart not
    found" and changes nothing; with a cart row it deletes exactly the lines
    of that cart, leaves every other table alone and answers 200. *)
Theorem clearCart_spec db userId :
  (cart_findUnique db userId = None →
     clearCart db userId = (resp 404 "Cart not found", db)) ∧
  (∀ c, cart_findUnique db userId = Some c →
     (clearCart db userId).1 = resp 200 "Cart cleared" ∧
     cart_items (clearCart db userId).2 (Cart.id c) = [] ∧
     cartItem (clearCart db userId).2
       = filter (λ ci, CartItem.cartId ci ≠ Cart.id c) (cartItem db) ∧
     (clearCart db userId).2
       = set_cartItem (cartItem (clearCart db userId).2) db).
Proof.
  unfold clearCart. split.
  - by intros ->.
  - intros c ->. simpl. split_and!; try done.
    unfold cart_items. simpl. apply cart_lines_deleted.
Qed.

Lemma clearCart_spec_witness :
  clearCart (shop 2000 5 3) 8 = (resp 404 "Cart not found", shop 2000 5 3) ∧
  (clearCart (shop 2000 5 3) 7).1 = resp 200 "Cart cleared" ∧
  cart_items (clearCart (shop 2000 5 3) 7).2 10 = [].
Proof.
  split.
  - apply (clearCart_spec (shop 2000 5 3) 8). vm_compute. reflexivity.
  - destruct (clearCart_spec (shop 2000 5 3) 7) as [_ Hsome].
    destruct (Hsome (Cart.mk 10 7)) as (Hr & Hnil & _);
      [vm_compute; reflexivity|].
    split; [exact Hr | exact Hnil].
Defined.

(** ** The database after a successful checkout *)

Lemma quantity_on_absent {A} (pid : A → Id) (qty : A → Z) i xs :
  (∀ x, x ∈ xs → pid x ≠ i) → quantity_on pid qty i xs = 0%Z.
Proof.
  induction xs as [|x xs IH]; intros Hall; simpl; [done|].
  rewrite decide_False by (apply Hall; left).
  apply IH. intros y Hy. apply Hall. by right.
Qed.

Lemma quantity_on_unique {A} (pid : A → Id) (qty : A → Z) x xs :
  NoDup (pid <$> xs) → x ∈ xs → quantity_on pid qty (pid x) xs = qty x.
Proof.
  induction xs as [|y xs IH]; intros Hnd Hx; [by inversion Hx|].
  rewrite fmap_cons in Hnd. apply NoDup_cons in Hnd as [Hy Hnd]. simpl.
  apply elem_of_cons in Hx as [->|Hx].
  - rewrite decide_True by done.
    rewrite quantity_on_absent; [lia|].
    intros z Hz Heq. apply Hy. rewrite <- Heq. by apply list_elem_of_fmap_2.
  - rewrite decide_False; [by apply IH|].
    intros Heq. apply Hy. rewrite Heq. by apply list_elem_of_fmap_2.
Qed.

Lemma quantity_on_nonneg {A} (pid : A → Id) (qty : A → Z) i xs :
  (∀ x, x ∈ xs → 0 ≤ qty x)%Z → (0 ≤ quantity_on pid qty i xs)%Z.
Proof.
  induction xs as [|x xs IH]; intros Hall; simpl; [done|].
  assert (0 ≤ quantity_on pid qty i xs)%Z
    by (apply IH; intros y Hy; apply Hall; by right).
  assert (0 ≤ qty x)%Z by (apply Hall; left).
  case_decide; lia.
Qed.

Lemma include_product_fst db (cis : list CartItem.t) (items : list CartLine) :
  mapM (include_product db) cis = Some items → items.*1 = cis.
Proof.
  intros Hm. apply include_product_lines in Hm.
  induction Hm as [|ci item cis items [Hfst _] _ IH]; [done|].
  rewrite fmap_cons. by rewrite Hfst, IH.
Qed.

Lemma order_rows_lines orderId n (items : list CartLine) :
  Forall2 (λ (item : CartLine) row,
             OrderItem.orderId row = orderId ∧
             OrderItem.productId row = CartItem.productId item.1 ∧
             OrderItem.quantity row = CartItem.quantity item.1 ∧
             OrderItem.price row = Product.price item.2 ∧
             OrderItem.subtotal row
               = PrimFloat.mul (Number (Product.price item.2))
                               (Z2float (CartItem.quantity item.1)))
          items (order_rows orderId n items).
Proof.
  revert n. induction items as [|item items IH]; intros n; simpl.
  - constructor.
  - constructor; [done|apply IH].
Qed.

(** C3: after a successful checkout the caller's cart has no line; the
    order table has one more row, owned by the caller, PENDING and UNPAID;
    the order-line table has one more row per cart line, in cart order,
    attached to that order and holding the product, the quantity, the
    catalog price of the product at that time and Number(price) * quantity;
    the stock of the product of each cart line is lower by the quantity of
    that line, and no other stock has changed. Each product is taken to
    occur on at most one line of a cart, which the cart handlers maintain. *)
Theorem createOrder_success db userId body orderNumber r db' :
  cart_lines_unique db →
  createOrder db userId body orderNumber = (r, db') →
  status r = 201 →
  checked_out db userId db'.
Proof.
  intros Huniq Hc Hst.
  destruct (createOrder_201 _ _ _ _ _ _ Hc Hst) as (co & Hchk & Htx).
  apply createOrder_check_inr in Hchk
    as (a & c & items & _ & Hcart & Hitems & _ & _ & Henough & ->).
  apply createOrder_transaction_Some in Htx
    as (_ & Hstock & _ & Hci & _ & Ho & Hoi & _).
  simpl in *.
  eexists c, items, _, _. split_and!; try done.
  - unfold cart_items. rewrite Hci. apply cart_lines_deleted.
  - pose proof (include_product_lines _ _ _ Hitems) as Hlines.
    pose proof (order_rows_lines (nextId db) (S (nextId db)) items) as Hrows.
    apply Forall2_same_length_lookup. split.
    { by apply Forall2_length in Hrows. }
    intros k item row Hitem Hrow.
    destruct (Forall2_lookup_r _ _ _ _ _ Hlines Hitem) as (ci & _ & <- & Hp).
    pose proof (Forall2_lookup_lr _ _ _ _ _ _ Hrows Hitem Hrow) as Hr.
    simpl in Hr. split; [done|exact Hr].
  - intros item Hin. split; [by apply Henough|].
    exists (Product.decrement (CartItem.quantity item.1) item.2).
    split; [|done]. rewrite Hstock.
    unfold cart_quantity_on.
    rewrite (quantity_on_unique
               (λ item : CartLine, CartItem.productId item.1)
               (λ item : CartLine, CartItem.quantity item.1) item items).
    + apply include_product_lines in Hitems.
      apply list_elem_of_lookup in Hin as [k Hk].
      destruct (Forall2_lookup_r _ _ _ _ _ Hitems Hk) as (ci & _ & <- & ->).
      done.
    + specialize (Huniq (Cart.id c)).
      rewrite <- (include_product_fst _ _ _ Hitems) in Huniq.
      by rewrite <- list_fmap_compose in Huniq.
    + done.
  - intros i Hi. rewrite Hstock. unfold cart_quantity_on.
    rewrite quantity_on_absent by done.
    destruct (product db !! i) as [p|]; simpl; [|done].
    f_equal. destruct p. unfold Product.decrement, Product.with_stock. simpl.
    f_equal. lia.
Qed.

Lemma shop_cart_lines_unique price stock quantity :
  cart_lines_unique (shop price stock quantity).
Proof.
  intros cartId. unfold cart_items. simpl.
  rewrite filter_cons, filter_nil.
  case_decide; simpl; [apply NoDup_singleton | apply NoDup_nil_2].
Qed.

(** The checkout of the scenario: the cart of user 7 held 3 units of
    product 1, of which 5 were in stock; afterwards 2 are. *)
Lemma createOrder_success_witness :
  checked_out (shop 2000 5 3) 7
    (createOrder (shop 2000 5 3) 7 checkout_body "ORD-A-0001").2 ∧
  Product.stock <$> product (shop 2000 5 3) !! 1 = Some 5%Z ∧
  Product.stock
    <$> product (createOrder (shop 2000 5 3) 7 checkout_body "ORD-A-0001").2
        !! 1
    = Some 2%Z.
Proof.
  assert (checked_out (shop 2000 5 3) 7
            (createOrder (shop 2000 5 3) 7 checkout_body "ORD-A-0001").2)
    as Hco.
  { apply (createOrder_success (shop 2000 5 3) 7 checkout_body "ORD-A-0001"
             (createOrder (shop 2000 5 3) 7 checkout_body "ORD-A-0001").1).
    - apply shop_cart_lines_unique.
    - vm_compute. reflexivity.
    - vm_compute. reflexivity. }
  split; [exact Hco|]. split; [reflexivity|].
  destruct Hco as (c & items & o & rows & Hc & Hitems & _ & _ & _ & _ & _ & _
                   & _ & Hstock & _).
  vm_compute in Hc. injection Hc as <-.
  vm_compute in Hitems. injection Hitems as <-.
  destruct (Hstock (CartItem.mk 20 10 1 3, Product.mk "Widget" 2000 5))
    as (_ & p' & Hp & _ & _ & Hs); [apply elem_of_cons; by left|].
  simpl in Hp, Hs. rewrite Hp. simpl. by rewrite Hs.
Defined.

(** ** Cancellation and refund *)

Lemma order_update_Some id f db :
  (∃ o, o ∈ order db ∧ Order.id o = id) →
  order_update id f db
    = Some (set_order
              ((λ o, if decide (Order.id o = id) then f o else o) <$> order db)
              db).
Proof.
  intros Hex. unfold order_update. rewrite decide_True; [done|].
  by apply Exists_exists.
Qed.

(** The transaction shared by [cancelOrder] and [refundPayment], when it
    commits. *)
Lemma release_transaction_Some db id f db' :
  (db1 ← restore_stock (order_items db id) db; order_update id f db1)
    = Some db' →
  released db id f db'.
Proof.
  destruct (restore_stock (order_items db id) db) as [db1|] eqn:Hrs; [|done].
  simpl. pose proof (restore_stock_lookup _ _ _ Hrs) as Hlk.
  apply restore_stock_frame in Hrs. unfold order_update.
  case_decide; [|done]. intros [= <-]. rewrite Hrs. simpl.
  unfold released. simpl. split_and!; done.
Qed.

Lemma released_released_as db id f status paymentStatus db' :
  released db id f db' →
  (∀ o, Order.status (f o) = status ∧
        Order.paymentStatus (f o)
          = default (Order.paymentStatus o) paymentStatus ∧
        same_but_statuses o (f o)) →
  released_as db id status paymentStatus db'.
Proof.
  intros (Hp & Ho & Hrest) Hf. split; [|split; [|exact Hrest]].
  - intros i. rewrite Hp. by destruct (product db !! i).
  - rewrite Ho. apply Forall2_fmap_r, Forall_Forall2_diag, Forall_forall.
    intros o _. simpl. destruct (decide (Order.id o = id)); [apply Hf|done].
Qed.

Lemma release_transaction_is_Some db id f :
  order_products_exist db id →
  (∃ o, o ∈ order db ∧ Order.id o = id) →
  is_Some (db1 ← restore_stock (order_items db id) db; order_update id f db1).
Proof.
  intros Hprod Hex.
  destruct (restore_stock_is_Some (order_items db id) db Hprod) as [db1 Hrs].
  rewrite Hrs. simpl. apply restore_stock_frame in Hrs.
  rewrite order_update_Some; [eauto|]. by rewrite Hrs.
Qed.

(** C6: [cancelOrder] answers 404 "Order not found" when the caller owns no
    order with that identifier, and 400 "Only pending orders can be
    cancelled" when the order is not PENDING (an order already CANCELLED
    among them), in both cases leaving the database, stocks included, as it
    was. For a PENDING order of the caller it answers 200, in one
    transaction adds to each stock the quantity the order holds of that
    product and sets the status to CANCELLED. It answers 200 only then, and
    whenever it does not answer 200 nothing has changed. *)
Theorem cancelOrder_spec db userId id :
  ((∀ o, o ∈ order db → ¬ (Order.id o = id ∧ Order.userId o = userId)) →
     cancelOrder db userId id = (resp 404 "Order not found", db)) ∧
  (∀ o, findFirst (λ o, Order.id o = id ∧ Order.userId o = userId) (order db)
          = Some o →
     Order.status o ≠ OrderStatus.PENDING →
     cancelOrder db userId id
       = (resp 400 "Only pending orders can be cancelled", db)) ∧
  (∀ o, findFirst (λ o, Order.id o = id ∧ Order.userId o = userId) (order db)
          = Some o →
     Order.status o = OrderStatus.PENDING →
     order_products_exist db id →
     (cancelOrder db userId id).1 = resp 200 "Order cancelled successfully" ∧
     released_as db id OrderStatus.CANCELLED None
                 (cancelOrder db userId id).2) ∧
  (status (cancelOrder db userId id).1 = 200 →
     ∃ o, o ∈ order db ∧ Order.id o = id ∧ Order.userId o = userId ∧
          Order.status o = OrderStatus.PENDING) ∧
  (status (cancelOrder db userId id).1 ≠ 200 →
     (cancelOrder db userId id).2 = db).
Proof.
  unfold cancelOrder. split_and!.
  - intros Hnone.
    by rewrite (proj2 (findFirst_None
                         (λ o, Order.id o = id ∧ Order.userId o = userId)
                         (order db)) Hnone).
  - intros o -> Hst. by rewrite decide_True.
  - intros o Ho Hst Hprod. rewrite Ho. rewrite decide_False by (by intros ?).
    apply findFirst_Some in Ho as (Hin & Hid & Hu). rewrite Hid.
    destruct (release_transaction_is_Some db id
                (Order.with_status OrderStatus.CANCELLED) Hprod)
      as [db' Htx]; [eauto|].
    rewrite Htx. simpl. split; [done|].
    apply release_transaction_Some in Htx.
    by apply (released_released_as _ _ _ _ _ _ Htx).
  - destruct (findFirst _ (order db)) as [o|] eqn:Ho; [|done].
    case_decide as Hst; [done|]. intros _.
    apply findFirst_Some in Ho as (Hin & Hid & Hu).
    exists o. split_and!; try done.
  - destruct (findFirst _ (order db)) as [o|]; [|done].
    case_decide; [done|].
    by destruct (_ ≫= _).
Qed.

(** The owner is refused on somebody else's order, cancels a PENDING order
    of 3 units, which raises the stock from 2 back to 5 and leaves the
    order CANCELLED, and is refused when cancelling it again. *)
Lemma cancelOrder_spec_witness :
  cancelOrder ordered_shop 8 100 = (resp 404 "Order not found", ordered_shop) ∧
  ((cancelOrder ordered_shop 7 100).1
     = resp 200 "Order cancelled successfully" ∧
   released_as ordered_shop 100 OrderStatus.CANCELLED None
               (cancelOrder ordered_shop 7 100).2) ∧
  cancelOrder cancelled_shop 7 100
    = (resp 400 "Only pending orders can be cancelled", cancelled_shop) ∧
  Product.stock <$> product ordered_shop !! 1 = Some 2%Z ∧
  Product.stock <$> product (cancelOrder ordered_shop 7 100).2 !! 1
    = Some 5%Z ∧
  Order.status <$> order ordered_shop = [OrderStatus.PENDING] ∧
  Order.status <$> order (cancelOrder ordered_shop 7 100).2
    = [OrderStatus.CANCELLED].
Proof.
  assert ((cancelOrder ordered_shop 7 100).1
            = resp 200 "Order cancelled successfully" ∧
          released_as ordered_shop 100 OrderStatus.CANCELLED None
                      (cancelOrder ordered_shop 7 100).2) as Hok.
  { destruct (cancelOrder_spec ordered_shop 7 100) as (_ & _ & Hok & _).
    eapply Hok.
    - vm_compute. reflexivity.
    - reflexivity.
    - intros oi Hoi. vm_compute in Hoi.
      apply list_elem_of_singleton in Hoi. subst oi. vm_compute. eauto. }
  split_and!.
  - apply (cancelOrder_spec ordered_shop 8 100).
    intros o Ho [_ Hu]. vm_compute in Ho.
    apply list_elem_of_singleton in Ho. subst o. discriminate Hu.
  - apply Hok.
  - apply Hok.
  - destruct (cancelOrder_spec cancelled_shop 7 100) as (_ & Hno & _).
    eapply Hno.
    + vm_compute. reflexivity.
    + discriminate.
  - reflexivity.
  - destruct Hok as (_ & Hstock & _). specialize (Hstock 1).
    change (product ordered_shop !! 1)
      with (Some (Product.mk "Widget" 2000 2)) in Hstock.
    destruct (product (cancelOrder ordered_shop 7 100).2 !! 1) as [p'|];
      [|done].
    destruct Hstock as (_ & _ & Hs). simpl. by rewrite Hs.
  - reflexivity.
  - destruct Hok as (_ & _ & Horder & _).
    remember (order (cancelOrder ordered_shop 7 100).2) as os' eqn:E.
    clear E. vm_compute in Horder.
    inversion Horder as [|o o' os os'' Ho Hos]; subst.
    inversion Hos; subst. destruct Ho as (Hs & _).
    simpl. f_equal. exact Hs.
Defined.

(** The scenario of the specification: cancelling a PENDING order of 3
    units raises the stock by 3 (from 2 back to 5) and leaves the order
    CANCELLED; cancelling again changes no stock. *)
Example cancelOrder_scenario :
  Product.stock <$> product ordered_shop !! 1 = Some 2%Z ∧
  Product.stock <$> product cancelled_shop !! 1 = Some 5%Z ∧
  Order.status <$> order cancelled_shop = [OrderStatus.CANCELLED] ∧
  Product.stock <$> product (cancelOrder cancelled_shop 7 100).2 !! 1
    = Some 5%Z.
Proof. vm_compute. done. Qed.

(** C7: [refundPayment] answers 403 "Only admins can refund payments" to a
    caller whose role is not ADMIN, and 400 "Order is not paid" to an admin
    when the payment status of the order is not PAID, in both cases leaving
    the database as it was. For an admin and a PAID order it answers 200
    and, in one transaction, has added to each stock the quantity the order
    holds of that product and set the status and the payment status of the
    order to REFUNDED, the rest of the row and all else being as before. It
    answers 200 only then, and whenever it does not answer 200 nothing has
    changed. *)
Theorem refundPayment_spec db userRole orderId :
  (userRole ≠ Some ADMIN →
     refundPayment db userRole orderId
       = (resp 403 "Only admins can refund payments", db)) ∧
  (∀ id o, userRole = Some ADMIN → orderId = Some id →
     findFirst (λ o, Order.id o = id) (order db) = Some o →
     Order.paymentStatus o ≠ PaymentStatus.PAID →
     refundPayment db userRole orderId = (resp 400 "Order is not paid", db)) ∧
  (∀ id o, userRole = Some ADMIN → orderId = Some id →
     findFirst (λ o, Order.id o = id) (order db) = Some o →
     Order.paymentStatus o = PaymentStatus.PAID →
     order_products_exist db id →
     (refundPayment db userRole orderId).1
       = resp 200 "Payment refunded successfully" ∧
     released_as db id OrderStatus.REFUNDED (Some PaymentStatus.REFUNDED)
                 (refundPayment db userRole orderId).2) ∧
  (status (refundPayment db userRole orderId).1 = 200 →
     userRole = Some ADMIN ∧
     ∃ o, o ∈ order db ∧ orderId = Some (Order.id o) ∧
          Order.paymentStatus o = PaymentStatus.PAID) ∧
  (status (refundPayment db userRole orderId).1 ≠ 200 →
     (refundPayment db userRole orderId).2 = db).
Proof.
  unfold refundPayment. split_and!.
  - intros Hrole. by rewrite decide_True.
  - intros id o -> -> -> Hps. rewrite decide_False by (by intros ?).
    by rewrite decide_True.
  - intros id o -> -> Ho Hps Hprod. rewrite decide_False by (by intros ?).
    rewrite Ho. rewrite decide_False by (by intros ?).
    apply findFirst_Some in Ho as (Hin & Hid).
    destruct (release_transaction_is_Some db id
                (λ o, Order.with_paymentStatus PaymentStatus.REFUNDED
                        (Order.with_status OrderStatus.REFUNDED o)) Hprod)
      as [db' Htx]; [eauto|].
    rewrite Htx. simpl. split; [done|].
    apply release_transaction_Some in Htx.
    by apply (released_released_as _ _ _ _ _ _ Htx).
  - case_decide as Hrole; [done|].
    destruct orderId as [id|]; [|done].
    destruct (findFirst _ (order db)) as [o|] eqn:Ho; [|done].
    case_decide as Hps; [done|]. intros _.
    apply findFirst_Some in Ho as (Hin & Hid).
    split; [by destruct (decide (userRole = Some ADMIN))|].
    exists o. split_and!; try done. by rewrite Hid.
  - case_decide; [done|].
    destruct orderId as [id|]; [|done].
    destruct (findFirst _ (order db)) as [o|]; [|done].
    case_decide; [done|].
    by destruct (_ ≫= _).
Qed.

(** A customer is refused on a PAID order; an admin is refused on an unpaid
    order and refunds a PAID one of 3 units, which raises the stock from 2
    back to 5 and turns the status from CONFIRMED and the payment status
    from PAID to REFUNDED. *)
Lemma refundPayment_spec_witness :
  refundPayment paid_shop (Some CUSTOMER) (Some 100)
    = (resp 403 "Only admins can refund payments", paid_shop) ∧
  refundPayment ordered_shop (Some ADMIN) (Some 100)
    = (resp 400 "Order is not paid", ordered_shop) ∧
  (refundPayment paid_shop (Some ADMIN) (Some 100)).1
    = resp 200 "Payment refunded successfully" ∧
  released_as paid_shop 100 OrderStatus.REFUNDED (Some PaymentStatus.REFUNDED)
    (refundPayment paid_shop (Some ADMIN) (Some 100)).2 ∧
  Product.stock <$> product paid_shop !! 1 = Some 2%Z ∧
  Product.stock
    <$> product (refundPayment paid_shop (Some ADMIN) (Some 100)).2 !! 1
    = Some 5%Z ∧
  (λ o, (Order.status o, Order.paymentStatus o)) <$> order paid_shop
    = [(OrderStatus.CONFIRMED, PaymentStatus.PAID)] ∧
  (λ o, (Order.status o, Order.paymentStatus o))
    <$> order (refundPayment paid_shop (Some ADMIN) (Some 100)).2
    = [(OrderStatus.REFUNDED, PaymentStatus.REFUNDED)].
Proof.
  assert ((refundPayment paid_shop (Some ADMIN) (Some 100)).1
            = resp 200 "Payment refunded successfully" ∧
          released_as paid_shop 100 OrderStatus.REFUNDED
            (Some PaymentStatus.REFUNDED)
            (refundPayment paid_shop (Some ADMIN) (Some 100)).2) as Hok.
  { destruct (refundPayment_spec paid_shop (Some ADMIN) (Some 100))
      as (_ & _ & Hok & _).
    eapply Hok;
      [reflexivity | reflexivity | vm_compute; reflexivity | reflexivity |].
    intros oi Hoi. vm_compute in Hoi.
    apply list_elem_of_singleton in Hoi. subst oi. vm_compute. eauto. }
  split_and!.
  - apply (refundPayment_spec paid_shop (Some CUSTOMER) (Some 100)).
    discriminate.
  - destruct (refundPayment_spec ordered_shop (Some ADMIN) (Some 100))
      as (_ & Hno & _).
    eapply Hno;
      [reflexivity | reflexivity | vm_compute; reflexivity | discriminate].
  - apply Hok.
  - apply Hok.
  - reflexivity.
  - destruct Hok as (_ & Hstock & _). specialize (Hstock 1).
    change (product paid_shop !! 1)
      with (Some (Product.mk "Widget" 2000 2)) in Hstock.
    destruct (product (refundPayment paid_shop (Some ADMIN) (Some 100)).2
                !! 1) as [p'|]; [|done].
    destruct Hstock as (_ & _ & Hs). simpl. by rewrite Hs.
  - reflexivity.
  - destruct Hok as (_ & _ & Horder & _).
    remember (order (refundPayment paid_shop (Some ADMIN) (Some 100)).2)
      as os' eqn:E.
    clear E. vm_compute in Horder.
    inversion Horder as [|o o' os os'' Ho Hos]; subst.
    inversion Hos; subst. destruct Ho as (Hs & Hps & _).
    simpl. f_equal. f_equal; [exact Hs|exact Hps].
Defined.

(** The scenario of the specification: a refund asked by a role that is not
    ADMIN on a PAID order is refused and changes nothing; the admin's refund
    returns the 3 units and marks the order REFUNDED twice. *)
Example refundPayment_scenario :
  Order.paymentStatus <$> order paid_shop = [PaymentStatus.PAID] ∧
  refundPayment paid_shop (Some SELLER) (Some 100)
    = (resp 403 "Only admins can refund payments", paid_shop) ∧
  refundPayment paid_shop None (Some 100)
    = (resp 403 "Only admins can refund payments", paid_shop) ∧
  Product.stock <$> product (refundPayment paid_shop (Some ADMIN) (Some 100)).2 !! 1
    = Some 5%Z ∧
  (λ o, (Order.status o, Order.paymentStatus o))
    <$> order (refundPayment paid_shop (Some ADMIN) (Some 100)).2
    = [(OrderStatus.REFUNDED, PaymentStatus.REFUNDED)].
Proof. vm_compute. done. Qed.

(** ** Payment confirmation *)

(** Whatever the state of the order found, an accepted payment is answered
    200 and makes it CONFIRMED and PAID; a declined one is answered 400 and
    makes its payment status FAILED, the status staying as it was. No
    current state is examined. *)
Lemma confirmPayment_found db userId paymentIntentId o :
  paymentIntentId ≠ EmptyString →
  findFirst (λ o, Order.stripePaymentId o = Some paymentIntentId
                  ∧ Order.userId o = userId) (order db) = Some o →
  confirmPayment db userId (Some paymentIntentId) true
    = (resp 200 "Payment successful",
       set_order
         ((λ o', if decide (Order.id o' = Order.id o)
                 then Order.with_status OrderStatus.CONFIRMED
                        (Order.with_paymentStatus PaymentStatus.PAID o')
                 else o') <$> order db) db) ∧
  confirmPayment db userId (Some paymentIntentId) false
    = (resp 400 "Payment failed",
       set_order
         ((λ o', if decide (Order.id o' = Order.id o)
                 then Order.with_paymentStatus PaymentStatus.FAILED o'
                 else o') <$> order db) db).
Proof.
  intros Hne Ho. unfold confirmPayment, truthy.
  rewrite decide_False by done. rewrite Ho.
  apply findFirst_Some in Ho as [Hin _].
  rewrite !order_update_Some by eauto. done.
Qed.

(** C5 (on the code): user 7 checks out, cancels the order, which returns
    the 3 units to the stock, and then pays it. [createPaymentIntent] accepts
    the CANCELLED order, and [confirmPayment] answers 200 "Payment
    successful" and turns it from CANCELLED to CONFIRMED and PAID, a
    transition the specification has rejected with InvalidTransition. The
    stock stays at 5: the confirmed order holds no reservation. *)
Theorem confirmPayment_cancelled_order :
  let db := (createPaymentIntent cancelled_shop 7 (Some 100) "pi_mock_1").2 in
  let paid := confirmPayment db 7 (Some "pi_mock_1") true in
  (λ o, (Order.status o, Order.paymentStatus o)) <$> order db
    = [(OrderStatus.CANCELLED, PaymentStatus.UNPAID)] ∧
  paid.1 = resp 200 "Payment successful" ∧
  (λ o, (Order.status o, Order.paymentStatus o)) <$> order paid.2
    = [(OrderStatus.CONFIRMED, PaymentStatus.PAID)] ∧
  Product.stock <$> product paid.2 !! 1 = Some 5%Z.
Proof. vm_compute. done. Qed.

(** ** Two checkouts for the last unit *)

(** Run without interruption, [Begin] and [Commit] are [createOrder]. *)
Lemma schedule_sequential db userId body orderNumber :
  schedule [Begin userId body; Commit userId orderNumber] (mkWorld db [] [])
  = mkWorld (createOrder db userId body orderNumber).2 []
            [(userId, (createOrder db userId body orderNumber).1)].
Proof.
  unfold schedule, createOrder. simpl.
  destruct (createOrder_check db userId body) as [r|co]; simpl; [done|].
  rewrite findFirst_cons. simpl. rewrite decide_True by done.
  assert (filter (λ x : Id * Checkout, x.1 ≠ userId) [(userId, co)] = [])
    as ->.
  { rewrite filter_cons. simpl. case_decide; [done|]. apply filter_nil. }
  change ((userId, co).2) with co.
  by destruct (createOrder_transaction co orderNumber db).
Qed.

Lemma decrement_decrement q1 q2 p :
  Product.decrement q2 (Product.decrement q1 p) = Product.decrement (q1 + q2) p.
Proof.
  unfold Product.decrement, Product.with_stock. simpl. f_equal. lia.
Qed.

(** X13: two checkouts that have both passed their checks on the same
    database both commit, in either order and whatever the stocks are, as
    long as their order numbers differ and are unused: the second
    transaction does not look at the stock the first has left, and each
    stock ends lower by the quantities of both carts. *)
Lemma createOrder_race_commits db userId1 body1 co1 n1 userId2 body2 co2 n2 :
  createOrder_check db userId1 body1 = inr co1 →
  createOrder_check db userId2 body2 = inr co2 →
  n1 ≠ n2 →
  (∀ o, o ∈ order db → Order.orderNumber o ≠ n1 ∧ Order.orderNumber o ≠ n2) →
  ∃ db1 db2,
    createOrder_transaction co1 n1 db = Some db1 ∧
    createOrder_transaction co2 n2 db1 = Some db2 ∧
    ∀ i, product db2 !! i
         = Product.decrement (cart_quantity_on i (co_items co1)
                              + cart_quantity_on i (co_items co2))
             <$> product db !! i.
Proof.
  intros Hc1 Hc2 Hne Hfresh.
  apply createOrder_check_inr in Hc1
    as (a1 & c1 & items1 & _ & _ & Hm1 & _ & _ & _ & ->).
  apply createOrder_check_inr in Hc2
    as (a2 & c2 & items2 & _ & _ & Hm2 & _ & _ & _ & ->).
  apply include_product_lines in Hm1, Hm2.
  match goal with
  | |- context [createOrder_transaction ?co n1 db] =>
      destruct (createOrder_transaction_is_Some co n1 db) as [db1 Htx1]
  end.
  { intros o Ho. by apply Hfresh. }
  { simpl. intros item Hin. apply list_elem_of_lookup in Hin as [k Hk].
    destruct (Forall2_lookup_r _ _ _ _ _ Hm1 Hk) as (ci & _ & <- & Hp).
    eauto. }
  pose proof (createOrder_transaction_Some _ _ _ _ Htx1)
    as (_ & Hlk1 & _ & _ & _ & Ho1 & _).
  match goal with
  | |- context [createOrder_transaction ?co n2 _] =>
      destruct (createOrder_transaction_is_Some co n2 db1) as [db2 Htx2]
  end.
  { intros o Ho. rewrite Ho1 in Ho. apply elem_of_app in Ho as [Ho|Ho].
    - by apply Hfresh.
    - apply list_elem_of_singleton in Ho. by subst o. }
  { simpl. intros item Hin. apply list_elem_of_lookup in Hin as [k Hk].
    destruct (Forall2_lookup_r _ _ _ _ _ Hm2 Hk) as (ci & _ & <- & Hp).
    rewrite Hlk1, Hp. simpl. eauto. }
  pose proof (createOrder_transaction_Some _ _ _ _ Htx2)
    as (_ & Hlk2 & _).
  exists db1, db2. split_and!; try done.
  intros i. rewrite Hlk2, Hlk1. simpl.
  destruct (product db !! i) as [p|]; simpl; [|done].
  by rewrite decrement_decrement.
Qed.

(** C9 (on the code): one unit is left and users 7 and 8 both check out one
    unit. When both handlers have read their cart before either transaction
    runs, both stock checks pass on the stock they have read, both
    transactions commit, both callers are answered 201, two orders exist and
    the stock is -1: the decrement in the transaction is unconditional and
    the check is made outside of it. *)
Theorem createOrder_last_unit_race :
  let w := schedule [Begin 7 checkout_body;
                     Begin 8 (mkBody (Some 31) None None);
                     Commit 7 "ORD-A-0001"; Commit 8 "ORD-A-0002"]
                    (mkWorld last_unit_shop [] []) in
  Product.stock <$> product last_unit_shop !! 1 = Some 1%Z ∧
  w_responses w = [(7, resp 201 "Order placed successfully");
                   (8, resp 201 "Order placed successfully")] ∧
  Order.userId <$> order (w_db w) = [7; 8] ∧
  Product.stock <$> product (w_db w) !! 1 = Some (-1)%Z.
Proof. vm_compute. done. Qed.

(** Served one after the other, the second caller is refused. *)
Example createOrder_last_unit_sequential :
  let w := schedule [Begin 7 checkout_body; Commit 7 "ORD-A-0001";
                     Begin 8 (mkBody (Some 31) None None);
                     Commit 8 "ORD-A-0002"]
                    (mkWorld last_unit_shop [] []) in
  w_responses w
    = [(7, resp 201 "Order placed successfully");
       (8, resp 400 "Insufficient stock for Widget. Only 0 available.")] ∧
  Product.stock <$> product (w_db w) !! 1 = Some 0%Z.
Proof. vm_compute. done. Qed.

(** ** What the handlers maintain *)

Lemma consistent_frame db db' :
  product db' = product db → cartItem db' = cartItem db →
  orderItem db' = orderItem db → consistent db → consistent db'.
Proof.
  intros Hp Hc Ho [H1 H2 H3 H4].
  split; unfold cart_lines_unique, cart_items in *;
    rewrite ?Hp, ?Hc, ?Ho; done.
Qed.

Lemma order_update_frame id f db db' :
  order_update id f db = Some db' → db' = set_order (order db') db.
Proof. unfold order_update. case_decide; [|done]. by intros [= <-]. Qed.

Lemma order_update_consistent id f db db' :
  order_update id f db = Some db' → consistent db → consistent db'.
Proof.
  intros Hup. apply order_update_frame in Hup. rewrite Hup.
  by apply consistent_frame.
Qed.

Lemma filter_fmap_cartId (g : CartItem.t → CartItem.t) cartId
    (l : list CartItem.t) :
  (∀ ci, CartItem.cartId (g ci) = CartItem.cartId ci) →
  filter (λ ci, CartItem.cartId ci = cartId) (g <$> l)
  = g <$> filter (λ ci, CartItem.cartId ci = cartId) l.
Proof.
  intros Hg. induction l as [|x l IH]; [done|].
  rewrite fmap_cons, !filter_cons, Hg.
  case_decide; by rewrite IH.
Qed.

Lemma NoDup_fmap_filter {A B} (f : A → B) (Q : A → Prop)
    `{∀ x, Decision (Q x)} (l : list A) :
  NoDup (f <$> l) → NoDup (f <$> filter Q l).
Proof.
  induction l as [|x l IH]; [done|].
  rewrite fmap_cons, NoDup_cons. intros [Hx Hnd].
  rewrite filter_cons. case_decide; [|by apply IH].
  rewrite fmap_cons, NoDup_cons. split; [|by apply IH].
  intros Hin. apply Hx. apply list_elem_of_fmap in Hin as (y & -> & Hy).
  apply list_elem_of_filter in Hy as [_ Hy]. by apply list_elem_of_fmap_2.
Qed.

Lemma filter_comm {A} (P Q : A → Prop) `{∀ x, Decision (P x)}
    `{∀ x, Decision (Q x)} (l : list A) :
  filter P (filter Q l) = filter Q (filter P l).
Proof.
  rewrite !list_filter_filter. apply list_filter_iff. tauto.
Qed.

(** Rewriting the quantity of the lines with identifier [itemId]. *)
Lemma consistent_update_quantity itemId q db :
  (1 ≤ q)%Z → consistent db →
  consistent
    (set_cartItem
       ((λ ci, if decide (CartItem.id ci = itemId)
               then CartItem.with_quantity q ci else ci) <$> cartItem db) db).
Proof.
  intros Hq [H1 H2 H3 H4]. split; simpl; try done.
  - intros cartId. unfold cart_items. simpl.
    rewrite filter_fmap_cartId by (intros ci; by case_decide).
    rewrite <- list_fmap_compose.
    rewrite (list_fmap_ext _ CartItem.productId); [apply H2|].
    intros k ci _. simpl. by case_decide.
  - intros ci Hci. apply list_elem_of_fmap in Hci as (ci0 & -> & Hci0).
    case_decide; simpl; [done|by apply H3].
Qed.

(** Deleting cart lines. *)
Lemma consistent_delete (Q : CartItem.t → Prop) `{∀ x, Decision (Q x)} db :
  consistent db → consistent (set_cartItem (filter Q (cartItem db)) db).
Proof.
  intros [H1 H2 H3 H4]. split; simpl; try done.
  - intros cartId. unfold cart_items. simpl.
    rewrite filter_comm. apply NoDup_fmap_filter, H2.
  - intros ci Hci. apply list_elem_of_filter in Hci as [_ Hci]. by apply H3.
Qed.

(** Adding a line for a product the cart has no line of. *)
Lemma consistent_add_line ci db :
  (1 ≤ CartItem.quantity ci)%Z →
  (∀ x, x ∈ cartItem db →
     ¬ (CartItem.cartId x = CartItem.cartId ci
        ∧ CartItem.productId x = CartItem.productId ci)) →
  consistent db → consistent (set_cartItem (cartItem db ++ [ci]) db).
Proof.
  intros Hq Hnew [H1 H2 H3 H4]. split; simpl; try done.
  - intros cartId. unfold cart_items. simpl.
    rewrite filter_app, fmap_app. apply NoDup_app. split_and!.
    + apply H2.
    + intros i Hi Hi'. rewrite filter_cons, filter_nil in Hi'.
      case_decide as Hc; [|by apply elem_of_nil in Hi'].
      apply list_elem_of_singleton in Hi'. subst i.
      apply list_elem_of_fmap in Hi as (x & Hpid & Hx).
      apply list_elem_of_filter in Hx as [Hcx Hx].
      apply (Hnew x Hx). split; congruence.
    + rewrite filter_cons, filter_nil.
      case_decide; [apply NoDup_singleton | apply NoDup_nil_2].
  - intros x Hx. apply elem_of_app in Hx as [Hx|Hx]; [by apply H3|].
    apply list_elem_of_singleton in Hx. by subst x.
Qed.

Lemma getCart_consistent db userId :
  consistent db → consistent (getCart db userId).2.
Proof.
  unfold getCart. destruct (cart_findUnique db userId); simpl; [done|].
  by apply consistent_frame.
Qed.

Lemma addToCart_consistent db userId productId quantity :
  consistent db → consistent (addToCart db userId productId quantity).2.
Proof.
  intros Hdb. unfold addToCart.
  destruct productId as [productId|], quantity as [quantity|]; try done.
  case_decide as Hq; [done|].
  destruct (product db !! productId) as [p|]; [|done].
  case_decide; [done|].
  set (dbc := match cart_findUnique db userId with
              | Some c => (c, db)
              | None =>
                  (Cart.mk (nextId db) userId,
                   bump_nextId
                     (set_cart (cart db ++ [Cart.mk (nextId db) userId]) db))
              end).
  assert (consistent dbc.2) as Hdb1.
  { unfold dbc. destruct (cart_findUnique db userId); simpl; [done|].
    by apply (consistent_frame db). }
  destruct dbc as [c db1]. simpl in Hdb1.
  destruct (findFirst _ (cartItem db1)) as [existingItem|] eqn:Hex.
  - case_decide; [done|].
    destruct quantity as [quantity|floor]; simpl in *; [|done].
    apply consistent_update_quantity; [|done].
    apply findFirst_Some in Hex as [Hin _].
    pose proof (cart_quantity_pos _ Hdb1 _ Hin). lia.
  - destruct quantity as [quantity|floor]; simpl in *; [|done].
    apply (consistent_frame
                    (set_cartItem
                       (cartItem db1
                        ++ [CartItem.mk (nextId db1) (Cart.id c) productId
                              quantity]) db1)); try done.
    apply consistent_add_line; [simpl; lia| |done].
    intros x Hx. simpl. by apply (proj1 (findFirst_None _ _) Hex).
Qed.

Lemma updateCartItem_consistent db userId itemId quantity :
  consistent db → consistent (updateCartItem db userId itemId quantity).2.
Proof.
  intros Hdb. unfold updateCartItem.
  destruct quantity as [quantity|]; [|done].
  case_decide as Hq; [done|].
  destruct (findFirst _ (cartItem db)) as [ci|]; [|done].
  destruct (findFirst _ (cart db)) as [c|]; [|done].
  destruct (product db !! _) as [p|]; [|done].
  repeat (case_decide; [done|]).
  destruct quantity as [quantity|floor]; simpl in *; [|done].
  apply consistent_update_quantity; [lia|done].
Qed.

Lemma removeFromCart_consistent db userId itemId :
  consistent db → consistent (removeFromCart db userId itemId).2.
Proof.
  intros Hdb. unfold removeFromCart.
  destruct (findFirst _ (cartItem db)) as [ci|]; [|done].
  destruct (findFirst _ (cart db)) as [c|]; [|done].
  case_decide; [done|]. simpl. by apply consistent_delete.
Qed.

Lemma clearCart_consistent db userId :
  consistent db → consistent (clearCart db userId).2.
Proof.
  intros Hdb. unfold clearCart.
  destruct (cart_findUnique db userId) as [c|]; [|done].
  simpl. by apply consistent_delete.
Qed.

(** With one line per product, the quantity the cart holds of the product
    of a line is the quantity of that line, and the line carries the product
    row of the database. *)
Lemma cart_line_quantity db (cis : list CartItem.t) (items : list CartLine) :
  NoDup (CartItem.productId <$> cis) →
  mapM (include_product db) cis = Some items →
  ∀ item : CartLine, item ∈ items →
    item.1 ∈ cis ∧
    product db !! CartItem.productId item.1 = Some item.2 ∧
    cart_quantity_on (CartItem.productId item.1) items
      = CartItem.quantity item.1.
Proof.
  intros Hnd Hm item Hin.
  pose proof (include_product_fst _ _ _ Hm) as Hfst.
  apply include_product_lines in Hm.
  split_and!.
  - rewrite <- Hfst. by apply list_elem_of_fmap_2.
  - apply list_elem_of_lookup in Hin as [k Hk].
    by destruct (Forall2_lookup_r _ _ _ _ _ Hm Hk) as (ci & _ & <- & Hp).
  - unfold cart_quantity_on.
    apply (quantity_on_unique
             (λ item : CartLine, CartItem.productId item.1)
             (λ item : CartLine, CartItem.quantity item.1)); [|done].
    rewrite <- Hfst in Hnd. by rewrite <- list_fmap_compose in Hnd.
Qed.

(** The checkout transaction lowers a stock only by a quantity that was
    checked against it. *)
Lemma createOrder_consistent db userId body orderNumber :
  consistent db → consistent (createOrder db userId body orderNumber).2.
Proof.
  intros Hdb.
  destruct (decide (status (createOrder db userId body orderNumber).1 = 201))
    as [Hst|Hst]; [|by rewrite createOrder_all_or_nothing].
  destruct (createOrder_201 db userId body orderNumber _ _
              (surjective_pairing _) Hst) as (co & Hchk & Htx).
  apply createOrder_check_inr in Hchk
    as (a & c & items & _ & _ & Hitems & _ & _ & Henough & ->).
  apply createOrder_transaction_Some in Htx
    as (_ & Hstock & _ & Hci & _ & _ & Hrows & _).
  simpl in *.
  pose proof (cart_line_quantity db _ items (lines_unique _ Hdb (Cart.id c))
                Hitems) as Hline.
  destruct Hdb as [H1 H2 H3 H4].
  set (db' := (createOrder db userId body orderNumber).2) in *.
  split.
  - intros i p' Hp'. rewrite Hstock in Hp'.
    destruct (product db !! i) as [p|] eqn:Hp; [|done].
    injection Hp' as <-. simpl. specialize (H1 i p Hp).
    destruct (decide (Exists (λ item : CartLine, CartItem.productId item.1 = i)
                             items)) as [Hex|Hex].
    + apply Exists_exists in Hex as (item & Hin & <-).
      destruct (Hline item Hin) as (_ & Hlk & ->).
      specialize (Henough item Hin).
      assert (item.2 = p) as <- by congruence. lia.
    + unfold cart_quantity_on. rewrite quantity_on_absent; [lia|].
      intros item Hin Heq. apply Hex. apply Exists_exists. eauto.
  - intros cartId. unfold cart_items. rewrite Hci.
    rewrite filter_comm. apply NoDup_fmap_filter, H2.
  - intros ci Hin. rewrite Hci in Hin.
    apply list_elem_of_filter in Hin as [_ Hin]. by apply H3.
  - intros oi Hin. rewrite Hrows in Hin.
    apply elem_of_app in Hin as [Hin|Hin]; [by apply H4|].
    apply list_elem_of_lookup in Hin as [k Hk].
    destruct (Forall2_lookup_r _ _ _ _ _
                (order_rows_lines (nextId db) (S (nextId db)) items) Hk)
      as (item & Hitem & _ & _ & -> & _).
    apply list_elem_of_lookup_2 in Hitem.
    destruct (Hline item Hitem) as (Hcis & _).
    apply H3. by apply list_elem_of_filter in Hcis as [_ Hcis].
Qed.

(** Releasing the lines of an order only raises stocks. *)
Lemma released_consistent db id f db' :
  released db id f db' → consistent db → consistent db'.
Proof.
  intros (Hp & _ & _ & Hci & _ & Hoi & _) [H1 H2 H3 H4].
  split; unfold cart_lines_unique, cart_items in *; rewrite ?Hci, ?Hoi;
    try done.
  intros i p Hlk. rewrite Hp in Hlk.
  destruct (product db !! i) as [p0|] eqn:Hp0; [|done].
  injection Hlk as <-. simpl.
  assert (0 ≤ order_quantity_on i (order_items db id))%Z.
  { apply quantity_on_nonneg. intros oi Hin.
    apply list_elem_of_filter in Hin as [_ Hin].
    specialize (H4 oi Hin). lia. }
  specialize (H1 i p0 Hp0). lia.
Qed.

Lemma cancelOrder_consistent db userId id :
  consistent db → consistent (cancelOrder db userId id).2.
Proof.
  intros Hdb. unfold cancelOrder.
  destruct (findFirst _ (order db)) as [o|] eqn:Ho; [|done].
  case_decide; [done|].
  apply findFirst_Some in Ho as (_ & -> & _).
  destruct (_ ≫= _) as [db'|] eqn:Htx; [|done]. simpl.
  eapply released_consistent; [|done].
  by apply release_transaction_Some in Htx.
Qed.

Lemma refundPayment_consistent db userRole orderId :
  consistent db → consistent (refundPayment db userRole orderId).2.
Proof.
  intros Hdb. unfold refundPayment.
  case_decide; [done|].
  destruct orderId as [orderId|]; [|done].
  destruct (findFirst _ (order db)) as [o|]; [|done].
  case_decide; [done|].
  destruct (_ ≫= _) as [db'|] eqn:Htx; [|done]. simpl.
  eapply released_consistent; [|done].
  by apply release_transaction_Some in Htx.
Qed.

Lemma createPaymentIntent_consistent db userId orderId intentId :
  consistent db →
  consistent (createPaymentIntent db userId orderId intentId).2.
Proof.
  intros Hdb. unfold createPaymentIntent.
  destruct orderId as [orderId|]; [|done].
  destruct (findFirst _ (order db)) as [o|]; [|done].
  case_decide; [done|].
  destruct (order_update _ _ db) as [db'|] eqn:Hup; [|done].
  simpl. by eapply order_update_consistent.
Qed.

Lemma confirmPayment_consistent db userId paymentIntentId isSuccessful :
  consistent db →
  consistent (confirmPayment db userId paymentIntentId isSuccessful).2.
Proof.
  intros Hdb. unfold confirmPayment.
  destruct (truthy paymentIntentId) as [pi|]; [|done].
  destruct (findFirst _ (order db)) as [o|]; [|done].
  destruct isSuccessful;
    (destruct (order_update _ _ db) as [db'|] eqn:Hup; [|done]);
    simpl; by eapply order_update_consistent.
Qed.

Lemma handle_consistent db req :
  consistent db → consistent (handle db req).2.
Proof.
  destruct req; simpl;
    auto using getCart_consistent, addToCart_consistent,
      updateCartItem_consistent, removeFromCart_consistent,
      clearCart_consistent, createOrder_consistent, cancelOrder_consistent,
      createPaymentIntent_consistent, confirmPayment_consistent,
      refundPayment_consistent.
Qed.

Lemma serve_consistent reqs db :
  consistent db → consistent (serve reqs db).
Proof.
  unfold serve. revert db.
  induction reqs as [|req reqs IH]; intros db Hdb; simpl; [done|].
  apply IH. by apply handle_consistent.
Qed.

(** The cart handlers and the payment handlers leave the product table
    alone. *)
Lemma order_update_product id f db db' :
  order_update id f db = Some db' → product db' = product db.
Proof. intros Hup. apply order_update_frame in Hup. by rewrite Hup. Qed.

Lemma handle_product_preserving db req :
  product_preserving req → product (handle db req).2 = product db.
Proof.
  destruct req; simpl; try done; intros _.
  - unfold getCart. by destruct (cart_findUnique db userId).
  - unfold addToCart. repeat (case_match; simpl; try done); by simplify_eq.
  - unfold updateCartItem. repeat (case_match; simpl; try done).
  - unfold removeFromCart. repeat (case_match; simpl; try done).
  - unfold clearCart. by destruct (cart_findUnique db userId).
  - unfold createPaymentIntent.
    repeat (case_match; simpl; try done). by eapply order_update_product.
  - unfold confirmPayment.
    repeat (case_match; simpl; try done); by eapply order_update_product.
Qed.

Lemma released_stock db id f db' i p p' :
  released db id f db' → consistent db →
  product db !! i = Some p → product db' !! i = Some p' →
  (Product.stock p ≤ Product.stock p')%Z.
Proof.
  intros (Hp & _) Hdb Hlk Hlk'. rewrite Hp, Hlk in Hlk'.
  injection Hlk' as <-. simpl.
  assert (0 ≤ order_quantity_on i (order_items db id))%Z; [|lia].
  apply quantity_on_nonneg. intros oi Hin.
  apply list_elem_of_filter in Hin as [_ Hin].
  pose proof (order_quantity_pos _ Hdb oi Hin). lia.
Qed.

(** The row read after the request is the row read before it, so its stock
    cannot be lower. *)
Ltac same_row Hp :=
  simpl; intros Hp';
  match type of Hp with
  | _ = Some ?p =>
      match type of Hp' with
      | _ = Some ?p' => assert (p' = p) by congruence; subst; lia
      end
  end.

(** X14: served one after the other, the handlers keep every stock at
    zero or above: starting from a database in which no stock is negative
    (and carts and orders are well formed: one line per product in a cart,
    quantities at least 1), no sequence of requests to the cart, checkout,
    cancellation, payment and refund handlers, each run to completion
    before the next, makes the stock of any product negative. A single
    request lowers a stock only when it is a checkout answered 201, whose
    quantity was checked against that stock; cancellation and refund never
    lower one. *)
Lemma stock_nonnegative_when_serial db :
  consistent db →
  (∀ reqs i p,
     product (serve reqs db) !! i = Some p → (0 ≤ Product.stock p)%Z) ∧
  (∀ req i p p',
     product db !! i = Some p → product (handle db req).2 !! i = Some p' →
     (Product.stock p' < Product.stock p)%Z →
     (∃ userId body orderNumber, req = CreateOrder userId body orderNumber) ∧
     status (handle db req).1 = 201 ∧
     (0 ≤ Product.stock p')%Z).
Proof.
  intros Hdb. split.
  - intros reqs i p. apply stock_nonneg. by apply serve_consistent.
  - intros req i p p' Hp Hp' Hlt.
    assert (0 ≤ Product.stock p')%Z as Hnn.
    { eapply stock_nonneg; [|exact Hp']. by apply handle_consistent. }
    destruct req;
      try (exfalso;
           match type of Hp' with
           | context [handle db ?r] =>
               rewrite (handle_product_preserving db r I) in Hp'
           end; revert Hp'; same_row Hp);
      simpl in *.
    + split_and!; eauto.
      destruct (decide (status (createOrder db userId body orderNumber).1
                        = 201)) as [|Hst]; [done|].
      rewrite createOrder_all_or_nothing in Hp' by done.
      revert Hp'. same_row Hp.
    + exfalso. revert Hp'. unfold cancelOrder.
      destruct (findFirst _ (order db)) as [o|] eqn:Ho; [|same_row Hp].
      case_decide; [same_row Hp|].
      apply findFirst_Some in Ho as (_ & -> & _).
      destruct (_ ≫= _) as [db'|] eqn:Htx; [|same_row Hp].
      simpl. intros Hp'. apply release_transaction_Some in Htx.
      pose proof (released_stock _ _ _ _ _ _ _ Htx Hdb Hp Hp'). lia.
    + exfalso. revert Hp'. unfold refundPayment.
      case_decide; [same_row Hp|].
      destruct orderId as [orderId|]; [|same_row Hp].
      destruct (findFirst _ (order db)) as [o|]; [|same_row Hp].
      case_decide; [same_row Hp|].
      destruct (_ ≫= _) as [db'|] eqn:Htx; [|same_row Hp].
      simpl. intros Hp'. apply release_transaction_Some in Htx.
      pose proof (released_stock _ _ _ _ _ _ _ Htx Hdb Hp Hp'). lia.
Qed.

Lemma shop_consistent price stock quantity :
  (0 ≤ stock)%Z → (1 ≤ quantity)%Z → consistent (shop price stock quantity).
Proof.
  intros Hs Hq. split.
  - intros i p Hp. unfold shop in Hp. simpl in Hp.
    apply lookup_singleton_Some in Hp as [_ <-]. done.
  - apply shop_cart_lines_unique.
  - intros ci Hci. apply list_elem_of_singleton in Hci. by subst ci.
  - intros oi Hoi. by apply elem_of_nil in Hoi.
Qed.

(** The first customer checks out, a second fills a cart, the first
    cancels, checks out the 5 units of a new cart, pays, and the admin
    refunds. *)
Lemma stock_nonnegative_when_serial_example :
  consistent (shop 2000 5 3) ∧
  product
    (serve [CreateOrder 7 checkout_body "ORD-A-0001";
            AddToCart 8 (Some 1) (Some (Whole 2));
            CancelOrder 7 100;
            AddToCart 7 (Some 1) (Some (Whole 5));
            CreateOrder 7 checkout_body "ORD-A-0002";
            CreatePaymentIntent 7 (Some 105) "pi_mock_1";
            ConfirmPayment 7 (Some "pi_mock_1") true;
            RefundPayment (Some ADMIN) (Some 105)]
           (shop 2000 5 3)) !! 1
    = Some (Product.mk "Widget" 2000 5) ∧
  (0 ≤ Product.stock (Product.mk "Widget" 2000 5))%Z.
Proof.
  assert (consistent (shop 2000 5 3)) as Hdb by (apply shop_consistent; lia).
  split; [exact Hdb|]. split; [vm_compute; reflexivity|].
  destruct (stock_nonnegative_when_serial (shop 2000 5 3) Hdb) as [Hall _].
  apply (Hall [CreateOrder 7 checkout_body "ORD-A-0001";
               AddToCart 8 (Some 1) (Some (Whole 2));
               CancelOrder 7 100;
               AddToCart 7 (Some 1) (Some (Whole 5));
               CreateOrder 7 checkout_body "ORD-A-0002";
               CreatePaymentIntent 7 (Some 105) "pi_mock_1";
               ConfirmPayment 7 (Some "pi_mock_1") true;
               RefundPayment (Some ADMIN) (Some 105)] 1).
  vm_compute. reflexivity.
Defined.

(** ** The stock invariant and checkouts in flight *)

Lemma last_unit_shop_consistent : consistent last_unit_shop.
Proof.
  split.
  - intros i p Hp. unfold last_unit_shop in Hp. simpl in Hp.
    apply lookup_singleton_Some in Hp as [_ <-]. done.
  - intros cartId. unfold cart_items. simpl.
    rewrite !filter_cons, filter_nil.
    repeat case_decide; simpl in *; try apply NoDup_singleton;
      try apply NoDup_nil_2; congruence.
  - intros ci Hci. unfold last_unit_shop in Hci. simpl in Hci.
    apply elem_of_cons in Hci as [->|Hci]; [done|].
    apply list_elem_of_singleton in Hci. by subst ci.
  - intros oi Hoi. by apply elem_of_nil in Hoi.
Qed.

(** C8 (on the code): the database with one unit left is well formed and
    no stock in it is negative. Two checkouts of that unit whose reads both
    precede the two transactions leave, once both transactions are over and
    nothing is in flight, a stock of -1: a point between transactions at
    which the stock is below zero. The check that guards the decrement is
    made on the rows read before the transaction. *)
Theorem stock_negative_between_transactions :
  let w := schedule [Begin 7 checkout_body;
                     Begin 8 (mkBody (Some 31) None None);
                     Commit 7 "ORD-A-0001"; Commit 8 "ORD-A-0002"]
                    (mkWorld last_unit_shop [] []) in
  consistent last_unit_shop ∧
  w_inflight w = [] ∧
  (∃ p, product (w_db w) !! 1 = Some p ∧ (Product.stock p < 0)%Z) ∧
  ¬ consistent (w_db w).
Proof.
  split_and!.
  - apply last_unit_shop_consistent.
  - vm_compute. reflexivity.
  - eexists. split; [vm_compute; reflexivity|]. simpl. lia.
  - intros Hdb.
    assert (0 ≤ Product.stock (Product.mk "Widget" 2000 (-1)))%Z as Hnn;
      [|simpl in Hnn; lia].
    eapply (stock_nonneg _ Hdb 1). vm_compute. reflexivity.
Qed.

(** ** Order lines are written once *)

Lemma order_update_orderItem id f db db' :
  order_update id f db = Some db' → orderItem db' = orderItem db.
Proof. intros Hup. apply order_update_frame in Hup. by rewrite Hup. Qed.

(** X15: no handler rewrites or deletes an order line: the lines a
    checkout has written stay as they are, whatever becomes of the catalog
    price, of the cart or of the order. A request only ever appends
    lines. *)
Lemma order_lines_written_once db req :
  ∃ rows, orderItem (handle db req).2 = orderItem db ++ rows.
Proof.
  destruct req; simpl.
  - exists []. rewrite app_nil_r. unfold getCart.
    by destruct (cart_findUnique db userId).
  - exists []. rewrite app_nil_r. unfold addToCart.
    repeat (case_match; simpl; try done); by simplify_eq.
  - exists []. rewrite app_nil_r. unfold updateCartItem.
    repeat (case_match; simpl; try done).
  - exists []. rewrite app_nil_r. unfold removeFromCart.
    repeat (case_match; simpl; try done).
  - exists []. rewrite app_nil_r. unfold clearCart.
    by destruct (cart_findUnique db userId).
  - destruct (decide (status (createOrder db userId body orderNumber).1
                      = 201)) as [Hst|Hst].
    + destruct (createOrder_201 db userId body orderNumber _ _
                  (surjective_pairing _) Hst) as (co & _ & Htx).
      apply createOrder_transaction_Some in Htx
        as (_ & _ & _ & _ & _ & _ & Hrows & _). eauto.
    + exists []. by rewrite app_nil_r, createOrder_all_or_nothing.
  - exists []. rewrite app_nil_r. unfold cancelOrder.
    destruct (findFirst _ (order db)) as [o|] eqn:Ho; [|done].
    case_decide; [done|].
    destruct (_ ≫= _) as [db'|] eqn:Htx; [|done]. simpl.
    apply findFirst_Some in Ho as (_ & Hid & _). rewrite Hid in Htx.
    by apply release_transaction_Some in Htx as (_ & _ & _ & _ & _ & ? & _).
  - exists []. rewrite app_nil_r. unfold createPaymentIntent.
    repeat (case_match; simpl; try done). by eapply order_update_orderItem.
  - exists []. rewrite app_nil_r. unfold confirmPayment.
    repeat (case_match; simpl; try done); by eapply order_update_orderItem.
  - exists []. rewrite app_nil_r. unfold refundPayment.
    case_decide; [done|].
    destruct orderId as [orderId|]; [|done].
    destruct (findFirst _ (order db)) as [o|]; [|done].
    case_decide; [done|].
    destruct (_ ≫= _) as [db'|] eqn:Htx; [|done]. simpl.
    by apply release_transaction_Some in Htx as (_ & _ & _ & _ & _ & ? & _).
Qed.

(** * Keys and ownership *)

(** ** The identifiers stay unique *)

Lemma NoDup_fmap_eq {A B} (f : A → B) (l : list A) x y :
  NoDup (f <$> l) → x ∈ l → y ∈ l → f x = f y → x = y.
Proof.
  induction l as [|z l IH]; intros Hnd Hx Hy Hf; [by inversion Hx|].
  rewrite fmap_cons in Hnd. apply NoDup_cons in Hnd as [Hz Hnd].
  apply elem_of_cons in Hx as [->|Hx], Hy as [->|Hy]; try done.
  - exfalso. apply Hz. rewrite Hf. by apply list_elem_of_fmap_2.
  - exfalso. apply Hz. rewrite <- Hf. by apply list_elem_of_fmap_2.
  - by apply IH.
Qed.

Lemma NoDup_fmap_snoc {A B} (f : A → B) (l : list A) y :
  NoDup (f <$> l) → (∀ x, x ∈ l → f x ≠ f y) → NoDup (f <$> l ++ [y]).
Proof.
  intros Hnd Hy. rewrite fmap_app. apply NoDup_app. split_and!; [done| |].
  - intros b Hb Hb'. apply list_elem_of_singleton in Hb'. subst b.
    apply list_elem_of_fmap in Hb as (x & Heq & Hx). by apply (Hy x).
  - apply NoDup_singleton.
Qed.

Lemma NoDup_fmap_fmap {A B} (f : A → B) (g : A → A) (l : list A) :
  (∀ x, f (g x) = f x) → NoDup (f <$> l) → NoDup (f <$> (g <$> l)).
Proof.
  intros Hg Hnd. rewrite <- list_fmap_compose.
  rewrite (list_fmap_ext _ f); [done|]. intros k x _. apply Hg.
Qed.

Lemma keyed_set_product ps db : keyed db → keyed (set_product ps db).
Proof. by intros []. Qed.

(** A first cart for a user, under the next identifier. *)
Lemma keyed_add_cart db userId :
  keyed db → cart_findUnique db userId = None →
  keyed (bump_nextId
           (set_cart (cart db ++ [Cart.mk (nextId db) userId]) db)).
Proof.
  intros [H1 H2 H3 H4 H5 H6 H7 H8 H9] Hnone. split; simpl; try done.
  - apply NoDup_fmap_snoc; [done|]. intros c Hc. simpl.
    specialize (H6 c Hc). lia.
  - apply NoDup_fmap_snoc; [done|]. intros c Hc. simpl.
    by apply (proj1 (findFirst_None _ _) Hnone).
  - intros c Hc. apply elem_of_app in Hc as [Hc|Hc].
    + specialize (H6 c Hc). lia.
    + apply list_elem_of_singleton in Hc. subst c. simpl. lia.
  - intros ci Hci. specialize (H7 ci Hci). lia.
  - intros o Ho. specialize (H8 o Ho). lia.
  - intros oi Hoi. specialize (H9 oi Hoi). lia.
Qed.

(** A new line in a cart that exists, under the next identifier. *)
Lemma keyed_add_cartItem db cartId productId quantity :
  keyed db → cartId < nextId db →
  keyed (bump_nextId
           (set_cartItem
              (cartItem db
               ++ [CartItem.mk (nextId db) cartId productId quantity]) db)).
Proof.
  intros [H1 H2 H3 H4 H5 H6 H7 H8 H9] Hc. split; simpl; try done.
  - apply NoDup_fmap_snoc; [done|]. intros ci Hci. simpl.
    specialize (H7 ci Hci). lia.
  - intros c Hc'. specialize (H6 c Hc'). lia.
  - intros ci Hci. apply elem_of_app in Hci as [Hci|Hci].
    + specialize (H7 ci Hci). lia.
    + apply list_elem_of_singleton in Hci. subst ci. simpl. lia.
  - intros o Ho. specialize (H8 o Ho). lia.
  - intros oi Hoi. specialize (H9 oi Hoi). lia.
Qed.

(** Rewriting cart lines without touching their keys. *)
Lemma keyed_map_cartItem (g : CartItem.t → CartItem.t) db :
  (∀ ci, CartItem.id (g ci) = CartItem.id ci
         ∧ CartItem.cartId (g ci) = CartItem.cartId ci) →
  keyed db → keyed (set_cartItem (g <$> cartItem db) db).
Proof.
  intros Hg [H1 H2 H3 H4 H5 H6 H7 H8 H9]. split; simpl; try done.
  - apply NoDup_fmap_fmap; [|done]. intros ci. apply Hg.
  - intros ci Hci. apply list_elem_of_fmap in Hci as (ci0 & -> & Hci0).
    destruct (Hg ci0) as [-> ->]. by apply H7.
Qed.

Lemma keyed_filter_cartItem (Q : CartItem.t → Prop) `{∀ x, Decision (Q x)}
    db :
  keyed db → keyed (set_cartItem (filter Q (cartItem db)) db).
Proof.
  intros [H1 H2 H3 H4 H5 H6 H7 H8 H9]. split; simpl; try done.
  - by apply NoDup_fmap_filter.
  - intros ci Hci. apply list_elem_of_filter in Hci as [_ Hci]. by apply H7.
Qed.

(** Rewriting orders without touching their keys. *)
Lemma keyed_map_order (g : Order.t → Order.t) db :
  (∀ o, Order.id (g o) = Order.id o) →
  keyed db → keyed (set_order (g <$> order db) db).
Proof.
  intros Hg [H1 H2 H3 H4 H5 H6 H7 H8 H9]. split; simpl; try done.
  - by apply NoDup_fmap_fmap.
  - intros o Ho. apply list_elem_of_fmap in Ho as (o0 & -> & Ho0).
    rewrite Hg. by apply H8.
Qed.

Lemma order_update_keyed id f db db' :
  (∀ o, Order.id (f o) = Order.id o) →
  order_update id f db = Some db' → keyed db → keyed db'.
Proof.
  intros Hf. unfold order_update. case_decide; [|done]. intros [= <-].
  apply keyed_map_order. intros o. by case_decide.
Qed.

Lemma restore_stock_keyed items db db' :
  restore_stock items db = Some db' → keyed db → keyed db'.
Proof.
  intros Hrs. apply restore_stock_frame in Hrs. rewrite Hrs.
  apply keyed_set_product.
Qed.

(** The order lines of a checkout take consecutive fresh identifiers. *)
Lemma order_rows_ids orderId n (items : list CartLine) row :
  row ∈ order_rows orderId n items →
  n ≤ OrderItem.id row < n + length items ∧ OrderItem.orderId row = orderId.
Proof.
  revert n. induction items as [|item items IH]; intros n Hrow; simpl in *.
  - by apply elem_of_nil in Hrow.
  - apply elem_of_cons in Hrow as [->|Hrow]; [simpl; lia|].
    specialize (IH _ Hrow). lia.
Qed.

Lemma order_rows_NoDup orderId n (items : list CartLine) :
  NoDup (OrderItem.id <$> order_rows orderId n items).
Proof.
  revert n. induction items as [|item items IH]; intros n; simpl.
  - apply NoDup_nil_2.
  - apply NoDup_cons. split; [|apply IH].
    intros Hin. apply list_elem_of_fmap in Hin as (row & Hid & Hrow).
    apply order_rows_ids in Hrow. simpl in Hid. lia.
Qed.

Lemma createOrder_transaction_keyed co orderNumber db db' :
  createOrder_transaction co orderNumber db = Some db' →
  keyed db → keyed db'.
Proof.
  intros Htx [H1 H2 H3 H4 H5 H6 H7 H8 H9].
  apply createOrder_transaction_Some in Htx
    as (_ & _ & Hc & Hci & _ & Ho & Hoi & Hn).
  split; rewrite ?Hc, ?Hci, ?Ho, ?Hoi, ?Hn; try done.
  - by apply NoDup_fmap_filter.
  - apply NoDup_fmap_snoc; [done|]. intros o Hin. simpl.
    specialize (H8 o Hin). lia.
  - rewrite fmap_app. apply NoDup_app. split_and!; [done| |].
    + intros i Hi Hi'.
      apply list_elem_of_fmap in Hi as (oi & -> & Hoi0).
      apply list_elem_of_fmap in Hi' as (row & Heq & Hrow).
      apply order_rows_ids in Hrow. specialize (H9 oi Hoi0). lia.
    + apply order_rows_NoDup.
  - intros c Hin. specialize (H6 c Hin). lia.
  - intros ci Hin. apply list_elem_of_filter in Hin as [_ Hin].
    specialize (H7 ci Hin). lia.
  - intros o Hin. apply elem_of_app in Hin as [Hin|Hin].
    + specialize (H8 o Hin). lia.
    + apply list_elem_of_singleton in Hin. subst o. simpl. lia.
  - intros oi Hin. apply elem_of_app in Hin as [Hin|Hin].
    + specialize (H9 oi Hin). lia.
    + apply order_rows_ids in Hin. lia.
Qed.

Lemma handle_keyed db req : keyed db → keyed (handle db req).2.
Proof.
  intros Hk. destruct req; simpl.
  - unfold getCart. destruct (cart_findUnique db userId) eqn:Hc; [done|].
    simpl. by apply keyed_add_cart.
  - unfold addToCart.
    destruct productId as [productId|], quantity as [quantity|]; try done.
    case_decide; [done|].
    destruct (product db !! productId) as [p|]; [|done].
    case_decide; [done|].
    set (dbc := match cart_findUnique db userId with
                | Some c => (c, db)
                | None =>
                    (Cart.mk (nextId db) userId,
                     bump_nextId
                       (set_cart (cart db ++ [Cart.mk (nextId db) userId])
                                 db))
                end).
    assert (keyed dbc.2 ∧ Cart.id dbc.1 < nextId dbc.2) as [Hk1 Hlt].
    { unfold dbc. destruct (cart_findUnique db userId) as [c|] eqn:Hc; simpl.
      - split; [done|]. apply findFirst_Some in Hc as [Hc _].
        by apply (cart_id_below _ Hk).
      - split; [by apply keyed_add_cart | lia]. }
    destruct dbc as [c db1]. simpl in Hk1, Hlt.
    destruct (findFirst _ (cartItem db1)) as [existingItem|].
    + case_decide; [done|].
      destruct quantity as [quantity|floor]; [|done]. simpl.
      apply keyed_map_cartItem; [|done]. intros ci. by case_decide.
    + destruct quantity as [quantity|floor]; [|done].
      simpl. by apply keyed_add_cartItem.
  - unfold updateCartItem. destruct quantity as [quantity|]; [|done].
    case_decide; [done|].
    destruct (findFirst _ (cartItem db)) as [ci|]; [|done].
    destruct (findFirst _ (cart db)) as [c|]; [|done].
    destruct (product db !! _) as [p|]; [|done].
    repeat (case_decide; [done|]).
    destruct quantity as [quantity|floor]; [|done]. simpl.
    apply keyed_map_cartItem; [|done]. intros x. by case_decide.
  - unfold removeFromCart.
    destruct (findFirst _ (cartItem db)) as [ci|]; [|done].
    destruct (findFirst _ (cart db)) as [c|]; [|done].
    case_decide; [done|]. simpl. by apply keyed_filter_cartItem.
  - unfold clearCart. destruct (cart_findUnique db userId) as [c|]; [|done].
    simpl. by apply keyed_filter_cartItem.
  - unfold createOrder.
    destruct (createOrder_check db userId body) as [r|co]; [done|].
    destruct (createOrder_transaction co orderNumber db) as [db'|] eqn:Htx;
      [|done].
    simpl. by eapply createOrder_transaction_keyed.
  - unfold cancelOrder.
    destruct (findFirst _ (order db)) as [o|]; [|done].
    case_decide; [done|].
    destruct (restore_stock _ db) as [db1|] eqn:Hrs; [|done]. simpl.
    destruct (order_update id _ db1) as [db'|] eqn:Hup; [|done]. simpl.
    eapply order_update_keyed; [|exact Hup|]; [done|].
    by eapply restore_stock_keyed.
  - unfold createPaymentIntent. destruct orderId as [orderId|]; [|done].
    destruct (findFirst _ (order db)) as [o|]; [|done].
    case_decide; [done|].
    destruct (order_update _ _ db) as [db'|] eqn:Hup; [|done]. simpl.
    by eapply order_update_keyed; [|exact Hup|].
  - unfold confirmPayment.
    destruct (truthy paymentIntentId) as [pi|]; [|done].
    destruct (findFirst _ (order db)) as [o|]; [|done].
    destruct isSuccessful;
      (destruct (order_update _ _ db) as [db'|] eqn:Hup; [|done]); simpl;
      by eapply order_update_keyed; [|exact Hup|].
  - unfold refundPayment. case_decide; [done|].
    destruct orderId as [orderId|]; [|done].
    destruct (findFirst _ (order db)) as [o|]; [|done].
    case_decide; [done|].
    destruct (restore_stock _ db) as [db1|] eqn:Hrs; [|done]. simpl.
    destruct (order_update orderId _ db1) as [db'|] eqn:Hup; [|done]. simpl.
    eapply order_update_keyed; [|exact Hup|]; [done|].
    by eapply restore_stock_keyed.
Qed.

Lemma serve_snoc reqs req db :
  serve (reqs ++ [req]) db = (handle (serve reqs db) req).2.
Proof. unfold serve. by rewrite foldl_app. Qed.

Lemma shop_keyed price stock quantity : keyed (shop price stock quantity).
Proof.
  split; simpl; try apply NoDup_singleton; try apply NoDup_nil_2.
  - intros c Hc. apply list_elem_of_singleton in Hc. subst c. simpl. lia.
  - intros c Hc. apply list_elem_of_singleton in Hc. subst c. simpl. lia.
  - intros c Hc. by apply elem_of_nil in Hc.
  - intros c Hc. by apply elem_of_nil in Hc.
Qed.

Lemma fmap_id_on {A} (g : A → A) (l : list A) :
  (∀ x, x ∈ l → g x = x) → g <$> l = l.
Proof.
  intros Hg. induction l as [|x l IH]; [done|]. rewrite fmap_cons.
  rewrite Hg by (apply elem_of_cons; auto). f_equal. apply IH.
  intros y Hy. apply Hg. apply elem_of_cons. auto.
Qed.

Lemma filter_id_on {A} (Q : A → Prop) `{∀ x, Decision (Q x)} (l : list A) :
  (∀ x, x ∈ l → Q x) → filter Q l = l.
Proof.
  intros HQ. induction l as [|x l IH]; [done|].
  rewrite filter_cons_True by (apply HQ, elem_of_cons; auto). f_equal.
  apply IH. intros y Hy. apply HQ, elem_of_cons. auto.
Qed.

Lemma filter_fmap_pres {A} (P : A → Prop) `{∀ x, Decision (P x)}
    (g : A → A) (l : list A) :
  (∀ x, P (g x) ↔ P x) → filter P (g <$> l) = g <$> filter P l.
Proof.
  intros Hg. induction l as [|x l IH]; [done|]. rewrite fmap_cons.
  rewrite !filter_cons. destruct (decide (P (g x))) as [HP|HP];
    destruct (decide (P x)) as [HP'|HP']; rewrite ?IH; try done.
  - destruct (Hg x); tauto.
  - destruct (Hg x); tauto.
Qed.

Lemma cart_items_map_other (g : CartItem.t → CartItem.t) e cartId
    (l : list CartItem.t) :
  NoDup (CartItem.id <$> l) → e ∈ l → CartItem.cartId e ≠ cartId →
  (∀ ci, CartItem.cartId (g ci) = CartItem.cartId ci) →
  filter (λ ci, CartItem.cartId ci = cartId)
         ((λ ci, if decide (CartItem.id ci = CartItem.id e) then g ci else ci)
            <$> l)
  = filter (λ ci, CartItem.cartId ci = cartId) l.
Proof.
  intros Hnd He Hne Hg. rewrite filter_fmap_pres.
  - apply fmap_id_on. intros x Hx. apply list_elem_of_filter in Hx as [Hc Hx].
    case_decide as Hid; [|done].
    apply (NoDup_fmap_eq _ _ _ _ Hnd Hx He) in Hid. by subst x.
  - intros x. case_decide; [|done]. by rewrite Hg.
Qed.

Lemma cart_items_remove_other e cartId (l : list CartItem.t) :
  NoDup (CartItem.id <$> l) → e ∈ l → CartItem.cartId e ≠ cartId →
  filter (λ ci, CartItem.cartId ci = cartId)
         (filter (λ ci, CartItem.id ci ≠ CartItem.id e) l)
  = filter (λ ci, CartItem.cartId ci = cartId) l.
Proof.
  intros Hnd He Hne. rewrite filter_comm. apply filter_id_on.
  intros x Hx Hid. apply list_elem_of_filter in Hx as [Hc Hx].
  apply (NoDup_fmap_eq _ _ _ _ Hnd Hx He) in Hid. by subst x.
Qed.

Lemma cart_items_deleteMany_other cartId0 cartId (l : list CartItem.t) :
  cartId0 ≠ cartId →
  filter (λ ci, CartItem.cartId ci = cartId)
         (filter (λ ci, CartItem.cartId ci ≠ cartId0) l)
  = filter (λ ci, CartItem.cartId ci = cartId) l.
Proof.
  intros Hne. rewrite filter_comm. apply filter_id_on.
  intros x Hx. apply list_elem_of_filter in Hx as [Hc Hx]. congruence.
Qed.

Lemma order_update_other id f db db' o userId :
  NoDup (Order.id <$> order db) →
  o ∈ order db → Order.id o = id → Order.userId o = userId →
  (∀ o, Order.userId (f o) = Order.userId o) →
  order_update id f db = Some db' →
  filter (λ o, Order.userId o ≠ userId) (order db')
  = filter (λ o, Order.userId o ≠ userId) (order db) ∧
  cart db' = cart db ∧ cartItem db' = cartItem db.
Proof.
  intros Hnd Ho Hid Hu Hf. unfold order_update. case_decide; [|done].
  intros [= <-]. simpl. split; [|done]. rewrite filter_fmap_pres.
  - apply fmap_id_on. intros x Hx. apply list_elem_of_filter in Hx as [Hc Hx].
    case_decide as Hid'; [|done]. rewrite <- Hid in Hid'.
    apply (NoDup_fmap_eq _ _ _ _ Hnd Hx Ho) in Hid'. by subst x.
  - intros x. case_decide; [|done]. by rewrite Hf.
Qed.

Lemma other_cart_id db c c0 :
  keyed db → c ∈ cart db → c0 ∈ cart db →
  Cart.userId c ≠ Cart.userId c0 → Cart.id c ≠ Cart.id c0.
Proof.
  intros Hk Hc Hc0 Hne Hid.
  apply (NoDup_fmap_eq _ _ _ _ (cart_id_unique _ Hk) Hc Hc0) in Hid.
  by subst c.
Qed.

(** The cart that [getCart] and [addToCart] work with. *)
Lemma own_cart db userId :
  keyed db →
  let dbc := match cart_findUnique db userId with
             | Some c => (c, db)
             | None =>
                 (Cart.mk (nextId db) userId,
                  bump_nextId
                    (set_cart (cart db ++ [Cart.mk (nextId db) userId]) db))
             end in
  keyed dbc.2 ∧ dbc.1 ∈ cart dbc.2 ∧ Cart.userId dbc.1 = userId ∧
  cartItem dbc.2 = cartItem db ∧ product dbc.2 = product db ∧
  order dbc.2 = order db ∧ orderItem dbc.2 = orderItem db ∧
  address dbc.2 = address db ∧
  (∀ c, c ∈ cart db → c ∈ cart dbc.2) ∧
  (∀ c, c ∈ cart db → Cart.userId c ≠ userId → Cart.id c ≠ Cart.id dbc.1) ∧
  filter (λ c, Cart.userId c ≠ userId) (cart dbc.2)
  = filter (λ c, Cart.userId c ≠ userId) (cart db).
Proof.
  intros Hk. destruct (cart_findUnique db userId) as [c0|] eqn:Hc0; simpl.
  - apply findFirst_Some in Hc0 as [Hc0 Hu]. split_and!; try done.
    intros c Hc Hne. apply (other_cart_id db); try done. congruence.
  - split_and!; try done.
    + by apply keyed_add_cart.
    + apply elem_of_app. right. by apply list_elem_of_singleton.
    + intros c Hc. apply elem_of_app. by left.
    + intros c Hc _. pose proof (cart_id_below _ Hk c Hc). lia.
    + rewrite filter_app, filter_cons_False, filter_nil by (simpl; tauto).
      by rewrite app_nil_r.
Qed.

Lemma filter_filter_weaker {A} (P Q : A → Prop) `{∀ x, Decision (P x)}
    `{∀ x, Decision (Q x)} (l : list A) :
  (∀ x, P x → Q x) → filter P (filter Q l) = filter P l.
Proof.
  intros HPQ. induction l as [|x l IH]; [done|]. rewrite !filter_cons.
  destruct (decide (Q x)) as [HQ|HQ].
  - rewrite filter_cons. destruct (decide (P x)); by rewrite IH.
  - rewrite IH. destruct (decide (P x)) as [HP|HP]; [|done].
    by apply HPQ in HP.
Qed.

(** What a request made on behalf of [userId] leaves as it was: the orders
    of the other users, their carts, and the lines of each of their
    carts. *)
Lemma handle_keeps_others db req userId :
  keyed db → acting_user req = Some userId →
  filter (λ o, Order.userId o ≠ userId) (order (handle db req).2)
  = filter (λ o, Order.userId o ≠ userId) (order db) ∧
  filter (λ c, Cart.userId c ≠ userId) (cart (handle db req).2)
  = filter (λ c, Cart.userId c ≠ userId) (cart db) ∧
  ∀ c, c ∈ cart db → Cart.userId c ≠ userId →
    cart_items (handle db req).2 (Cart.id c) = cart_items db (Cart.id c).
Proof.
  intros Hk Hreq. unfold cart_items.
  destruct req; simpl in Hreq; simplify_eq; simpl.
  - unfold getCart. pose proof (own_cart db userId Hk) as Hown.
    destruct (cart_findUnique db userId); simpl in *; [done|].
    by destruct Hown as (_ & _ & _ & _ & _ & _ & _ & _ & _ & _ & ->).
  - unfold addToCart.
    destruct productId as [productId|], quantity as [quantity|]; try done.
    case_decide; [done|].
    destruct (product db !! productId) as [p|]; [|done].
    case_decide; [done|].
    pose proof (own_cart db userId Hk) as Hown. cbv zeta in Hown.
    destruct (match cart_findUnique db userId with
              | Some c => (c, db) | None => _ end) as [c0 db1].
    destruct Hown as (Hk1 & Hc0 & Hu & Hci & _ & Ho & _ & _ & _ & Hid & Hcs).
    simpl in *.
    destruct (findFirst _ (cartItem db1)) as [e|] eqn:He.
    + apply findFirst_Some in He as [He [Hec _]].
      case_decide; [simpl; by rewrite ?Ho, ?Hcs, ?Hci|].
      destruct quantity as [quantity|floor]; simpl; rewrite ?Ho, ?Hcs, ?Hci;
        [|done].
      split_and!; try done. intros c Hc Hne. rewrite <- Hci.
      apply cart_items_map_other; try done.
      * apply Hk1.
      * rewrite Hec. intros Heq. by apply (Hid c Hc Hne).
    + destruct quantity as [quantity|floor]; simpl; rewrite ?Ho, ?Hcs, ?Hci;
        [|done].
      split_and!; try done.
      intros c Hc Hne. rewrite filter_app, filter_cons_False, filter_nil.
      * by rewrite app_nil_r.
      * simpl. intros Heq. by apply (Hid c Hc Hne).
  - unfold updateCartItem. destruct quantity as [quantity|]; [|done].
    case_decide; [done|].
    destruct (findFirst _ (cartItem db)) as [e|] eqn:He; [|done].
    destruct (findFirst _ (cart db)) as [c0|] eqn:Hc0; [|done].
    destruct (product db !! _) as [p|]; [|done].
    case_decide; [done|]. case_decide; [done|].
    destruct quantity as [quantity|floor]; [|done]. simpl.
    split_and!; try done. intros c Hc Hne.
    apply findFirst_Some in He as [He <-].
    apply findFirst_Some in Hc0 as [Hc0 Hid0].
    apply (cart_items_map_other (CartItem.with_quantity quantity));
      try done; [apply Hk|].
    rewrite <- Hid0. intros Heq. symmetry in Heq. revert Heq.
    apply (other_cart_id db); try done.
    destruct (decide (Cart.userId c0 = userId)); [congruence|tauto].
  - unfold removeFromCart.
    destruct (findFirst _ (cartItem db)) as [e|] eqn:He; [|done].
    destruct (findFirst _ (cart db)) as [c0|] eqn:Hc0; [|done].
    case_decide; [done|]. simpl.
    split_and!; try done. intros c Hc Hne.
    apply findFirst_Some in He as [He <-].
    apply findFirst_Some in Hc0 as [Hc0 Hid0].
    apply cart_items_remove_other; try done; [apply Hk|].
    rewrite <- Hid0. intros Heq. symmetry in Heq. revert Heq.
    apply (other_cart_id db); try done.
    destruct (decide (Cart.userId c0 = userId)); [congruence|tauto].
  - unfold clearCart.
    destruct (cart_findUnique db userId) as [c0|] eqn:Hc0; [|done]. simpl.
    split_and!; try done. intros c Hc Hne.
    apply findFirst_Some in Hc0 as [Hc0 Hu].
    apply cart_items_deleteMany_other. intros Heq. symmetry in Heq.
    revert Heq. apply (other_cart_id db); try done. congruence.
  - destruct (createOrder db userId body orderNumber) as [r db'] eqn:Hco.
    simpl. unfold createOrder in Hco.
    destruct (createOrder_check db userId body) as [r0|co] eqn:Hck;
      [by simplify_eq|].
    destruct (createOrder_transaction co orderNumber db) as [db1|] eqn:Htx;
      [|by simplify_eq].
    simplify_eq.
    apply createOrder_check_inr in Hck
      as (a & c0 & items & _ & Hc0 & _ & _ & _ & _ & ->).
    apply createOrder_transaction_Some in Htx
      as (_ & _ & -> & -> & _ & -> & _ & _). simpl.
    split_and!; try done.
    + rewrite filter_app, filter_cons_False, filter_nil by (simpl; tauto).
      by rewrite app_nil_r.
    + intros c Hc Hne. apply findFirst_Some in Hc0 as [Hc0 Hu].
      apply cart_items_deleteMany_other. intros Heq. symmetry in Heq.
      revert Heq. apply (other_cart_id db); try done. congruence.
  - unfold cancelOrder.
    destruct (findFirst _ (order db)) as [o|] eqn:Ho; [|done].
    case_decide; [done|].
    destruct (restore_stock _ db) as [db1|] eqn:Hrs; [|done]. simpl.
    destruct (order_update id _ db1) as [db'|] eqn:Hup; [|done]. simpl.
    apply findFirst_Some in Ho as [Ho [Hid Hu]].
    apply restore_stock_frame in Hrs. rewrite Hrs in Hup.
    eapply (order_update_other _ _ _ _ o userId) in Hup; try done;
      [|apply Hk].
    simpl in Hup. destruct Hup as (-> & -> & ->). done.
  - unfold createPaymentIntent. destruct orderId as [orderId|]; [|done].
    destruct (findFirst _ (order db)) as [o|] eqn:Ho; [|done].
    case_decide; [done|].
    destruct (order_update _ _ db) as [db'|] eqn:Hup; [|done]. simpl.
    apply findFirst_Some in Ho as [Ho [Hid Hu]].
    eapply (order_update_other _ _ _ _ o userId) in Hup; try done;
      [|apply Hk].
    destruct Hup as (-> & -> & ->). done.
  - unfold confirmPayment.
    destruct (truthy paymentIntentId) as [pi|]; [|done].
    destruct (findFirst _ (order db)) as [o|] eqn:Ho; [|done].
    apply findFirst_Some in Ho as [Ho [Hid Hu]].
    destruct isSuccessful;
      (destruct (order_update _ _ db) as [db'|] eqn:Hup; [|done]); simpl;
      (eapply (order_update_other _ _ _ _ o userId) in Hup; try done;
       [|apply Hk]);
      destruct Hup as (-> & -> & ->); done.
Qed.

(** X2: a request made on behalf of one user leaves the data of every other
    user as it was. When the identifiers are unique, whatever the request
    and however it is answered, any other user has the same orders in the
    same order, the same cart, and the same lines in it. (The stock is
    shared and is not part of this.) *)
Theorem handle_isolation db req userId other :
  keyed db → acting_user req = Some userId → other ≠ userId →
  filter (λ o, Order.userId o = other) (order (handle db req).2)
  = filter (λ o, Order.userId o = other) (order db) ∧
  cart_findUnique (handle db req).2 other = cart_findUnique db other ∧
  ∀ c, cart_findUnique db other = Some c →
    cart_items (handle db req).2 (Cart.id c) = cart_items db (Cart.id c).
Proof.
  intros Hk Hreq Hne.
  destruct (handle_keeps_others db req userId Hk Hreq) as (Ho & Hc & Hci).
  split_and!.
  - rewrite <- (filter_filter_weaker (λ o, Order.userId o = other)
                  (λ o, Order.userId o ≠ userId))
      by (intros o ->; done).
    rewrite Ho. apply filter_filter_weaker. by intros o ->.
  - unfold cart_findUnique, findFirst.
    rewrite <- (filter_filter_weaker (λ c, Cart.userId c = other)
                  (λ c, Cart.userId c ≠ userId))
      by (intros o ->; done).
    rewrite Hc. f_equal. apply filter_filter_weaker. by intros o ->.
  - intros c Hfind. apply findFirst_Some in Hfind as [Hin Hu].
    apply Hci; [done|congruence].
Qed.

(** ** Cart lines and their quantities *)

Lemma quantity_on_app {A} (pid : A → Id) (qty : A → Z) i (l1 l2 : list A) :
  quantity_on pid qty i (l1 ++ l2)
  = (quantity_on pid qty i l1 + quantity_on pid qty i l2)%Z.
Proof.
  induction l1 as [|x l1 IH]; simpl; [done|]. case_decide; lia.
Qed.

Lemma quantity_on_fmap_same {A} (pid : A → Id) (qty : A → Z) i (g : A → A)
    (l : list A) :
  (∀ x, x ∈ l → pid (g x) = pid x ∧ (pid x = i → qty (g x) = qty x)) →
  quantity_on pid qty i (g <$> l) = quantity_on pid qty i l.
Proof.
  intros Hg. induction l as [|x l IH]; [done|]. rewrite fmap_cons. simpl.
  destruct (Hg x) as [Hp Hq]; [apply elem_of_cons; auto|].
  rewrite Hp, IH by (intros y Hy; apply Hg, elem_of_cons; auto).
  case_decide; [|done]. by rewrite Hq.
Qed.

Lemma findFirst_snoc {A} (P : A → Prop) `{∀ x, Decision (P x)} (l : list A)
    x :
  findFirst P l = None → P x → findFirst P (l ++ [x]) = Some x.
Proof.
  unfold findFirst. intros Hnone HP. apply head_None in Hnone.
  by rewrite filter_app, Hnone, filter_cons_True, filter_nil.
Qed.

(** X3: what an accepted [addToCart] has done. The product exists, the
    quantity is at least 1, the caller has a cart afterwards (the one they
    had, if they had one), that cart holds [quantity] more of the product
    than before and no more than the stock, and the quantity of every other
    product and in every other cart is as it was; products, orders and
    order lines are untouched. *)
Theorem addToCart_added db userId productId quantity r db' :
  keyed db → cart_lines_unique db →
  addToCart db userId (Some productId) (Some (Whole quantity)) = (r, db') →
  status r = 200 →
  ∃ c p,
    cart_findUnique db' userId = Some c ∧
    (∀ c0, cart_findUnique db userId = Some c0 → c0 = c) ∧
    product db !! productId = Some p ∧
    (1 ≤ quantity)%Z ∧
    line_quantity db' (Cart.id c) productId
    = (line_quantity db (Cart.id c) productId + quantity)%Z ∧
    (line_quantity db' (Cart.id c) productId ≤ Product.stock p)%Z ∧
    (∀ cartId pid, cartId ≠ Cart.id c ∨ pid ≠ productId →
       line_quantity db' cartId pid = line_quantity db cartId pid) ∧
    product db' = product db ∧ order db' = order db ∧
    orderItem db' = orderItem db.
Proof.
  intros Hk Hu. unfold addToCart.
  case_decide as Hq; [by intros [= <- <-]|].
  destruct (product db !! productId) as [p|] eqn:Hp; [|by intros [= <- <-]].
  case_decide as Hs; [by intros [= <- <-]|].
  pose proof (own_cart db userId Hk) as Hown. cbv zeta in Hown.
  assert (∃ c0 db1,
            match cart_findUnique db userId with
            | Some c => (c, db)
            | None =>
                (Cart.mk (nextId db) userId,
                 bump_nextId
                   (set_cart (cart db ++ [Cart.mk (nextId db) userId]) db))
            end = (c0, db1) ∧
            cart_findUnique db1 userId = Some c0 ∧
            (∀ c, cart_findUnique db userId = Some c → c = c0))
    as (c0 & db1 & Heq & Hfind & Hsame).
  { destruct (cart_findUnique db userId) as [c|] eqn:Hc.
    - exists c, db. split_and!; [done|done|]. by intros ? [= ->].
    - eexists _, _. split_and!; [done| |done].
      unfold cart_findUnique. simpl. by apply findFirst_snoc. }
  rewrite Heq in Hown |- *.
  destruct Hown as (Hk1 & Hc0 & Hu0 & Hci & Hpr & Ho & Hoi & _).
  simpl in *.
  destruct (findFirst _ (cartItem db1)) as [e|] eqn:He.
  - apply findFirst_Some in He as [He [Hec Hep]]. rewrite Hci in He.
    case_decide as Hs'; intros [= <- <-]; [done|]. intros _.
    exists c0, p. rewrite Hci.
    set (G := λ ci, if decide (CartItem.id ci = CartItem.id e)
                    then CartItem.with_quantity
                           (CartItem.quantity e + quantity) ci
                    else ci).
    assert (∀ ci, CartItem.cartId (G ci) = CartItem.cartId ci) as HGc
      by (intros ci; unfold G; by case_decide).
    assert (e ∈ cart_items db (Cart.id c0)) as HeL
      by (by apply list_elem_of_filter).
    assert (line_quantity db (Cart.id c0) productId = CartItem.quantity e)
      as Hold.
    { rewrite <- Hep. by apply quantity_on_unique. }
    assert (line_quantity (set_cartItem (G <$> cartItem db) db1) (Cart.id c0)
              productId
            = (CartItem.quantity e + quantity)%Z) as Hnew.
    { unfold line_quantity, cart_items. simpl.
      rewrite filter_fmap_cartId by done.
      assert (G e = CartItem.with_quantity (CartItem.quantity e + quantity) e)
        as HGe by (unfold G; by rewrite decide_True).
      assert (NoDup (CartItem.productId
                       <$> (G <$> cart_items db (Cart.id c0)))) as HND.
      { apply NoDup_fmap_fmap; [|apply Hu]. intros ci. unfold G.
        by case_decide. }
      pose proof (quantity_on_unique CartItem.productId CartItem.quantity
                    (G e) _ HND (list_elem_of_fmap_2 G _ _ HeL)) as HG.
      rewrite HGe in HG. simpl in HG. by rewrite Hep in HG. }
    rewrite Hnew, Hold. simpl. split_and!; try done; try lia.
    intros cartId pid Hother. unfold line_quantity, cart_items. simpl.
    rewrite filter_fmap_cartId by done.
    apply quantity_on_fmap_same. intros x Hx.
    apply list_elem_of_filter in Hx as [Hxc Hx]. unfold G.
    case_decide as Hid; [|done]. simpl. split; [done|]. intros Hxp.
    apply (NoDup_fmap_eq _ _ _ _ (cartItem_id_unique _ Hk) Hx He) in Hid.
    subst x. exfalso. destruct Hother; congruence.
  - intros [= <- <-] _. exists c0, p. rewrite Hci.
    pose proof (proj1 (findFirst_None _ _) He) as Hno. rewrite Hci in Hno.
    set (new := CartItem.mk (nextId db1) (Cart.id c0) productId quantity).
    assert (line_quantity db (Cart.id c0) productId = 0%Z) as Hold.
    { apply quantity_on_absent. intros x Hx Hxp.
      apply list_elem_of_filter in Hx as [Hxc Hx]. by apply (Hno x Hx). }
    assert (∀ cartId pid,
              line_quantity
                (bump_nextId (set_cartItem (cartItem db ++ [new]) db1))
                cartId pid
              = (line_quantity db cartId pid
                 + if decide (cartId = Cart.id c0 ∧ pid = productId)
                   then quantity else 0)%Z) as Hnew.
    { intros cartId pid. unfold line_quantity, cart_items. simpl.
      rewrite filter_app, quantity_on_app. f_equal.
      destruct (decide (Cart.id c0 = cartId)) as [Hc|Hc].
      - rewrite filter_cons_True, filter_nil by done. simpl.
        repeat case_decide; try lia; exfalso; intuition congruence.
      - rewrite filter_cons_False, filter_nil by done. simpl.
        case_decide; [exfalso; intuition congruence|done]. }
    rewrite !Hnew, Hold, decide_True by done. simpl.
    split_and!; try done; try lia.
    intros cartId pid Hother. rewrite Hnew, decide_False; [lia|].
    intros [? ?]. destruct Hother; congruence.
Qed.

(** ** The references stay valid *)

Lemma linked_set_product ps db :
  (∀ i, is_Some (product db !! i) → is_Some (ps !! i)) →
  linked db → linked (set_product ps db).
Proof. intros Hps [H1 H2 H3 H4]. split; simpl; auto. Qed.

Lemma linked_add_cart c db : linked db → linked (set_cart (cart db ++ [c]) db).
Proof.
  intros [H1 H2 H3 H4]. split; simpl; auto.
  intros ci Hci. destruct (H1 ci Hci) as (c0 & Hc0 & Hid).
  exists c0. split; [|done]. apply elem_of_app. by left.
Qed.

Lemma linked_bump db : linked db → linked (bump_nextId db).
Proof. by intros []. Qed.

Lemma linked_add_cartItem ci db :
  (∃ c, c ∈ cart db ∧ Cart.id c = CartItem.cartId ci) →
  is_Some (product db !! CartItem.productId ci) →
  linked db → linked (set_cartItem (cartItem db ++ [ci]) db).
Proof.
  intros Hc Hp [H1 H2 H3 H4]. split; simpl; auto.
  - intros x Hx. apply elem_of_app in Hx as [Hx|Hx]; [auto|].
    apply list_elem_of_singleton in Hx. by subst x.
  - intros x Hx. apply elem_of_app in Hx as [Hx|Hx]; [auto|].
    apply list_elem_of_singleton in Hx. by subst x.
Qed.

Lemma linked_map_cartItem (g : CartItem.t → CartItem.t) db :
  (∀ ci, CartItem.cartId (g ci) = CartItem.cartId ci
         ∧ CartItem.productId (g ci) = CartItem.productId ci) →
  linked db → linked (set_cartItem (g <$> cartItem db) db).
Proof.
  intros Hg [H1 H2 H3 H4]. split; simpl; auto.
  - intros x Hx. apply list_elem_of_fmap in Hx as (ci & -> & Hci).
    destruct (Hg ci) as [-> _]. auto.
  - intros x Hx. apply list_elem_of_fmap in Hx as (ci & -> & Hci).
    destruct (Hg ci) as [_ ->]. auto.
Qed.

Lemma linked_filter_cartItem (Q : CartItem.t → Prop) `{∀ x, Decision (Q x)}
    db :
  linked db → linked (set_cartItem (filter Q (cartItem db)) db).
Proof.
  intros [H1 H2 H3 H4]. split; simpl; auto.
  - intros x Hx. apply list_elem_of_filter in Hx as [_ Hx]. auto.
  - intros x Hx. apply list_elem_of_filter in Hx as [_ Hx]. auto.
Qed.

Lemma order_update_linked id f db db' :
  (∀ o, Order.id (f o) = Order.id o) →
  order_update id f db = Some db' → linked db → linked db'.
Proof.
  intros Hf. unfold order_update. case_decide; [|done]. intros [= <-].
  intros [H1 H2 H3 H4]. split; simpl; auto.
  intros oi Hoi. destruct (H3 oi Hoi) as (o & Ho & Hid).
  exists (if decide (Order.id o = id) then f o else o). split.
  - apply list_elem_of_fmap. by exists o.
  - case_decide; [by rewrite Hf|done].
Qed.

Lemma restore_stock_linked items db db' :
  restore_stock items db = Some db' → linked db → linked db'.
Proof.
  intros Hrs. pose proof (restore_stock_lookup _ _ _ Hrs) as Hl.
  apply restore_stock_frame in Hrs. rewrite Hrs.
  apply linked_set_product. intros i [p Hp]. rewrite Hl, Hp. by eexists.
Qed.

Lemma createOrder_linked db userId body orderNumber :
  linked db → linked (createOrder db userId body orderNumber).2.
Proof.
  intros Hl. destruct (createOrder db userId body orderNumber) as [r db'] eqn:Hco.
  simpl. unfold createOrder in Hco.
  destruct (createOrder_check db userId body) as [r0|co] eqn:Hck;
    [by simplify_eq|].
  destruct (createOrder_transaction co orderNumber db) as [db1|] eqn:Htx;
    [|by simplify_eq].
  simplify_eq.
  apply createOrder_check_inr in Hck
    as (a & c0 & items & _ & Hc0 & Hitems & _ & _ & _ & ->).
  apply createOrder_transaction_Some in Htx
    as (_ & Hp & Hc & Hci & _ & Ho & Hoi & _). simpl in *.
  destruct Hl as [H1 H2 H3 H4].
  assert (∀ i, is_Some (product db !! i) → is_Some (product db' !! i)) as Hdom.
  { intros i [p Hi]. rewrite Hp, Hi. by eexists. }
  split; rewrite ?Hc, ?Hci, ?Ho, ?Hoi.
  - intros x Hx. apply list_elem_of_filter in Hx as [_ Hx]. auto.
  - intros x Hx. apply list_elem_of_filter in Hx as [_ Hx]. auto.
  - intros oi Hin. apply elem_of_app in Hin as [Hin|Hin].
    + destruct (H3 oi Hin) as (o & Hin' & Hid). exists o. split; [|done].
      apply elem_of_app. by left.
    + eexists. split; [apply elem_of_app; right;
                        by apply list_elem_of_singleton|].
      apply order_rows_ids in Hin as [_ ->]. done.
  - intros oi Hin. apply elem_of_app in Hin as [Hin|Hin]; [auto|].
    apply Hdom. pose proof (order_rows_lines (nextId db) (S (nextId db)) items)
      as Hrows.
    apply list_elem_of_lookup in Hin as [k Hk].
    destruct (Forall2_lookup_r _ _ _ _ _ Hrows Hk) as (item & Hitem & _ & -> & _).
    apply include_product_lines in Hitems.
    destruct (Forall2_lookup_r _ _ _ _ _ Hitems Hitem) as (ci & _ & -> & Hpr).
    by eexists.
Qed.

Lemma handle_linked db req : linked db → linked (handle db req).2.
Proof.
  intros Hl. destruct req; simpl.
  - unfold getCart. destruct (cart_findUnique db userId); [done|]. simpl.
    by apply linked_bump, linked_add_cart.
  - unfold addToCart.
    destruct productId as [productId|], quantity as [quantity|]; try done.
    case_decide; [done|].
    destruct (product db !! productId) as [p|] eqn:Hp; [|done].
    case_decide; [done|].
    set (dbc := match cart_findUnique db userId with
                | Some c => (c, db)
                | None =>
                    (Cart.mk (nextId db) userId,
                     bump_nextId
                       (set_cart (cart db ++ [Cart.mk (nextId db) userId])
                                 db))
                end).
    assert (linked dbc.2 ∧ dbc.1 ∈ cart dbc.2
            ∧ product dbc.2 = product db) as (Hl1 & Hin & Hpr).
    { unfold dbc. destruct (cart_findUnique db userId) as [c|] eqn:Hc; simpl.
      - split_and!; try done. by apply findFirst_Some in Hc as [Hc _].
      - split_and!; try done; [by apply linked_bump, linked_add_cart|].
        apply elem_of_app. right. by apply list_elem_of_singleton. }
    destruct dbc as [c db1]. simpl in *.
    destruct (findFirst _ (cartItem db1)) as [existingItem|].
    + case_decide; [done|].
      destruct quantity as [quantity|floor]; [|done]. simpl.
      apply linked_map_cartItem; [|done]. intros ci. by case_decide.
    + destruct quantity as [quantity|floor]; [|done].
      simpl. apply linked_bump, linked_add_cartItem; simpl; try done.
      * by exists c.
      * rewrite Hpr, Hp. by eexists.
  - unfold updateCartItem. destruct quantity as [quantity|]; [|done].
    case_decide; [done|].
    destruct (findFirst _ (cartItem db)) as [ci|]; [|done].
    destruct (findFirst _ (cart db)) as [c|]; [|done].
    destruct (product db !! _) as [p|]; [|done].
    repeat (case_decide; [done|]).
    destruct quantity as [quantity|floor]; [|done]. simpl.
    apply linked_map_cartItem; [|done]. intros x. by case_decide.
  - unfold removeFromCart.
    destruct (findFirst _ (cartItem db)) as [ci|]; [|done].
    destruct (findFirst _ (cart db)) as [c|]; [|done].
    case_decide; [done|]. simpl. by apply linked_filter_cartItem.
  - unfold clearCart. destruct (cart_findUnique db userId) as [c|]; [|done].
    simpl. by apply linked_filter_cartItem.
  - by apply createOrder_linked.
  - unfold cancelOrder.
    destruct (findFirst _ (order db)) as [o|]; [|done].
    case_decide; [done|].
    destruct (restore_stock _ db) as [db1|] eqn:Hrs; [|done]. simpl.
    destruct (order_update id _ db1) as [db'|] eqn:Hup; [|done]. simpl.
    eapply order_update_linked; [|exact Hup|]; [done|].
    by eapply restore_stock_linked.
  - unfold createPaymentIntent. destruct orderId as [orderId|]; [|done].
    destruct (findFirst _ (order db)) as [o|]; [|done].
    case_decide; [done|].
    destruct (order_update _ _ db) as [db'|] eqn:Hup; [|done]. simpl.
    by eapply order_update_linked; [|exact Hup|].
  - unfold confirmPayment.
    destruct (truthy paymentIntentId) as [pi|]; [|done].
    destruct (findFirst _ (order db)) as [o|]; [|done].
    destruct isSuccessful;
      (destruct (order_update _ _ db) as [db'|] eqn:Hup; [|done]); simpl;
      by eapply order_update_linked; [|exact Hup|].
  - unfold refundPayment. case_decide; [done|].
    destruct orderId as [orderId|]; [|done].
    destruct (findFirst _ (order db)) as [o|]; [|done].
    case_decide; [done|].
    destruct (restore_stock _ db) as [db1|] eqn:Hrs; [|done]. simpl.
    destruct (order_update orderId _ db1) as [db'|] eqn:Hup; [|done]. simpl.
    eapply order_update_linked; [|exact Hup|]; [done|].
    by eapply restore_stock_linked.
Qed.

(** X1: the keys and the references of the tables are kept by every
    sequence of requests. Starting from a database in which the identifiers
    of each table are unique, no user has two carts, every identifier in
    use lies below the next one to be handed out, and every cart line and
    order line refers to a cart or order and to a product that exist, the
    same holds after any requests served one after the other. *)
Theorem serve_integrity reqs db :
  keyed db → linked db → keyed (serve reqs db) ∧ linked (serve reqs db).
Proof.
  intros Hk Hl. induction reqs as [|req reqs [IHk IHl]] using rev_ind;
    [done|].
  rewrite serve_snoc. split; [by apply handle_keyed|by apply handle_linked].
Qed.

Lemma linked_order_products db id : linked db → order_products_exist db id.
Proof.
  intros Hl oi Hoi. apply list_elem_of_filter in Hoi as [_ Hoi].
  by apply (orderItem_product _ Hl).
Qed.

Lemma linked_cart_lines db cartId :
  linked db → is_Some (mapM (include_product db) (cart_items db cartId)).
Proof.
  intros Hl. apply mapM_is_Some, Forall_forall. intros ci Hci.
  apply list_elem_of_filter in Hci as [_ Hci].
  destruct (cartItem_product _ Hl ci Hci) as [p Hp].
  unfold include_product. simpl. rewrite Hp. by eexists.
Qed.

Lemma createOrder_500 db userId body orderNumber :
  linked db →
  status (createOrder db userId body orderNumber).1 = 500 →
  ∃ o, o ∈ order db ∧ Order.orderNumber o = orderNumber.
Proof.
  intros Hl. unfold createOrder.
  destruct (createOrder_check db userId body) as [r|co] eqn:Hck.
  - simpl. intros Hr. exfalso. revert Hr. unfold createOrder_check in Hck.
    destruct (addressId body); [|by simplify_eq].
    destruct (cart_findUnique db userId) as [c|]; [|by simplify_eq].
    destruct (linked_cart_lines db (Cart.id c) Hl) as [items Hitems].
    rewrite Hitems in Hck.
    case_decide; [by simplify_eq|].
    destruct (findFirst _ (address db)); [|by simplify_eq].
    destruct (findFirst _ items); by simplify_eq.
  - destruct (createOrder_transaction co orderNumber db) eqn:Htx; [done|].
    intros _.
    destruct (decide (Exists (λ o, Order.orderNumber o = orderNumber)
                        (order db))) as [Hex|Hex].
    + apply Exists_exists in Hex as (o & Ho & Hn). by exists o.
    + exfalso.
      apply createOrder_check_inr in Hck
        as (a & c0 & items & _ & _ & Hitems & _ & _ & _ & ->).
      destruct (createOrder_transaction_is_Some
                  (mkCheckout userId a (paymentMethod body) (notes body)
                     c0 items (subtotal_of items)
                     (tax_of (subtotal_of items))
                     (shipping_of (subtotal_of items))
                     (total_of (subtotal_of items)
                        (tax_of (subtotal_of items))
                        (shipping_of (subtotal_of items))))
                  orderNumber db) as [db' Hsome].
      * intros o Ho Hn. apply Hex, Exists_exists. by exists o.
      * simpl. intros item Hitem.
        apply include_product_lines in Hitems.
        apply list_elem_of_lookup in Hitem as [k Hk].
        destruct (Forall2_lookup_r _ _ _ _ _ Hitems Hk)
          as (ci & _ & -> & Hp).
        by eexists.
      * congruence.
Qed.

(** X8: when every cart line and every order line refers to rows that
    exist, a request is answered 500 in four cases only: a checkout whose
    order number is already in use; an [addToCart] of a product in stock
    and an [updateCartItem] of a line that exists, when the quantity is at
    least 1 and below the stock of the product but no integer, so that
    Prisma refuses to write it; and a refund asked by an administrator
    without the identifier of an order. *)
Theorem handle_500 db req :
  linked db → status (handle db req).1 = 500 →
  (∃ userId body orderNumber o,
     req = CreateOrder userId body orderNumber ∧
     o ∈ order db ∧ Order.orderNumber o = orderNumber) ∨
  (∃ userId productId floor p,
     req = AddToCart userId (Some productId) (Some (Fraction floor)) ∧
     product db !! productId = Some p ∧
     (1 ≤ floor < Product.stock p)%Z) ∨
  (∃ userId itemId floor ci p,
     req = UpdateCartItem userId itemId (Some (Fraction floor)) ∧
     ci ∈ cartItem db ∧ CartItem.id ci = itemId ∧
     product db !! CartItem.productId ci = Some p ∧
     (1 ≤ floor < Product.stock p)%Z) ∨
  req = RefundPayment (Some ADMIN) None.
Proof.
  intros Hl. destruct req; simpl.
  - unfold getCart. by destruct (cart_findUnique db userId).
  - unfold addToCart.
    destruct productId as [productId|], quantity as [quantity|]; try done.
    case_decide; [done|].
    destruct (product db !! productId) as [p|] eqn:Hp; [|done].
    case_decide; [done|].
    destruct (match cart_findUnique db userId with
              | Some c => (c, db) | None => _ end) as [c0 db1].
    destruct (findFirst _ (cartItem db1));
      [case_decide; [done|]|];
      (destruct quantity as [z|floor]; [done|]; intros _;
       right; left; exists userId, productId, floor, p;
       simpl in *; split_and!; [done|done|lia|lia]).
  - unfold updateCartItem. destruct quantity as [quantity|]; [|done].
    case_decide; [done|].
    destruct (findFirst _ (cartItem db)) as [ci|] eqn:Hci; [|done].
    apply findFirst_Some in Hci as [Hci Hi].
    destruct (cartItem_cart _ Hl ci Hci) as (c & Hc & Hid).
    destruct (findFirst_is_Some (λ c, Cart.id c = CartItem.cartId ci) _ c Hc Hid)
      as [c0 ->].
    destruct (cartItem_product _ Hl ci Hci) as [p Hp]. rewrite Hp.
    case_decide; [done|]. case_decide; [done|].
    destruct quantity as [z|floor]; [done|]. intros _.
    right; right; left. exists userId, itemId, floor, ci, p.
    simpl in *. split_and!; [done|done|done|done|lia|lia].
  - unfold removeFromCart.
    destruct (findFirst _ (cartItem db)) as [ci|] eqn:Hci; [|done].
    apply findFirst_Some in Hci as [Hci _].
    destruct (cartItem_cart _ Hl ci Hci) as (c & Hc & Hid).
    destruct (findFirst_is_Some (λ c, Cart.id c = CartItem.cartId ci) _ c Hc Hid)
      as [c0 ->].
    by case_decide.
  - unfold clearCart. by destruct (cart_findUnique db userId).
  - intros H500.
    destruct (createOrder_500 db userId body orderNumber Hl H500)
      as (o & Ho & Hn).
    left. by eexists _, _, _, o.
  - unfold cancelOrder.
    destruct (findFirst _ (order db)) as [o|] eqn:Ho; [|done].
    apply findFirst_Some in Ho as [Ho [Hid _]].
    case_decide; [done|]. rewrite Hid.
    destruct (release_transaction_is_Some db id
                (Order.with_status OrderStatus.CANCELLED)
                (linked_order_products db id Hl)) as [db' ->]; [|done].
    by exists o.
  - unfold createPaymentIntent. destruct orderId as [orderId|]; [|done].
    destruct (findFirst _ (order db)) as [o|] eqn:Ho; [|done].
    apply findFirst_Some in Ho as [Ho [Hid _]].
    case_decide; [done|]. rewrite order_update_Some; [done|]. by exists o.
  - unfold confirmPayment.
    destruct (truthy paymentIntentId) as [pi|]; [|done].
    destruct (findFirst _ (order db)) as [o|] eqn:Ho; [|done].
    apply findFirst_Some in Ho as [Ho _].
    destruct isSuccessful; (rewrite order_update_Some; [done|]); by exists o.
  - unfold refundPayment. case_decide as Hrole; [done|].
    destruct orderId as [orderId|].
    2:{ intros _. right; right; right.
        by destruct (decide (userRole = Some ADMIN)) as [->|]. }
    destruct (findFirst _ (order db)) as [o|] eqn:Ho; [|done].
    apply findFirst_Some in Ho as [Ho Hid].
    case_decide; [done|].
    destruct (release_transaction_is_Some db orderId
                (λ o, Order.with_paymentStatus PaymentStatus.REFUNDED
                        (Order.with_status OrderStatus.REFUNDED o))
                (linked_order_products db orderId Hl)) as [db' ->]; [|done].
    by exists o.
Qed.

(** ** Whose line it is *)

Lemma findFirst_unique {A B} `{EqDecision B} (f : A → B) (l : list A) x :
  NoDup (f <$> l) → x ∈ l → findFirst (λ y, f y = f x) l = Some x.
Proof.
  intros Hnd Hx.
  destruct (findFirst_is_Some (λ y, f y = f x) l x Hx eq_refl) as [y Hy].
  rewrite Hy. apply findFirst_Some in Hy as [Hy Heq].
  by rewrite (NoDup_fmap_eq f l y x Hnd Hy Hx Heq).
Qed.

Lemma own_cart_found db c :
  keyed db → c ∈ cart db → cart_findUnique db (Cart.userId c) = Some c.
Proof.
  intros Hk Hc. apply (findFirst_unique Cart.userId); [apply Hk|done].
Qed.

(** X5: a cart line that lies in somebody else's cart is treated like a
    line that does not exist: both [updateCartItem], for any quantity that
    passes its first check, and [removeFromCart] answer 404 with the same
    message and leave the database as it was. *)
Theorem cart_item_not_own db userId itemId quantity :
  linked db → ¬ below_one quantity →
  (∀ ci c, ci ∈ cartItem db → CartItem.id ci = itemId →
           c ∈ cart db → Cart.id c = CartItem.cartId ci →
           Cart.userId c ≠ userId) →
  updateCartItem db userId itemId (Some quantity)
  = (resp 404 "Cart item not found", db) ∧
  removeFromCart db userId itemId = (resp 404 "Cart item not found", db).
Proof.
  intros Hl Hq Hother. unfold updateCartItem, removeFromCart.
  rewrite decide_False by done.
  destruct (findFirst _ (cartItem db)) as [ci|] eqn:Hci; [|done].
  apply findFirst_Some in Hci as [Hci Hid].
  destruct (cartItem_cart _ Hl ci Hci) as (c & Hc & Hcid).
  destruct (findFirst_is_Some (λ c, Cart.id c = CartItem.cartId ci) _ c Hc Hcid)
    as [c0 Hc0].
  rewrite Hc0. apply findFirst_Some in Hc0 as [Hc0 Hcid0].
  destruct (cartItem_product _ Hl ci Hci) as [p ->].
  by rewrite !decide_True by (by apply (Hother ci c0)).
Qed.

(** X6: what an accepted [updateCartItem] has done. The line is the
    caller's, the new quantity is at least 1 and at most the stock of its
    product, the caller's cart now holds exactly that quantity of the
    product, and every other quantity is as it was. *)
Theorem updateCartItem_updated db userId itemId quantity r db' :
  keyed db → cart_lines_unique db →
  updateCartItem db userId itemId (Some (Whole quantity)) = (r, db') →
  status r = 200 →
  ∃ ci c p,
    ci ∈ cartItem db ∧ CartItem.id ci = itemId ∧
    cart_findUnique db userId = Some c ∧ CartItem.cartId ci = Cart.id c ∧
    product db !! CartItem.productId ci = Some p ∧
    (1 ≤ quantity ≤ Product.stock p)%Z ∧
    line_quantity db' (Cart.id c) (CartItem.productId ci) = quantity ∧
    (∀ cartId pid, cartId ≠ Cart.id c ∨ pid ≠ CartItem.productId ci →
       line_quantity db' cartId pid = line_quantity db cartId pid) ∧
    product db' = product db ∧ cart db' = cart db ∧
    order db' = order db ∧ orderItem db' = orderItem db.
Proof.
  intros Hk Hu. unfold updateCartItem. cbn [Int_column].
  case_decide as Hq; [by intros [= <- <-]|].
  destruct (findFirst _ (cartItem db)) as [ci|] eqn:Hci;
    [|by intros [= <- <-]].
  destruct (findFirst _ (cart db)) as [c|] eqn:Hc; [|by intros [= <- <-]].
  destruct (product db !! _) as [p|] eqn:Hp; [|by intros [= <- <-]].
  case_decide as Hown; [by intros [= <- <-]|].
  case_decide as Hs; intros [= <- <-]; [done|]. intros _.
  apply findFirst_Some in Hci as [Hci Hid].
  apply findFirst_Some in Hc as [Hc Hcid].
  assert (Cart.userId c = userId) as Hcu
    by (destruct (decide (Cart.userId c = userId)); [done|tauto]).
  exists ci, c, p. simpl in Hq, Hs. simpl.
  set (G := λ x, if decide (CartItem.id x = itemId)
                 then CartItem.with_quantity quantity x else x).
  assert (∀ x, CartItem.cartId (G x) = CartItem.cartId x) as HGc
    by (intros x; unfold G; by case_decide).
  assert (ci ∈ cart_items db (Cart.id c)) as HeL
    by (by apply list_elem_of_filter).
  split_and!; try done; try lia.
  - rewrite <- Hcu. by apply own_cart_found.
  - unfold line_quantity, cart_items. simpl.
    rewrite filter_fmap_cartId by done.
    assert (G ci = CartItem.with_quantity quantity ci) as HGe
      by (unfold G; by rewrite decide_True).
    assert (NoDup (CartItem.productId
                     <$> (G <$> cart_items db (Cart.id c)))) as HND.
    { apply NoDup_fmap_fmap; [|apply Hu]. intros x. unfold G.
      by case_decide. }
    pose proof (quantity_on_unique CartItem.productId CartItem.quantity
                  (G ci) _ HND (list_elem_of_fmap_2 G _ _ HeL)) as HG.
    rewrite HGe in HG. simpl in HG. done.
  - intros cartId pid Hother. unfold line_quantity, cart_items. simpl.
    rewrite filter_fmap_cartId by done.
    apply quantity_on_fmap_same. intros x Hx.
    apply list_elem_of_filter in Hx as [Hxc Hx]. unfold G.
    case_decide as Hid'; [|done]. simpl. split; [done|]. intros Hxp.
    rewrite <- Hid in Hid'.
    apply (NoDup_fmap_eq _ _ _ _ (cartItem_id_unique _ Hk) Hx Hci) in Hid'.
    subst x. exfalso. destruct Hother; congruence.
Qed.

Lemma quantity_on_filter_same {A} (pid : A → Id) (qty : A → Z) i
    (Q : A → Prop) `{∀ x, Decision (Q x)} (l : list A) :
  (∀ x, x ∈ l → pid x = i → Q x) →
  quantity_on pid qty i (filter Q l) = quantity_on pid qty i l.
Proof.
  intros HQ. induction l as [|x l IH]; [done|].
  rewrite filter_cons. simpl.
  assert (quantity_on pid qty i (filter Q l) = quantity_on pid qty i l)
    as IH' by (apply IH; intros y Hy; apply HQ, elem_of_cons; auto).
  destruct (decide (Q x)) as [HQx|HQx]; simpl; rewrite IH'; [done|].
  case_decide as Hp; [|done]. exfalso. apply HQx, HQ; [|done].
  apply elem_of_cons. auto.
Qed.

(** X7: what an accepted [removeFromCart] has done. The line was the
    caller's, no line with that identifier is left, the caller's cart holds
    nothing of its product any more, and every other quantity is as it
    was. *)
Theorem removeFromCart_removed db userId itemId r db' :
  keyed db → cart_lines_unique db →
  removeFromCart db userId itemId = (r, db') →
  status r = 200 →
  ∃ ci c,
    ci ∈ cartItem db ∧ CartItem.id ci = itemId ∧
    cart_findUnique db userId = Some c ∧ CartItem.cartId ci = Cart.id c ∧
    line_quantity db' (Cart.id c) (CartItem.productId ci) = 0%Z ∧
    (∀ cartId pid, cartId ≠ Cart.id c ∨ pid ≠ CartItem.productId ci →
       line_quantity db' cartId pid = line_quantity db cartId pid) ∧
    (∀ x, x ∈ cartItem db' → CartItem.id x ≠ itemId) ∧
    product db' = product db ∧ cart db' = cart db ∧
    order db' = order db ∧ orderItem db' = orderItem db.
Proof.
  intros Hk Hu. unfold removeFromCart.
  destruct (findFirst _ (cartItem db)) as [ci|] eqn:Hci;
    [|by intros [= <- <-]].
  destruct (findFirst _ (cart db)) as [c|] eqn:Hc; [|by intros [= <- <-]].
  case_decide as Hown; intros [= <- <-]; [done|]. intros _.
  apply findFirst_Some in Hci as [Hci Hid].
  apply findFirst_Some in Hc as [Hc Hcid].
  assert (Cart.userId c = userId) as Hcu
    by (destruct (decide (Cart.userId c = userId)); [done|tauto]).
  exists ci, c. simpl. split_and!; try done.
  - rewrite <- Hcu. by apply own_cart_found.
  - unfold line_quantity, cart_items. simpl. rewrite filter_comm.
    apply quantity_on_absent. intros x Hx Hxp.
    apply list_elem_of_filter in Hx as [Hxid Hx].
    assert (x ∈ cart_items db (Cart.id c)) as HxL by done.
    apply list_elem_of_filter in Hx as [Hxc Hx].
    assert (ci ∈ cart_items db (Cart.id c)) as HeL
      by (by apply list_elem_of_filter).
    apply (NoDup_fmap_eq _ _ _ _ (Hu (Cart.id c)) HxL HeL) in Hxp.
    subst x. done.
  - intros cartId pid Hother. unfold line_quantity, cart_items. simpl.
    rewrite filter_comm. apply quantity_on_filter_same.
    intros x Hx Hxp Hxid. apply list_elem_of_filter in Hx as [Hxc Hx].
    rewrite <- Hid in Hxid.
    apply (NoDup_fmap_eq _ _ _ _ (cartItem_id_unique _ Hk) Hx Hci) in Hxid.
    subst x. destruct Hother; congruence.
  - intros x Hx. by apply list_elem_of_filter in Hx as [Hx _].
Qed.

(** X4: what an [addToCart] that is not answered 200 has written. It has
    written nothing, with one exception: when the quantity is no integer
    and the caller had no cart, the answer is 500 and the cart that the
    handler created for the caller, before Prisma refused the line, is
    left behind without a line. In every case the products, the cart
    lines, the addresses, the orders and the order lines are as they
    were, and so is the cart of a caller who had one. *)
Theorem addToCart_rejected db userId productId quantity :
  keyed db →
  status (addToCart db userId productId quantity).1 ≠ 200 →
  (addToCart db userId productId quantity).2 = db ∨
  (status (addToCart db userId productId quantity).1 = 500 ∧
   (∃ floor, quantity = Some (Fraction floor)) ∧
   cart_findUnique db userId = None ∧
   ∃ c, cart (addToCart db userId productId quantity).2 = cart db ++ [c] ∧
        Cart.userId c = userId ∧ Cart.id c = nextId db ∧
        cart_items (addToCart db userId productId quantity).2 (Cart.id c)
          = [] ∧
        nextId (addToCart db userId productId quantity).2 = S (nextId db) ∧
        product (addToCart db userId productId quantity).2 = product db ∧
        cartItem (addToCart db userId productId quantity).2 = cartItem db ∧
        address (addToCart db userId productId quantity).2 = address db ∧
        order (addToCart db userId productId quantity).2 = order db ∧
        orderItem (addToCart db userId productId quantity).2
          = orderItem db).
Proof.
  intros Hk. unfold addToCart.
  destruct productId as [productId|], quantity as [quantity|];
    try (by left).
  case_decide; [by left|].
  destruct (product db !! productId) as [p|]; [|by left].
  case_decide; [by left|].
  destruct (cart_findUnique db userId) as [c|] eqn:Hc.
  - destruct (findFirst _ (cartItem db)); [case_decide; [by left|]|];
      destruct quantity; simpl; try done; by left.
  - simpl.
    destruct (findFirst _ (cartItem db)) as [e|] eqn:He.
    { apply findFirst_Some in He as [He [Hec _]]. simpl in Hec.
      pose proof (cartItem_id_below _ Hk e He). lia. }
    destruct quantity as [z|floor]; [done|]. intros _. right. simpl.
    split_and!; [done|by eexists|done|].
    exists (Cart.mk (nextId db) userId). split_and!; try done.
    unfold cart_items. simpl. apply elem_of_nil_inv. intros x Hx.
    apply list_elem_of_filter in Hx as [Hx1 Hx2].
    pose proof (cartItem_id_below _ Hk x Hx2). lia.
Qed.

(** ** Orders *)

(** X9: an order of another user is treated like an order that does not
    exist: [getOrder], [getPaymentStatus], [cancelOrder] and
    [createPaymentIntent] all answer 404 'Order not found', return nothing
    and change nothing. *)
Theorem order_not_own db userId id intentId :
  (∀ o, o ∈ order db → Order.id o = id → Order.userId o ≠ userId) →
  getOrder db userId id = (resp 404 "Order not found", None) ∧
  getPaymentStatus db userId id = (resp 404 "Order not found", None) ∧
  cancelOrder db userId id = (resp 404 "Order not found", db) ∧
  createPaymentIntent db userId (Some id) intentId
  = (resp 404 "Order not found", db).
Proof.
  intros Hother.
  assert (findFirst (λ o, Order.id o = id ∧ Order.userId o = userId)
            (order db) = None) as Hnone.
  { apply findFirst_None. intros o Ho [Hid Hu]. by apply (Hother o). }
  unfold getOrder, getPaymentStatus, cancelOrder, createPaymentIntent.
  by rewrite Hnone.
Qed.

Lemma filter_none {A} (Q : A → Prop) `{∀ x, Decision (Q x)} (l : list A) :
  (∀ x, x ∈ l → ¬ Q x) → filter Q l = [].
Proof.
  intros HQ. induction l as [|x l IH]; [done|].
  rewrite filter_cons_False by (apply HQ, elem_of_cons; auto).
  apply IH. intros y Hy. apply HQ, elem_of_cons. auto.
Qed.

Lemma order_rows_quantity orderId n (items : list CartLine) i :
  order_quantity_on i (order_rows orderId n items) = cart_quantity_on i items.
Proof.
  revert n. unfold order_quantity_on, cart_quantity_on.
  induction items as [|item items IH]; intros n; simpl; [done|].
  by rewrite IH.
Qed.

Lemma order_rows_all orderId n (items : list CartLine) :
  filter (λ oi, OrderItem.orderId oi = orderId) (order_rows orderId n items)
  = order_rows orderId n items.
Proof.
  apply filter_id_on. intros oi Hoi. by apply order_rows_ids in Hoi as [_ ?].
Qed.

Lemma increment_decrement q p :
  Product.increment q (Product.decrement q p) = p.
Proof.
  destruct p as [n pr s]. unfold Product.increment, Product.decrement,
    Product.with_stock. simpl. f_equal. lia.
Qed.

(** X10: cancelling the order that a checkout has just placed is accepted
    and gives every product its stock back: the product table is again the
    one before the checkout. The order stays, as CANCELLED, with its lines;
    the cart is not refilled. *)
Theorem createOrder_cancelOrder db userId body orderNumber r db1 :
  keyed db →
  createOrder db userId body orderNumber = (r, db1) → status r = 201 →
  ∃ o db2,
    order db1 = order db ++ [o] ∧
    cancelOrder db1 userId (Order.id o)
    = (resp 200 "Order cancelled successfully", db2) ∧
    product db2 = product db ∧
    order db2 = order db ++ [Order.with_status OrderStatus.CANCELLED o] ∧
    cartItem db2 = cartItem db1 ∧ orderItem db2 = orderItem db1.
Proof.
  intros Hk Hco Hr.
  destruct (createOrder_201 _ _ _ _ _ _ Hco Hr) as (co & Hck & Htx).
  apply createOrder_check_inr in Hck
    as (a & c0 & items & _ & _ & Hitems & _ & _ & _ & Hcoeq).
  assert (co_items co = items ∧ co_userId co = userId) as [Hci Hcu]
    by (by subst co).
  apply createOrder_transaction_Some in Htx
    as (_ & Hp & _ & _ & _ & Ho & Hoi & _). rewrite Hci in Hp, Hoi.
  set (o := new_order co orderNumber (nextId db)) in *.
  assert (order_items db1 (nextId db)
          = order_rows (nextId db) (S (nextId db)) items) as Hrows.
  { unfold order_items. rewrite Hoi, filter_app, order_rows_all.
    rewrite filter_none; [done|]. intros oi Hin Heq.
    pose proof (orderItem_id_below _ Hk oi Hin). lia. }
  assert (findFirst (λ o', Order.id o' = nextId db ∧ Order.userId o' = userId)
            (order db1) = Some o) as Hfind.
  { rewrite Ho. apply findFirst_snoc; [|done]. apply findFirst_None.
    intros o' Hin [Heq _]. pose proof (order_id_below _ Hk o' Hin). lia. }
  assert (order_products_exist db1 (nextId db)) as Hex.
  { intros oi Hin. rewrite Hrows in Hin.
    pose proof (order_rows_lines (nextId db) (S (nextId db)) items) as Hl.
    apply list_elem_of_lookup in Hin as [k Hk'].
    destruct (Forall2_lookup_r _ _ _ _ _ Hl Hk') as (item & Hitem & _ & -> & _).
    apply include_product_lines in Hitems.
    destruct (Forall2_lookup_r _ _ _ _ _ Hitems Hitem) as (ci & _ & -> & Hpr).
    rewrite Hp, Hpr. by eexists. }
  destruct (release_transaction_is_Some db1 (nextId db)
              (Order.with_status OrderStatus.CANCELLED) Hex) as [db2 Hrel].
  { exists o. split; [|done]. rewrite Ho. apply elem_of_app. right.
    by apply list_elem_of_singleton. }
  exists o, db2. split; [done|]. split.
  { unfold cancelOrder. simpl. rewrite Hfind. simpl.
    by rewrite Hrel. }
  apply release_transaction_Some in Hrel
    as (Hp2 & Ho2 & _ & Hci2 & _ & Hoi2 & _).
  split_and!; try done.
  - apply map_eq. intros i. rewrite Hp2, Hrows, order_rows_quantity, Hp.
    destruct (product db !! i) as [p|]; simpl; [|done].
    by rewrite increment_decrement.
  - rewrite Ho2, Ho, fmap_app. f_equal.
    + apply fmap_id_on. intros o' Hin. case_decide as Heq; [|done].
      pose proof (order_id_below _ Hk o' Hin). lia.
    + simpl. by rewrite decide_True.
Qed.

Lemma order_update_row id f db db' o o' :
  order_update id f db = Some db' →
  NoDup (Order.id <$> order db) →
  (∀ o, Order.id (f o) = Order.id o) →
  o ∈ order db → o' ∈ order db' → Order.id o' = Order.id o →
  o' = if decide (Order.id o = id) then f o else o.
Proof.
  unfold order_update. case_decide; [|done]. intros [= <-] Hnd Hf.
  simpl. intros Ho Ho' Hid.
  apply list_elem_of_fmap in Ho' as (x & -> & Hx).
  assert (Order.id x = Order.id o) as Hxo
    by (rewrite <- Hid; case_decide; by rewrite ?Hf).
  apply (NoDup_fmap_eq _ _ _ _ Hnd Hx Ho) in Hxo. by subst x.
Qed.

(** The ways in which the customers' requests and the refund change an
    existing order. *)
Lemma handle_order_row db req o o' :
  keyed db →
  o ∈ order db → o' ∈ order (handle db req).2 →
  Order.id o' = Order.id o → o' ≠ o →
  (req = CancelOrder (Order.userId o) (Order.id o) ∧
   Order.status o = OrderStatus.PENDING ∧
   o' = Order.with_status OrderStatus.CANCELLED o) ∨
  (∃ intentId,
     req = CreatePaymentIntent (Order.userId o) (Some (Order.id o)) intentId ∧
     Order.paymentStatus o ≠ PaymentStatus.PAID ∧
     o' = Order.with_stripePaymentId intentId o) ∨
  (∃ paymentIntentId isSuccessful,
     req = ConfirmPayment (Order.userId o) (Some paymentIntentId)
             isSuccessful ∧
     Order.stripePaymentId o = Some paymentIntentId ∧
     o' = if isSuccessful
          then Order.with_status OrderStatus.CONFIRMED
                 (Order.with_paymentStatus PaymentStatus.PAID o)
          else Order.with_paymentStatus PaymentStatus.FAILED o) ∨
  (req = RefundPayment (Some ADMIN) (Some (Order.id o)) ∧
   Order.paymentStatus o = PaymentStatus.PAID ∧
   o' = Order.with_paymentStatus PaymentStatus.REFUNDED
          (Order.with_status OrderStatus.REFUNDED o)).
Proof.
  intros Hk Ho Ho' Hid Hne.
  assert (∀ db', order db' = order db → o' ∈ order db' → False) as Hsame.
  { intros db' Heq Hin. rewrite Heq in Hin.
    apply (NoDup_fmap_eq _ _ _ _ (order_id_unique _ Hk) Hin Ho) in Hid.
    done. }
  destruct req; simpl in Ho'.
  - exfalso. revert Ho'. apply Hsame. unfold getCart.
    by destruct (cart_findUnique db userId).
  - exfalso. revert Ho'. apply Hsame. unfold addToCart.
    destruct productId as [productId|], quantity as [quantity|]; try done.
    case_decide; [done|].
    destruct (product db !! productId) as [p|]; [|done].
    case_decide; [done|].
    destruct (cart_findUnique db userId) as [c|]; simpl;
      (destruct (findFirst _ _); [case_decide; [done|]|]);
      by destruct quantity.
  - exfalso. revert Ho'. apply Hsame. unfold updateCartItem.
    destruct quantity as [quantity|]; [|done]. case_decide; [done|].
    destruct (findFirst _ (cartItem db)) as [ci|]; [|done].
    destruct (findFirst _ (cart db)) as [c|]; [|done].
    destruct (product db !! _) as [p|]; [|done].
    case_decide; [done|]. case_decide; [done|]. by destruct quantity.
  - exfalso. revert Ho'. apply Hsame. unfold removeFromCart.
    destruct (findFirst _ (cartItem db)) as [ci|]; [|done].
    destruct (findFirst _ (cart db)) as [c|]; [|done]. by case_decide.
  - exfalso. revert Ho'. apply Hsame. unfold clearCart.
    by destruct (cart_findUnique db userId).
  - exfalso. unfold createOrder in Ho'.
    destruct (createOrder_check db userId body) as [r0|co];
      [by apply (Hsame db)|].
    destruct (createOrder_transaction co orderNumber db) as [db1|] eqn:Htx;
      [|by apply (Hsame db)].
    apply createOrder_transaction_Some in Htx
      as (_ & _ & _ & _ & _ & Hor & _ & _).
    simpl in Ho'. rewrite Hor in Ho'. apply elem_of_app in Ho' as [Ho'|Ho'].
    + by apply (Hsame db).
    + apply list_elem_of_singleton in Ho'. subst o'. simpl in Hid.
      pose proof (order_id_below _ Hk o Ho). lia.
  - left. unfold cancelOrder in Ho'.
    destruct (findFirst _ (order db)) as [o0|] eqn:Ho0;
      [|exfalso; by apply (Hsame db)].
    apply findFirst_Some in Ho0 as [Ho0 [Hid0 Hu0]].
    case_decide as Hst; [exfalso; by apply (Hsame db)|].
    destruct (restore_stock _ db) as [db1|] eqn:Hrs;
      [|exfalso; by apply (Hsame db)].
    simpl in Ho'.
    destruct (order_update id _ db1) as [db'|] eqn:Hup;
      [|exfalso; by apply (Hsame db)].
    simpl in Ho'. apply restore_stock_frame in Hrs. rewrite Hrs in Hup.
    pose proof (order_update_row _ _ _ _ o o' Hup (order_id_unique _ Hk)
                  (λ _, eq_refl) Ho Ho' Hid) as Heq.
    case_decide as Hoid; [|done]. rewrite <- Hoid in Hid0.
    apply (NoDup_fmap_eq _ _ _ _ (order_id_unique _ Hk) Ho0 Ho) in Hid0.
    subst o0. by subst id userId.
  - right. left. unfold createPaymentIntent in Ho'.
    destruct orderId as [orderId|]; [|exfalso; by apply (Hsame db)].
    destruct (findFirst _ (order db)) as [o0|] eqn:Ho0;
      [|exfalso; by apply (Hsame db)].
    apply findFirst_Some in Ho0 as [Ho0 [Hid0 Hu0]].
    case_decide as Hst; [exfalso; by apply (Hsame db)|].
    destruct (order_update _ _ db) as [db'|] eqn:Hup;
      [|exfalso; by apply (Hsame db)].
    simpl in Ho'.
    pose proof (order_update_row _ _ _ _ o o' Hup (order_id_unique _ Hk)
                  (λ _, eq_refl) Ho Ho' Hid) as Heq.
    case_decide as Hoid; [|done]. rewrite <- Hoid in Hid0.
    apply (NoDup_fmap_eq _ _ _ _ (order_id_unique _ Hk) Ho0 Ho) in Hid0.
    subst o0. subst orderId userId. by exists intentId.
  - right. right. left. unfold confirmPayment in Ho'.
    destruct paymentIntentId as [pi|]; [|exfalso; by apply (Hsame db)].
    simpl in Ho'. case_decide as Hpi; [exfalso; by apply (Hsame db)|].
    destruct (findFirst _ (order db)) as [o0|] eqn:Ho0;
      [|exfalso; by apply (Hsame db)].
    apply findFirst_Some in Ho0 as [Ho0 [Hid0 Hu0]].
    exists pi, isSuccessful.
    destruct isSuccessful;
      (destruct (order_update _ _ db) as [db'|] eqn:Hup;
         [|exfalso; by apply (Hsame db)]);
      simpl in Ho';
      pose proof (order_update_row _ _ _ _ o o' Hup (order_id_unique _ Hk)
                    (λ _, eq_refl) Ho Ho' Hid) as Heq;
      (case_decide as Hoid; [|done]);
      symmetry in Hoid;
      apply (NoDup_fmap_eq _ _ _ _ (order_id_unique _ Hk) Ho0 Ho) in Hoid;
      subst o0; by subst userId.
  - right. right. right. unfold refundPayment in Ho'.
    case_decide as Hrole; [exfalso; by apply (Hsame db)|].
    destruct orderId as [orderId|]; [|exfalso; by apply (Hsame db)].
    destruct (findFirst _ (order db)) as [o0|] eqn:Ho0;
      [|exfalso; by apply (Hsame db)].
    apply findFirst_Some in Ho0 as [Ho0 Hid0].
    case_decide as Hst; [exfalso; by apply (Hsame db)|].
    destruct (restore_stock _ db) as [db1|] eqn:Hrs;
      [|exfalso; by apply (Hsame db)].
    simpl in Ho'.
    destruct (order_update orderId _ db1) as [db'|] eqn:Hup;
      [|exfalso; by apply (Hsame db)].
    simpl in Ho'. apply restore_stock_frame in Hrs. rewrite Hrs in Hup.
    pose proof (order_update_row _ _ _ _ o o' Hup (order_id_unique _ Hk)
                  (λ _, eq_refl) Ho Ho' Hid) as Heq.
    case_decide as Hoid; [|done]. rewrite <- Hoid in Hid0.
    apply (NoDup_fmap_eq _ _ _ _ (order_id_unique _ Hk) Ho0 Ho) in Hid0.
    subst o0. subst orderId.
    assert (userRole = Some ADMIN) as ->
      by (destruct (decide (userRole = Some ADMIN)); [done|tauto]).
    done.
Qed.

(** The way in which [updateOrderStatus] changes an existing order. *)
Lemma updateOrderStatus_row db id status paymentStatus o o' :
  keyed db →
  o ∈ order db →
  o' ∈ order (updateOrderStatus db id status paymentStatus).2 →
  Order.id o' = Order.id o → o' ≠ o →
  id = Order.id o ∧ (is_Some status ∨ is_Some paymentStatus) ∧
  Order.status o' = default (Order.status o) status ∧
  Order.paymentStatus o' = default (Order.paymentStatus o) paymentStatus ∧
  same_but_statuses o o'.
Proof.
  intros Hk Ho Ho' Hid Hne.
  assert (∀ db', order db' = order db → o' ∈ order db' → False) as Hsame.
  { intros db' Heq Hin. rewrite Heq in Hin.
    apply (NoDup_fmap_eq _ _ _ _ (order_id_unique _ Hk) Hin Ho) in Hid.
    done. }
  unfold updateOrderStatus in Ho'.
  destruct status as [s|], paymentStatus as [ps|];
    try (exfalso; by apply (Hsame db));
    (destruct (findFirst _ (order db)) as [o0|] eqn:Ho0;
       [|exfalso; by apply (Hsame db)]);
    (destruct (order_update id _ db) as [db'|] eqn:Hup;
       [|exfalso; by apply (Hsame db)]);
    simpl in Ho';
    pose proof (order_update_row _ _ _ _ o o' Hup (order_id_unique _ Hk)
                  (λ _, eq_refl) Ho Ho' Hid) as Heq;
    (case_decide as Hoid; [|done]); subst o';
    split_and!; eauto; done.
Qed.

(** X11: every way in which the handlers change an existing order. There
    are five. Four are requests of [handle]: the owner's [cancelOrder] on a
    PENDING order (the status becomes CANCELLED), the owner's
    [createPaymentIntent] on an order that is not PAID (the intent
    identifier is recorded), the owner's [confirmPayment] with the recorded
    intent identifier (CONFIRMED and PAID when the gateway accepts, FAILED
    when it declines), and an administrator's [refundPayment] on a PAID
    order (both statuses become REFUNDED). The fifth is the administrator's
    [updateOrderStatus], which gives the order the status and the payment
    status of the body, each when it is given, whatever the state of the
    order. Nothing else of an order ever changes: not its owner, its
    number, its address or its amounts. *)
Theorem order_transitions db o o' :
  keyed db →
  o ∈ order db → Order.id o' = Order.id o → o' ≠ o →
  (∀ req, o' ∈ order (handle db req).2 →
    (req = CancelOrder (Order.userId o) (Order.id o) ∧
     Order.status o = OrderStatus.PENDING ∧
     o' = Order.with_status OrderStatus.CANCELLED o) ∨
    (∃ intentId,
       req = CreatePaymentIntent (Order.userId o) (Some (Order.id o)) intentId ∧
       Order.paymentStatus o ≠ PaymentStatus.PAID ∧
       o' = Order.with_stripePaymentId intentId o) ∨
    (∃ paymentIntentId isSuccessful,
       req = ConfirmPayment (Order.userId o) (Some paymentIntentId)
               isSuccessful ∧
       Order.stripePaymentId o = Some paymentIntentId ∧
       o' = if isSuccessful
            then Order.with_status OrderStatus.CONFIRMED
                   (Order.with_paymentStatus PaymentStatus.PAID o)
            else Order.with_paymentStatus PaymentStatus.FAILED o) ∨
    (req = RefundPayment (Some ADMIN) (Some (Order.id o)) ∧
     Order.paymentStatus o = PaymentStatus.PAID ∧
     o' = Order.with_paymentStatus PaymentStatus.REFUNDED
            (Order.with_status OrderStatus.REFUNDED o))) ∧
  (∀ id status paymentStatus,
     o' ∈ order (updateOrderStatus db id status paymentStatus).2 →
     id = Order.id o ∧ (is_Some status ∨ is_Some paymentStatus) ∧
     Order.status o' = default (Order.status o) status ∧
     Order.paymentStatus o'
       = default (Order.paymentStatus o) paymentStatus ∧
     same_but_statuses o o').
Proof.
  intros Hk Ho Hid Hne. split.
  - intros req Ho'. by apply (handle_order_row db).
  - intros id status paymentStatus Ho'.
    by apply (updateOrderStatus_row db id status paymentStatus).
Qed.

(** * The properties on the sample shops *)

Ltac rows :=
  repeat match goal with
  | H : _ ∈ [] |- _ => by apply elem_of_nil in H
  | H : _ ∈ _ :: _ |- _ => apply elem_of_cons in H as [->|H]
  end.

Lemma shop_linked price stock quantity : linked (shop price stock quantity).
Proof.
  split; simpl; intros x Hx; rows; simpl.
  - exists (Cart.mk 10 7). split; [|done]. by apply list_elem_of_singleton.
  - by eexists.
Qed.

Lemma last_unit_shop_keyed : keyed last_unit_shop.
Proof.
  split; simpl; try (intros x Hx; rows; simpl; lia);
    repeat (apply NoDup_cons;
            split; [rewrite ?elem_of_cons, ?elem_of_nil; lia|]);
    apply NoDup_nil_2.
Qed.

Lemma last_unit_shop_linked : linked last_unit_shop.
Proof.
  split; simpl; intros x Hx; rows; simpl; try (by eexists).
  - exists (Cart.mk 10 7). split; [rewrite ?elem_of_cons; auto|done].
  - exists (Cart.mk 11 8). split; [rewrite ?elem_of_cons; auto|done].
Qed.

Lemma serve_integrity_witness :
  keyed (serve [AddToCart 8 (Some 1) (Some (Whole 2)); GetCart 9;
                CreateOrder 7 checkout_body "ORD-A-0001";
                RemoveFromCart 8 102; CancelOrder 7 103]
               (shop 2000 5 3)) ∧
  linked (serve [AddToCart 8 (Some 1) (Some (Whole 2)); GetCart 9;
                 CreateOrder 7 checkout_body "ORD-A-0001";
                 RemoveFromCart 8 102; CancelOrder 7 103]
                (shop 2000 5 3)).
Proof. apply serve_integrity; [apply shop_keyed|apply shop_linked]. Defined.

Lemma handle_isolation_witness :
  keyed last_unit_shop ∧
  acting_user (CreateOrder 7 checkout_body "ORD-A-0001") = Some 7 ∧
  filter (λ o, Order.userId o = 8)
    (order (handle last_unit_shop
              (CreateOrder 7 checkout_body "ORD-A-0001")).2)
  = filter (λ o, Order.userId o = 8) (order last_unit_shop) ∧
  cart_findUnique
    (handle last_unit_shop (CreateOrder 7 checkout_body "ORD-A-0001")).2 8
  = cart_findUnique last_unit_shop 8 ∧
  cart_items (handle last_unit_shop
                (CreateOrder 7 checkout_body "ORD-A-0001")).2 11
  = cart_items last_unit_shop 11.
Proof.
  split; [apply last_unit_shop_keyed|]. split; [reflexivity|].
  destruct (handle_isolation last_unit_shop
              (CreateOrder 7 checkout_body "ORD-A-0001") 7 8
              last_unit_shop_keyed eq_refl) as (Ho & Hc & Hci); [lia|].
  split; [exact Ho|]. split; [exact Hc|].
  apply (Hci (Cart.mk 11 8)). reflexivity.
Defined.

Lemma addToCart_added_witness :
  keyed (shop 2000 5 3) ∧ cart_lines_unique (shop 2000 5 3) ∧
  status (addToCart (shop 2000 5 3) 7 (Some 1%nat) (Some (Whole 2))).1 = 200 ∧
  ∃ c p,
    cart_findUnique (addToCart (shop 2000 5 3) 7 (Some 1%nat) (Some (Whole 2))).2 7
    = Some c ∧
    (∀ c0, cart_findUnique (shop 2000 5 3) 7 = Some c0 → c0 = c) ∧
    product (shop 2000 5 3) !! 1 = Some p ∧
    (1 ≤ 2)%Z ∧
    line_quantity (addToCart (shop 2000 5 3) 7 (Some 1%nat) (Some (Whole 2))).2
      (Cart.id c) 1
    = (line_quantity (shop 2000 5 3) (Cart.id c) 1 + 2)%Z ∧
    (line_quantity (addToCart (shop 2000 5 3) 7 (Some 1%nat) (Some (Whole 2))).2
       (Cart.id c) 1 ≤ Product.stock p)%Z ∧
    (∀ cartId pid, cartId ≠ Cart.id c ∨ pid ≠ 1 →
       line_quantity (addToCart (shop 2000 5 3) 7 (Some 1%nat) (Some (Whole 2))).2
         cartId pid
       = line_quantity (shop 2000 5 3) cartId pid) ∧
    product (addToCart (shop 2000 5 3) 7 (Some 1%nat) (Some (Whole 2))).2
    = product (shop 2000 5 3) ∧
    order (addToCart (shop 2000 5 3) 7 (Some 1%nat) (Some (Whole 2))).2
    = order (shop 2000 5 3) ∧
    orderItem (addToCart (shop 2000 5 3) 7 (Some 1%nat) (Some (Whole 2))).2
    = orderItem (shop 2000 5 3).
Proof.
  split; [apply shop_keyed|]. split; [apply shop_cart_lines_unique|].
  split; [reflexivity|].
  apply (addToCart_added (shop 2000 5 3) 7 1 2
           (addToCart (shop 2000 5 3) 7 (Some 1%nat) (Some (Whole 2))).1
           (addToCart (shop 2000 5 3) 7 (Some 1%nat) (Some (Whole 2))).2).
  - apply shop_keyed.
  - apply shop_cart_lines_unique.
  - apply surjective_pairing.
  - reflexivity.
Defined.

(** User 8, who has no cart, asks for one and a half of the product: the
    answer is 500 and the new cart of user 8 stays. *)
Lemma addToCart_rejected_witness :
  keyed (shop 2000 5 3) ∧
  (addToCart (shop 2000 5 3) 8 (Some 1) (Some (Fraction 1))).1
    = resp 500 "Failed to add item to cart" ∧
  cart (addToCart (shop 2000 5 3) 8 (Some 1) (Some (Fraction 1))).2
    = [Cart.mk 10 7; Cart.mk 100 8] ∧
  ((addToCart (shop 2000 5 3) 8 (Some 1) (Some (Fraction 1))).2
     = shop 2000 5 3 ∨
   (status (addToCart (shop 2000 5 3) 8 (Some 1) (Some (Fraction 1))).1
      = 500 ∧
    (∃ floor, Some (Fraction 1) = Some (Fraction floor)) ∧
    cart_findUnique (shop 2000 5 3) 8 = None ∧
    ∃ c, cart (addToCart (shop 2000 5 3) 8 (Some 1) (Some (Fraction 1))).2
           = cart (shop 2000 5 3) ++ [c] ∧
         Cart.userId c = 8 ∧ Cart.id c = nextId (shop 2000 5 3) ∧
         cart_items
           (addToCart (shop 2000 5 3) 8 (Some 1) (Some (Fraction 1))).2
           (Cart.id c) = [] ∧
         nextId (addToCart (shop 2000 5 3) 8 (Some 1) (Some (Fraction 1))).2
           = S (nextId (shop 2000 5 3)) ∧
         product (addToCart (shop 2000 5 3) 8 (Some 1) (Some (Fraction 1))).2
           = product (shop 2000 5 3) ∧
         cartItem
           (addToCart (shop 2000 5 3) 8 (Some 1) (Some (Fraction 1))).2
           = cartItem (shop 2000 5 3) ∧
         address (addToCart (shop 2000 5 3) 8 (Some 1) (Some (Fraction 1))).2
           = address (shop 2000 5 3) ∧
         order (addToCart (shop 2000 5 3) 8 (Some 1) (Some (Fraction 1))).2
           = order (shop 2000 5 3) ∧
         orderItem
           (addToCart (shop 2000 5 3) 8 (Some 1) (Some (Fraction 1))).2
           = orderItem (shop 2000 5 3))).
Proof.
  split; [apply shop_keyed|]. split; [reflexivity|]. split; [reflexivity|].
  apply (addToCart_rejected (shop 2000 5 3) 8 (Some 1) (Some (Fraction 1))
           (shop_keyed 2000 5 3)).
  vm_compute. lia.
Defined.

Lemma cart_item_not_own_witness :
  linked last_unit_shop ∧
  updateCartItem last_unit_shop 7 21 (Some (Whole 1))
  = (resp 404 "Cart item not found", last_unit_shop) ∧
  removeFromCart last_unit_shop 7 21
  = (resp 404 "Cart item not found", last_unit_shop).
Proof.
  split; [apply last_unit_shop_linked|].
  apply cart_item_not_own; [apply last_unit_shop_linked|simpl; lia|].
  intros ci c Hci Hid Hc Hcid. simpl in Hci, Hc. rows; simpl in *; lia.
Defined.

Lemma updateCartItem_updated_witness :
  keyed (shop 2000 5 3) ∧ cart_lines_unique (shop 2000 5 3) ∧
  status (updateCartItem (shop 2000 5 3) 7 20 (Some (Whole 5))).1 = 200 ∧
  ∃ ci c p,
    ci ∈ cartItem (shop 2000 5 3) ∧ CartItem.id ci = 20 ∧
    cart_findUnique (shop 2000 5 3) 7 = Some c ∧
    CartItem.cartId ci = Cart.id c ∧
    product (shop 2000 5 3) !! CartItem.productId ci = Some p ∧
    (1 ≤ 5 ≤ Product.stock p)%Z ∧
    line_quantity (updateCartItem (shop 2000 5 3) 7 20 (Some (Whole 5))).2
      (Cart.id c) (CartItem.productId ci) = 5%Z ∧
    (∀ cartId pid, cartId ≠ Cart.id c ∨ pid ≠ CartItem.productId ci →
       line_quantity (updateCartItem (shop 2000 5 3) 7 20 (Some (Whole 5))).2
         cartId pid
       = line_quantity (shop 2000 5 3) cartId pid) ∧
    product (updateCartItem (shop 2000 5 3) 7 20 (Some (Whole 5))).2
    = product (shop 2000 5 3) ∧
    cart (updateCartItem (shop 2000 5 3) 7 20 (Some (Whole 5))).2
    = cart (shop 2000 5 3) ∧
    order (updateCartItem (shop 2000 5 3) 7 20 (Some (Whole 5))).2
    = order (shop 2000 5 3) ∧
    orderItem (updateCartItem (shop 2000 5 3) 7 20 (Some (Whole 5))).2
    = orderItem (shop 2000 5 3).
Proof.
  split; [apply shop_keyed|]. split; [apply shop_cart_lines_unique|].
  split; [reflexivity|].
  apply (updateCartItem_updated (shop 2000 5 3) 7 20 5
           (updateCartItem (shop 2000 5 3) 7 20 (Some (Whole 5))).1
           (updateCartItem (shop 2000 5 3) 7 20 (Some (Whole 5))).2).
  - apply shop_keyed.
  - apply shop_cart_lines_unique.
  - apply surjective_pairing.
  - reflexivity.
Defined.

Lemma removeFromCart_removed_witness :
  keyed (shop 2000 5 3) ∧ cart_lines_unique (shop 2000 5 3) ∧
  status (removeFromCart (shop 2000 5 3) 7 20).1 = 200 ∧
  ∃ ci c,
    ci ∈ cartItem (shop 2000 5 3) ∧ CartItem.id ci = 20 ∧
    cart_findUnique (shop 2000 5 3) 7 = Some c ∧
    CartItem.cartId ci = Cart.id c ∧
    line_quantity (removeFromCart (shop 2000 5 3) 7 20).2
      (Cart.id c) (CartItem.productId ci) = 0%Z ∧
    (∀ cartId pid, cartId ≠ Cart.id c ∨ pid ≠ CartItem.productId ci →
       line_quantity (removeFromCart (shop 2000 5 3) 7 20).2 cartId pid
       = line_quantity (shop 2000 5 3) cartId pid) ∧
    (∀ x, x ∈ cartItem (removeFromCart (shop 2000 5 3) 7 20).2 →
          CartItem.id x ≠ 20) ∧
    product (removeFromCart (shop 2000 5 3) 7 20).2
    = product (shop 2000 5 3) ∧
    cart (removeFromCart (shop 2000 5 3) 7 20).2 = cart (shop 2000 5 3) ∧
    order (removeFromCart (shop 2000 5 3) 7 20).2 = order (shop 2000 5 3) ∧
    orderItem (removeFromCart (shop 2000 5 3) 7 20).2
    = orderItem (shop 2000 5 3).
Proof.
  split; [apply shop_keyed|]. split; [apply shop_cart_lines_unique|].
  split; [reflexivity|].
  apply (removeFromCart_removed (shop 2000 5 3) 7 20
           (removeFromCart (shop 2000 5 3) 7 20).1
           (removeFromCart (shop 2000 5 3) 7 20).2).
  - apply shop_keyed.
  - apply shop_cart_lines_unique.
  - apply surjective_pairing.
  - reflexivity.
Defined.

(** The four cases: the order number of the first checkout used again;
    one and a half units added to a cart, two and a half set on a line; a
    refund without an order. *)
Lemma handle_500_witness :
  linked restocked_cart_shop ∧
  (status (handle restocked_cart_shop
             (CreateOrder 7 checkout_body "ORD-A-0001")).1 = 500 ∧
   ∃ o, o ∈ order restocked_cart_shop ∧ Order.orderNumber o = "ORD-A-0001") ∧
  status (handle (shop 2000 5 3)
            (AddToCart 7 (Some 1) (Some (Fraction 1)))).1 = 500 ∧
  status (handle (shop 2000 5 3)
            (UpdateCartItem 7 20 (Some (Fraction 2)))).1 = 500 ∧
  status (handle restocked_cart_shop (RefundPayment (Some ADMIN) None)).1
    = 500.
Proof.
  assert (linked restocked_cart_shop) as Hl.
  { apply handle_linked.
    apply (handle_linked (shop 2000 5 3)
             (CreateOrder 7 checkout_body "ORD-A-0001")), shop_linked. }
  split; [exact Hl|]. split_and!; try (vm_compute; reflexivity).
  assert (status (handle restocked_cart_shop
                    (CreateOrder 7 checkout_body "ORD-A-0001")).1 = 500)
    as H500 by (vm_compute; reflexivity).
  destruct (handle_500 restocked_cart_shop
              (CreateOrder 7 checkout_body "ORD-A-0001") Hl H500)
    as [(u & b & n & o & Hreq & Ho & Hn)
       |[(u & i & k & p & Hreq & _)
        |[(u & i & k & ci & p & Hreq & _)|Hreq]]];
    try discriminate.
  injection Hreq as <- <- <-. by exists o.
Defined.

Lemma ordered_shop_keyed : keyed ordered_shop.
Proof.
  apply (handle_keyed (shop 2000 5 3)
           (CreateOrder 7 checkout_body "ORD-A-0001")), shop_keyed.
Qed.

Lemma paid_shop_keyed : keyed paid_shop.
Proof.
  apply (handle_keyed _ (ConfirmPayment 7 (Some "pi_mock_1") true)).
  apply (handle_keyed _ (CreatePaymentIntent 7 (Some 100) "pi_mock_1")).
  apply ordered_shop_keyed.
Qed.

Lemma order_not_own_witness :
  getOrder ordered_shop 8 100 = (resp 404 "Order not found", None) ∧
  getPaymentStatus ordered_shop 8 100 = (resp 404 "Order not found", None) ∧
  cancelOrder ordered_shop 8 100 = (resp 404 "Order not found", ordered_shop) ∧
  createPaymentIntent ordered_shop 8 (Some 100) "pi_mock_2"
  = (resp 404 "Order not found", ordered_shop).
Proof.
  apply order_not_own. intros o Ho _.
  assert (Forall (λ o, Order.userId o ≠ 8) (order ordered_shop)) as Hall.
  { vm_compute. apply Forall_cons. split; [lia|apply Forall_nil_2]. }
  by apply (proj1 (Forall_forall _ _) Hall).
Defined.

Lemma createOrder_cancelOrder_witness :
  keyed (shop 2000 5 3) ∧
  status (createOrder (shop 2000 5 3) 7 checkout_body "ORD-A-0001").1 = 201 ∧
  ∃ o db2,
    order (createOrder (shop 2000 5 3) 7 checkout_body "ORD-A-0001").2
    = order (shop 2000 5 3) ++ [o] ∧
    cancelOrder (createOrder (shop 2000 5 3) 7 checkout_body "ORD-A-0001").2
      7 (Order.id o)
    = (resp 200 "Order cancelled successfully", db2) ∧
    product db2 = product (shop 2000 5 3) ∧
    order db2
    = order (shop 2000 5 3) ++ [Order.with_status OrderStatus.CANCELLED o] ∧
    cartItem db2
    = cartItem (createOrder (shop 2000 5 3) 7 checkout_body "ORD-A-0001").2 ∧
    orderItem db2
    = orderItem (createOrder (shop 2000 5 3) 7 checkout_body "ORD-A-0001").2.
Proof.
  split; [apply shop_keyed|]. split; [vm_compute; reflexivity|].
  apply (createOrder_cancelOrder (shop 2000 5 3) 7 checkout_body "ORD-A-0001"
           (createOrder (shop 2000 5 3) 7 checkout_body "ORD-A-0001").1).
  - apply shop_keyed.
  - apply surjective_pairing.
  - vm_compute. reflexivity.
Defined.

(** The owner cancels the PENDING order of the scenario; or else an
    administrator declares it DELIVERED. *)
Lemma order_transitions_witness :
  keyed ordered_shop ∧
  ∃ o, order ordered_shop = [o] ∧
    Order.status o = OrderStatus.PENDING ∧
    (∃ o', o' ∈ order (handle ordered_shop (CancelOrder 7 100)).2 ∧
       Order.id o' = Order.id o ∧ o' ≠ o ∧
       CancelOrder 7 100 = CancelOrder (Order.userId o) (Order.id o) ∧
       Order.status o' = OrderStatus.CANCELLED) ∧
    (∃ o', o' ∈ order (updateOrderStatus ordered_shop 100
                         (Some OrderStatus.DELIVERED) None).2 ∧
       Order.id o' = Order.id o ∧ o' ≠ o ∧
       100 = Order.id o ∧
       Order.status o' = OrderStatus.DELIVERED ∧
       Order.paymentStatus o' = Order.paymentStatus o ∧
       same_but_statuses o o').
Proof.
  split; [apply ordered_shop_keyed|].
  destruct (order ordered_shop) as [|o os] eqn:Hos;
    [vm_compute in Hos; discriminate|].
  assert (os = []) as -> by (vm_compute in Hos; congruence).
  exists o. split; [done|].
  assert (Order.id o = 100 ∧ Order.userId o = 7
          ∧ Order.status o = OrderStatus.PENDING) as (Hid & Hu & Hst).
  { vm_compute in Hos. injection Hos as <-. done. }
  split; [done|].
  assert (o ∈ order ordered_shop) as Ho
    by (rewrite Hos; by apply list_elem_of_singleton).
  split.
  - exists (Order.with_status OrderStatus.CANCELLED o).
    assert (Order.with_status OrderStatus.CANCELLED o
              ∈ order (handle ordered_shop (CancelOrder 7 100)).2) as Hin.
    { assert (order (handle ordered_shop (CancelOrder 7 100)).2
              = Order.with_status OrderStatus.CANCELLED
                  <$> order ordered_shop)
        as -> by (vm_compute; reflexivity).
      rewrite Hos. simpl. by apply list_elem_of_singleton. }
    assert (Order.with_status OrderStatus.CANCELLED o ≠ o) as Hne.
    { intros Heq. apply (f_equal Order.status) in Heq. simpl in Heq.
      congruence. }
    split; [exact Hin|]. split; [done|]. split; [exact Hne|].
    destruct (proj1 (order_transitions ordered_shop o
                       (Order.with_status OrderStatus.CANCELLED o)
                       ordered_shop_keyed Ho eq_refl Hne)
                (CancelOrder 7 100) Hin)
      as [(Hreq & _ & _)|[(i & Hreq & _)|[(pi & ok & Hreq & _)|(Hreq & _)]]];
      try discriminate.
    by split.
  - exists (Order.with_status OrderStatus.DELIVERED o).
    assert (Order.with_status OrderStatus.DELIVERED o
              ∈ order (updateOrderStatus ordered_shop 100
                         (Some OrderStatus.DELIVERED) None).2) as Hin.
    { assert (order (updateOrderStatus ordered_shop 100
                       (Some OrderStatus.DELIVERED) None).2
              = Order.with_status OrderStatus.DELIVERED
                  <$> order ordered_shop)
        as -> by (vm_compute; reflexivity).
      rewrite Hos. simpl. by apply list_elem_of_singleton. }
    assert (Order.with_status OrderStatus.DELIVERED o ≠ o) as Hne.
    { intros Heq. apply (f_equal Order.status) in Heq. simpl in Heq.
      congruence. }
    split; [exact Hin|]. split; [done|]. split; [exact Hne|].
    destruct (proj2 (order_transitions ordered_shop o
                       (Order.with_status OrderStatus.DELIVERED o)
                       ordered_shop_keyed Ho eq_refl Hne)
                100 (Some OrderStatus.DELIVERED) None Hin)
      as (Hi & _ & Hs & Hps & Hrest).
    by split_and!.
Defined.

Lemma createOrder_succeeds_witness :
  (createOrder (shop 2000 5 3) 7 checkout_body "ORD-A-0001").1
  = resp 201 "Order placed successfully".
Proof.
  apply (createOrder_succeeds (shop 2000 5 3) 7 checkout_body "ORD-A-0001"
           30 (Cart.mk 10 7)
           [(CartItem.mk 20 10 1 3, Product.mk "Widget" 2000 5)]
           (Address.mk 30 7)).
  - reflexivity.
  - reflexivity.
  - reflexivity.
  - discriminate.
  - simpl. by apply list_elem_of_singleton.
  - reflexivity.
  - reflexivity.
  - intros item Hitem. rows. simpl. lia.
  - intros o Ho. simpl in Ho. rows.
Defined.

Lemma createOrder_race_commits_witness :
  ∃ co1 co2 db1 db2,
    createOrder_check last_unit_shop 7 checkout_body = inr co1 ∧
    createOrder_check last_unit_shop 8 (mkBody (Some 31) None None)
    = inr co2 ∧
    createOrder_transaction co1 "ORD-A-0001" last_unit_shop = Some db1 ∧
    createOrder_transaction co2 "ORD-A-0002" db1 = Some db2 ∧
    product db2 !! 1 = Some (Product.mk "Widget" 2000 (-1)).
Proof.
  destruct (createOrder_check last_unit_shop 7 checkout_body)
    as [r1|co1] eqn:H1; [vm_compute in H1; discriminate|].
  destruct (createOrder_check last_unit_shop 8 (mkBody (Some 31) None None))
    as [r2|co2] eqn:H2; [vm_compute in H2; discriminate|].
  destruct (createOrder_race_commits last_unit_shop 7 checkout_body co1
              "ORD-A-0001" 8 (mkBody (Some 31) None None) co2 "ORD-A-0002"
              H1 H2)
    as (db1 & db2 & Ht1 & Ht2 & Hp).
  - discriminate.
  - intros o Ho. simpl in Ho. rows.
  - exists co1, co2, db1, db2. split_and!; try done. rewrite Hp.
    vm_compute in H1, H2. injection H1 as <-. injection H2 as <-.
    reflexivity.
Defined.

(** * Order numbers *)

Lemma digits36_value fuel n :
  N.to_nat (N.log2 n) < fuel → value36 (digits36 fuel n) = n.
Proof.
  revert n. induction fuel as [|fuel IH]; intros n Hn; [lia|]. simpl.
  case_decide as Hz.
  - simpl. pose proof (N.div_mod' n 36) as H. rewrite Hz in H.
    rewrite N.mul_0_r, N.add_0_r. by rewrite N.mul_0_r, N.add_0_l in H.
  - simpl. rewrite IH.
    + by rewrite N.add_comm, <- N.div_mod'.
    + assert (N.log2 (n `div` 36) < N.log2 n)%N; [|lia].
      pose proof (N.div_mod' n 36) as Hdm.
      set (m := (n `div` 36)%N) in *. set (k := (n `mod` 36)%N) in *.
      clearbody m k.
      apply N.le_succ_l. rewrite <- N.log2_double by lia.
      apply N.log2_le_mono. lia.
Qed.

Lemma digits36_lt fuel n : Forall (λ d, d < 36)%N (digits36 fuel n).
Proof.
  revert n. induction fuel as [|fuel IH]; intros n; simpl; [done|].
  apply Forall_cons. split; [by apply N.mod_lt|].
  case_decide; [done|apply IH].
Qed.

Lemma upper_digit36 d :
  (d < 36)%N →
  upper (digit36 d) ≠ dash ∧ val36 (upper (digit36 d)) = d.
Proof.
  intros Hd.
  assert (Forall (λ d, upper (digit36 d) ≠ dash
                       ∧ val36 (upper (digit36 d)) = d)
                 (N.of_nat <$> seq 0 36)) as Hall.
  { apply (bool_decide_unpack _). vm_compute. exact I. }
  apply (proj1 (Forall_forall _ _) Hall).
  apply list_elem_of_fmap. exists (N.to_nat d). split; [lia|].
  apply elem_of_seq. lia.
Qed.

Lemma toUpperCase_list l :
  toUpperCase (String.string_of_list_ascii l)
  = String.string_of_list_ascii (upper <$> l).
Proof. induction l as [|c l IH]; simpl; [done|]. by rewrite IH. Qed.

Lemma before_dash (l1 l2 : list Ascii.ascii) (r1 r2 : string) :
  Forall (λ c, c ≠ dash) l1 → Forall (λ c, c ≠ dash) l2 →
  String.string_of_list_ascii l1 +:+ "-" +:+ r1
  = String.string_of_list_ascii l2 +:+ "-" +:+ r2 →
  l1 = l2.
Proof.
  revert l2. induction l1 as [|c1 l1 IH]; intros [|c2 l2] H1 H2; simpl.
  - done.
  - intros [= Hc _]. apply Forall_cons in H2 as [H2 _]. by destruct H2.
  - intros [= Hc _]. apply Forall_cons in H1 as [H1 _]. by destruct H1.
  - intros [= -> Heq]. f_equal.
    apply Forall_cons in H1 as [_ H1]. apply Forall_cons in H2 as [_ H2].
    by apply IH.
Qed.

Lemma upper_digits_inj (ds1 ds2 : list N) :
  Forall (λ d, d < 36)%N ds1 → Forall (λ d, d < 36)%N ds2 →
  upper <$> (digit36 <$> ds1) = upper <$> (digit36 <$> ds2) → ds1 = ds2.
Proof.
  intros H1 H2 Heq.
  assert (∀ ds, Forall (λ d, d < 36)%N ds →
                val36 <$> (upper <$> (digit36 <$> ds)) = ds) as Hval.
  { intros ds Hds. induction Hds as [|d ds Hd Hds IH]; [done|].
    rewrite !fmap_cons, IH. f_equal. by apply upper_digit36. }
  by rewrite <- (Hval ds1 H1), <- (Hval ds2 H2), Heq.
Qed.

Lemma upper_digits_no_dash (ds : list N) :
  Forall (λ d, d < 36)%N ds →
  Forall (λ c, c ≠ dash) (upper <$> (digit36 <$> ds)).
Proof.
  intros Hds. induction Hds as [|d ds Hd Hds IH]; [done|].
  rewrite !fmap_cons. apply Forall_cons. split; [|done].
  by apply upper_digit36.
Qed.

Lemma generateOrderNumber_timestamp now1 random1 now2 random2 :
  generateOrderNumber now1 random1 = generateOrderNumber now2 random2 →
  now1 = now2.
Proof.
  unfold generateOrderNumber, toString36. cbv zeta.
  rewrite !toUpperCase_list. intros Heq.
  assert (∀ s1 s2, "ORD-" +:+ s1 = "ORD-" +:+ s2 → s1 = s2) as Hord
    by (intros s1 s2 [= ?]; done).
  apply Hord in Heq.
  set (ds1 := digits36 (S (N.to_nat (N.log2 now1))) now1) in *.
  set (ds2 := digits36 (S (N.to_nat (N.log2 now2))) now2) in *.
  assert (Forall (λ d, d < 36)%N (reverse ds1)) as H1
    by (apply Forall_reverse, digits36_lt).
  assert (Forall (λ d, d < 36)%N (reverse ds2)) as H2
    by (apply Forall_reverse, digits36_lt).
  apply before_dash in Heq; try by apply upper_digits_no_dash.
  apply upper_digits_inj in Heq; try done.
  apply (inj reverse) in Heq.
  rewrite <- (digits36_value (S (N.to_nat (N.log2 now1))) now1) by lia.
  rewrite <- (digits36_value (S (N.to_nat (N.log2 now2))) now2) by lia.
  fold ds1 ds2. by rewrite Heq.
Qed.

Lemma append_inj_r (s a b : string) : s +:+ a = s +:+ b → a = b.
Proof. induction s as [|c s IH]; simpl; [done|]. intros [= ?]. by apply IH. Qed.

(** X27: two order numbers are equal exactly when they were generated in
    the same millisecond with the same four random characters (compared
    without case); in particular the timestamp can be read off the
    number. *)
Theorem generateOrderNumber_collision now1 random1 now2 random2 :
  generateOrderNumber now1 random1 = generateOrderNumber now2 random2 ↔
  now1 = now2 ∧
  toUpperCase (String.substring 2 4 random1)
  = toUpperCase (String.substring 2 4 random2).
Proof.
  split.
  - intros Heq. pose proof (generateOrderNumber_timestamp _ _ _ _ Heq) as ->.
    split; [done|]. unfold generateOrderNumber in Heq. cbv zeta in Heq.
    apply (append_inj_r "ORD-") in Heq.
    apply append_inj_r in Heq. by apply (append_inj_r "-") in Heq.
  - intros [-> Hr]. unfold generateOrderNumber. cbv zeta. by rewrite Hr.
Qed.

(** X28: a checkout whose order number is generated at a later
    millisecond than the numbers of all existing orders is never answered
    500 (the references of the tables being valid). *)
Theorem createOrder_later_number db userId body now random36 :
  linked db →
  (∀ o, o ∈ order db →
        ∃ t r, Order.orderNumber o = generateOrderNumber t r ∧ (t < now)%N) →
  status (createOrder db userId body (generateOrderNumber now random36)).1
  ≠ 500.
Proof.
  intros Hl Hold H500.
  apply createOrder_500 in H500 as (o & Ho & Hn); [|done].
  destruct (Hold o Ho) as (t & r & Hnum & Ht). rewrite Hnum in Hn.
  apply generateOrderNumber_timestamp in Hn. lia.
Qed.

(** * Reviews and the administration of orders *)

Lemma review_patch_keys rating title comment x :
  Review.id (review_patch rating title comment x) = Review.id x ∧
  Review.userId (review_patch rating title comment x) = Review.userId x ∧
  Review.productId (review_patch rating title comment x)
  = Review.productId x.
Proof.
  unfold review_patch. destruct rating as [r|], title as [t|],
    (truthy comment) as [c|]; simpl; try case_decide; done.
Qed.

(** X16: the review handlers keep the review table well formed: after
    [createReview], [updateReview] or [deleteReview], however answered,
    identifiers are still unique and a user still has at most one review of
    a product. *)
Theorem handle_review_reviewed_once db rs req :
  reviewed_once rs → reviewed_once (handle_review db rs req).2.
Proof.
  intros [H1 H2 H3]. destruct req; simpl.
  - unfold createReview.
    destruct productId as [productId|], rating as [rating|],
      (truthy comment) as [c|]; try done.
    case_decide; [done|]. case_decide; [done|].
    destruct (product db !! productId); [|done].
    destruct (findFirst _ (review rs)) eqn:Hf; [done|]. simpl.
    pose proof (proj1 (findFirst_None _ _) Hf) as Hno.
    split; simpl.
    + apply NoDup_fmap_snoc; [done|]. intros x Hx. simpl.
      specialize (H2 x Hx). lia.
    + intros x Hx. apply elem_of_app in Hx as [Hx|Hx].
      * specialize (H2 x Hx). lia.
      * apply list_elem_of_singleton in Hx. subst x. simpl. lia.
    + apply NoDup_fmap_snoc; [done|]. intros x Hx. simpl. intros [= Hu Hp].
      by apply (Hno x Hx).
  - unfold updateReview. destruct (findFirst _ (review rs)); [|done].
    simpl. split; simpl.
    + apply NoDup_fmap_fmap; [|done]. intros x. case_decide; [|done].
      apply review_patch_keys.
    + intros x Hx. apply list_elem_of_fmap in Hx as (y & -> & Hy).
      case_decide; [|by apply H2].
      destruct (review_patch_keys rating title comment y) as [-> _].
      by apply H2.
    + apply NoDup_fmap_fmap; [|done]. intros x. case_decide; [|done].
      by destruct (review_patch_keys rating title comment x)
        as (_ & -> & ->).
  - unfold deleteReview. destruct (findFirst _ (review rs)); [|done].
    simpl. split; simpl.
    + by apply NoDup_fmap_filter.
    + intros x Hx. apply list_elem_of_filter in Hx as [_ Hx]. by apply H2.
    + by apply NoDup_fmap_filter.
Qed.

(** X17: what an accepted [createReview] has done. Product, rating and
    comment were given, the rating lies between 1 and 5, the product
    exists, the caller had no review of it, and one row was added for the
    caller with these values; it is marked verified exactly when some order
    of the caller with status DELIVERED has a line of that product. *)
Theorem createReview_created db rs userId productId rating title comment
    r rs' :
  createReview db rs userId productId rating title comment = (r, rs') →
  status r = 201 →
  ∃ pid n c v,
    productId = Some pid ∧ rating = Some n ∧ comment = Some c ∧
    c ≠ EmptyString ∧ (1 ≤ n ≤ 5)%Z ∧ is_Some (product db !! pid) ∧
    (∀ x, x ∈ review rs →
          ¬ (Review.userId x = userId ∧ Review.productId x = pid)) ∧
    review rs'
    = review rs ++ [Review.mk (nextReviewId rs) userId pid n title c v] ∧
    (v = true ↔
     ∃ oi o, oi ∈ orderItem db ∧ OrderItem.productId oi = pid ∧
             o ∈ order db ∧ Order.id o = OrderItem.orderId oi ∧
             Order.userId o = userId ∧
             Order.status o = OrderStatus.DELIVERED).
Proof.
  unfold createReview.
  destruct productId as [pid|]; [|by intros [= <- <-]].
  destruct rating as [n|]; [|by intros [= <- <-]].
  destruct comment as [c|]; [|by intros [= <- <-]]. simpl.
  case_decide as Hc; [by intros [= <- <-]|].
  case_decide as Hz; [by intros [= <- <-]|].
  case_decide as Hr; [by intros [= <- <-]|].
  destruct (product db !! pid) as [p|] eqn:Hp; [|by intros [= <- <-]].
  destruct (findFirst _ (review rs)) eqn:Hf; [by intros [= <- <-]|].
  intros [= <- <-] _. eexists pid, n, c, _. split_and!; try done.
  - lia.
  - lia.
  - apply (proj1 (findFirst_None _ _) Hf).
  - rewrite bool_decide_eq_true. unfold purchased_line. split.
    + intros [oi Hoi]. apply findFirst_Some in Hoi as [Hoi [Hpid Hex]].
      apply Exists_exists in Hex as (o & Ho & Hid & Hu & Hs).
      by exists oi, o.
    + intros (oi & o & Hoi & Hpid & Ho & Hid & Hu & Hs).
      apply (findFirst_is_Some _ _ oi Hoi). split; [done|].
      apply Exists_exists. by exists o.
Qed.

(** X18: ratings are checked when a review is created and not when it is
    updated. [createReview] and [deleteReview] keep every rating between 1
    and 5; [updateReview] by the owner accepts any rating other than 0, and
    afterwards the ratings are all between 1 and 5 exactly when the given
    one is. *)
Theorem review_rating_range db rs userId :
  rating_in_range rs →
  (∀ productId rating title comment,
     rating_in_range
       (createReview db rs userId productId rating title comment).2) ∧
  (∀ id, rating_in_range (deleteReview rs userId id).2) ∧
  (∀ x n title comment,
     x ∈ review rs → Review.userId x = userId → n ≠ 0%Z →
     (updateReview rs userId (Review.id x) (Some n) title comment).1
     = resp 200 "Review updated successfully" ∧
     (rating_in_range
        (updateReview rs userId (Review.id x) (Some n) title comment).2
      ↔ (1 ≤ n ≤ 5)%Z)).
Proof.
  intros Hin. split_and!.
  - intros productId rating title comment. unfold createReview.
    destruct productId as [pid|], rating as [n|], (truthy comment) as [c|];
      try done.
    case_decide; [done|]. case_decide; [done|].
    destruct (product db !! pid); [|done].
    destruct (findFirst _ (review rs)); [done|]. simpl.
    intros x Hx. simpl in Hx. apply elem_of_app in Hx as [Hx|Hx];
      [by apply Hin|].
    apply list_elem_of_singleton in Hx. subst x. simpl. lia.
  - intros id. unfold deleteReview.
    destruct (findFirst _ (review rs)); [|done]. simpl.
    intros x Hx. simpl in Hx. apply list_elem_of_filter in Hx as [_ Hx].
    by apply Hin.
  - intros x n title comment Hx Hu Hn. unfold updateReview.
    destruct (findFirst_is_Some
                (λ r, Review.id r = Review.id x ∧ Review.userId r = userId)
                (review rs) x Hx (conj eq_refl Hu)) as [y ->].
    simpl. split; [done|].
    assert (∀ y, Review.rating (review_patch (Some n) title comment y) = n)
      as Hpatch.
    { intros z. unfold review_patch. rewrite decide_False by done.
      by destruct title, (truthy comment). }
    split.
    + intros Hall. rewrite <- (Hpatch x). apply Hall. simpl.
      apply list_elem_of_fmap. exists x. by rewrite decide_True.
    + intros Hn' z Hz. simpl in Hz.
      apply list_elem_of_fmap in Hz as (w & -> & Hw).
      case_decide; [by rewrite Hpatch|by apply Hin].
Qed.

Lemma cancelOrder_not_pending db userId id o :
  o ∈ order db → Order.id o = id → Order.userId o = userId →
  (∀ o', o' ∈ order db → Order.id o' = id →
         Order.status o' ≠ OrderStatus.PENDING) →
  cancelOrder db userId id
  = (resp 400 "Only pending orders can be cancelled", db).
Proof.
  intros Ho Hid Hu Hst. unfold cancelOrder.
  destruct (findFirst_is_Some
              (λ o', Order.id o' = id ∧ Order.userId o' = userId)
              (order db) o Ho (conj Hid Hu)) as [o1 Ho1].
  rewrite Ho1. apply findFirst_Some in Ho1 as [Ho1 [Hid1 _]].
  by rewrite decide_True by (by apply Hst).
Qed.

(** [updateOrderStatus] with a status, on an order that exists. *)
Lemma updateOrderStatus_accepted db o s ps :
  o ∈ order db →
  ∃ db',
    updateOrderStatus db (Order.id o) (Some s) ps
    = (resp 200 "Order updated successfully", db') ∧
    product db' = product db ∧ orderItem db' = orderItem db ∧
    cart db' = cart db ∧ cartItem db' = cartItem db ∧
    order db'
    = (λ o', if decide (Order.id o' = Order.id o)
             then match ps with
                  | Some p => Order.with_paymentStatus p
                                (Order.with_status s o')
                  | None => Order.with_status s o'
                  end
             else o') <$> order db.
Proof.
  intros Ho. unfold updateOrderStatus.
  destruct (findFirst_is_Some (λ o', Order.id o' = Order.id o) (order db) o
              Ho eq_refl) as [o1 Ho1].
  destruct ps as [ps|]; rewrite Ho1, order_update_Some by (by exists o);
    by eexists.
Qed.

(** X19: an administrator who moves an order out of PENDING with
    [updateOrderStatus] (to CANCELLED, say) changes no stock, and the owner
    can no longer cancel the order: [cancelOrder] then answers 400, so the
    stock the order holds is not given back. *)
Theorem updateOrderStatus_not_restored db o s ps :
  o ∈ order db → s ≠ OrderStatus.PENDING →
  ∃ db',
    updateOrderStatus db (Order.id o) (Some s) ps
    = (resp 200 "Order updated successfully", db') ∧
    product db' = product db ∧ orderItem db' = orderItem db ∧
    cart db' = cart db ∧ cartItem db' = cartItem db ∧
    cancelOrder db' (Order.userId o) (Order.id o)
    = (resp 400 "Only pending orders can be cancelled", db').
Proof.
  intros Ho Hs.
  destruct (updateOrderStatus_accepted db o s ps Ho)
    as (db' & Hup & Hp & Hoi & Hc & Hci & Hor).
  exists db'. split_and!; try done.
  apply (cancelOrder_not_pending _ _ _
           (match ps with
            | Some p => Order.with_paymentStatus p (Order.with_status s o)
            | None => Order.with_status s o
            end)).
  - rewrite Hor. apply list_elem_of_fmap. exists o. by rewrite decide_True.
  - by destruct ps.
  - by destruct ps.
  - rewrite Hor. intros o' Ho' Hid.
    apply list_elem_of_fmap in Ho' as (o2 & -> & Ho2).
    case_decide as Hid2; [by destruct ps|done].
Qed.

Lemma createReview_accepted db rs userId pid n title c :
  (1 ≤ n ≤ 5)%Z → c ≠ EmptyString → is_Some (product db !! pid) →
  (∀ x, x ∈ review rs →
        ¬ (Review.userId x = userId ∧ Review.productId x = pid)) →
  createReview db rs userId (Some pid) (Some n) title (Some c)
  = (resp 201 "Review created successfully",
     mkReviews
       (review rs
        ++ [Review.mk (nextReviewId rs) userId pid n title c
              (bool_decide (is_Some (purchased_line db userId pid)))])
       (S (nextReviewId rs))).
Proof.
  intros Hn Hc [p Hp] Hno. unfold createReview. simpl.
  rewrite decide_False by done. rewrite decide_False by lia.
  rewrite decide_False by lia. rewrite Hp.
  by rewrite (proj2 (findFirst_None _ _) Hno).
Qed.

(** X20: a review becomes a verified purchase through delivery. A user
    who has no delivered order and checks out a cart gets, for a product of
    that cart, a review that is not verified; once an administrator has set
    the new order to DELIVERED, the same review is created verified. *)
Theorem review_verified_after_delivery db rs userId body orderNumber r db1
    c ci n title comment :
  createOrder db userId body orderNumber = (r, db1) → status r = 201 →
  cart_findUnique db userId = Some c → ci ∈ cart_items db (Cart.id c) →
  (∀ o, o ∈ order db → Order.userId o = userId →
        Order.status o ≠ OrderStatus.DELIVERED) →
  (∀ x, x ∈ review rs →
        ¬ (Review.userId x = userId
           ∧ Review.productId x = CartItem.productId ci)) →
  (1 ≤ n ≤ 5)%Z → comment ≠ EmptyString →
  ∃ o db2,
    order db1 = order db ++ [o] ∧
    createReview db1 rs userId (Some (CartItem.productId ci)) (Some n) title
      (Some comment)
    = (resp 201 "Review created successfully",
       mkReviews
         (review rs
          ++ [Review.mk (nextReviewId rs) userId (CartItem.productId ci) n
                title comment false])
         (S (nextReviewId rs))) ∧
    updateOrderStatus db1 (Order.id o) (Some OrderStatus.DELIVERED) None
    = (resp 200 "Order updated successfully", db2) ∧
    createReview db2 rs userId (Some (CartItem.productId ci)) (Some n) title
      (Some comment)
    = (resp 201 "Review created successfully",
       mkReviews
         (review rs
          ++ [Review.mk (nextReviewId rs) userId (CartItem.productId ci) n
                title comment true])
         (S (nextReviewId rs))).
Proof.
  intros Hco Hr Hc Hci Hnd Hno Hn Hcm.
  destruct (createOrder_201 _ _ _ _ _ _ Hco Hr) as (co & Hck & Htx).
  apply createOrder_check_inr in Hck
    as (a & c0 & items & _ & Hc0 & Hitems & _ & _ & _ & Hcoeq).
  assert (c0 = c) as -> by congruence.
  assert (co_items co = items ∧ co_userId co = userId) as [Hcoi Hcou]
    by (by subst co).
  apply createOrder_transaction_Some in Htx
    as (_ & Hp & _ & _ & _ & Ho & Hoi & _). rewrite Hcoi in Hp, Hoi.
  set (o := new_order co orderNumber (nextId db)) in *.
  (* the line of the order that snapshots [ci] *)
  pose proof (include_product_lines _ _ _ Hitems) as Hlines.
  apply list_elem_of_lookup in Hci as [k Hk].
  destruct (Forall2_lookup_l _ _ _ _ _ Hlines Hk)
    as (item & Hitem & Hfst & Hprod).
  pose proof (order_rows_lines (nextId db) (S (nextId db)) items) as Hrows.
  destruct (Forall2_lookup_l _ _ _ _ _ Hrows Hitem)
    as (row & Hrow & Hroid & Hrpid & _).
  rewrite Hfst in Hrpid.
  assert (row ∈ orderItem db1) as Hrin.
  { rewrite Hoi. apply elem_of_app. right. by eapply list_elem_of_lookup_2. }
  assert (is_Some (product db1 !! CartItem.productId ci)) as Hp1.
  { rewrite Hp, Hprod. by eexists. }
  assert (o ∈ order db1) as Hoin.
  { rewrite Ho. apply elem_of_app. right. by apply list_elem_of_singleton. }
  destruct (updateOrderStatus_accepted db1 o OrderStatus.DELIVERED None Hoin)
    as (db2 & Hup & Hp2 & Hoi2 & _ & _ & Hor2).
  exists o, db2. split; [done|]. split_and!.
  - assert (¬ is_Some (purchased_line db1 userId (CartItem.productId ci)))
      as Hnot.
    { intros [oi Hoi'].
      apply findFirst_Some in Hoi' as [_ [_ Hex]].
      apply Exists_exists in Hex as (o' & Ho' & _ & Hu & Hs).
      rewrite Ho in Ho'. apply elem_of_app in Ho' as [Ho'|Ho'].
      - by apply (Hnd o').
      - apply list_elem_of_singleton in Ho'. by subst o'. }
    rewrite createReview_accepted by done.
    by rewrite (bool_decide_eq_false_2 _ Hnot).
  - done.
  - assert (is_Some (purchased_line db2 userId (CartItem.productId ci)))
      as Hyes.
    { unfold purchased_line.
      apply (findFirst_is_Some _ _ row); [by rewrite Hoi2|].
      split; [done|]. apply Exists_exists.
      exists (Order.with_status OrderStatus.DELIVERED o). split.
      - rewrite Hor2. apply list_elem_of_fmap. exists o.
        by rewrite decide_True.
      - simpl. by rewrite Hroid. }
    rewrite createReview_accepted by (by rewrite ?Hp2).
    by rewrite (bool_decide_eq_true_2 _ Hyes).
Qed.

Lemma one_review_reviewed_once : reviewed_once one_review.
Proof.
  split; simpl; try apply NoDup_singleton.
  intros r Hr. apply list_elem_of_singleton in Hr. subst r. simpl. lia.
Qed.

Lemma handle_review_reviewed_once_witness :
  reviewed_once
    (handle_review (shop 2000 5 3) one_review
       (CreateReview 8 (Some 1) (Some 5%Z) None (Some "Great"))).2.
Proof. apply handle_review_reviewed_once, one_review_reviewed_once. Defined.

Lemma createReview_created_witness :
  status (createReview (shop 2000 5 3) one_review 8 (Some 1) (Some 5%Z) None
            (Some "Great")).1 = 201 ∧
  ∃ pid n c v,
    Some 1 = Some pid ∧ Some 5%Z = Some n ∧ Some "Great" = Some c ∧
    c ≠ EmptyString ∧ (1 ≤ n ≤ 5)%Z ∧
    is_Some (product (shop 2000 5 3) !! pid) ∧
    (∀ x, x ∈ review one_review →
          ¬ (Review.userId x = 8 ∧ Review.productId x = pid)) ∧
    review (createReview (shop 2000 5 3) one_review 8 (Some 1) (Some 5%Z)
              None (Some "Great")).2
    = review one_review ++ [Review.mk (nextReviewId one_review) 8 pid n None
                              c v] ∧
    (v = true ↔
     ∃ oi o, oi ∈ orderItem (shop 2000 5 3) ∧ OrderItem.productId oi = pid ∧
             o ∈ order (shop 2000 5 3) ∧ Order.id o = OrderItem.orderId oi ∧
             Order.userId o = 8 ∧
             Order.status o = OrderStatus.DELIVERED).
Proof.
  split; [reflexivity|].
  apply (createReview_created (shop 2000 5 3) one_review 8 (Some 1)
           (Some 5%Z) None (Some "Great")
           (createReview (shop 2000 5 3) one_review 8 (Some 1) (Some 5%Z)
              None (Some "Great")).1).
  - apply surjective_pairing.
  - reflexivity.
Defined.

Lemma review_rating_range_witness :
  rating_in_range one_review ∧
  (updateReview one_review 7 0 (Some 9%Z) None None).1
  = resp 200 "Review updated successfully" ∧
  ¬ rating_in_range (updateReview one_review 7 0 (Some 9%Z) None None).2.
Proof.
  assert (rating_in_range one_review) as Hin.
  { intros r Hr. apply list_elem_of_singleton in Hr. subst r. simpl. lia. }
  split; [exact Hin|].
  destruct (review_rating_range (shop 2000 5 3) one_review 7 Hin)
    as (_ & _ & Hup).
  destruct (Hup (Review.mk 0 7 1 4 None "Does the job" false) 9%Z None None)
    as [Hr Hiff].
  - by apply list_elem_of_singleton.
  - reflexivity.
  - lia.
  - split; [exact Hr|]. intros Hall. apply Hiff in Hall. lia.
Defined.

Lemma updateOrderStatus_not_restored_witness :
  ∃ o db',
    order ordered_shop = [o] ∧
    updateOrderStatus ordered_shop (Order.id o) (Some OrderStatus.CANCELLED)
      None
    = (resp 200 "Order updated successfully", db') ∧
    product db' = product ordered_shop ∧
    cancelOrder db' (Order.userId o) (Order.id o)
    = (resp 400 "Only pending orders can be cancelled", db').
Proof.
  destruct (order ordered_shop) as [|o os] eqn:Hos;
    [vm_compute in Hos; discriminate|].
  assert (os = []) as -> by (vm_compute in Hos; congruence).
  assert (o ∈ order ordered_shop) as Ho
    by (rewrite Hos; by apply list_elem_of_singleton).
  destruct (updateOrderStatus_not_restored ordered_shop o
              OrderStatus.CANCELLED None Ho)
    as (db' & Hup & Hp & _ & _ & _ & Hc); [discriminate|].
  by exists o, db'.
Defined.

Lemma review_verified_after_delivery_witness :
  ∃ o db2,
    order ordered_shop = order (shop 2000 5 3) ++ [o] ∧
    createReview ordered_shop (mkReviews [] 0) 7 (Some 1) (Some 5%Z) None
      (Some "Great")
    = (resp 201 "Review created successfully",
       mkReviews [Review.mk 0 7 1 5 None "Great" false] 1) ∧
    updateOrderStatus ordered_shop (Order.id o) (Some OrderStatus.DELIVERED)
      None
    = (resp 200 "Order updated successfully", db2) ∧
    createReview db2 (mkReviews [] 0) 7 (Some 1) (Some 5%Z) None
      (Some "Great")
    = (resp 201 "Review created successfully",
       mkReviews [Review.mk 0 7 1 5 None "Great" true] 1).
Proof.
  apply (review_verified_after_delivery (shop 2000 5 3) (mkReviews [] 0) 7
           checkout_body "ORD-A-0001"
           (createOrder (shop 2000 5 3) 7 checkout_body "ORD-A-0001").1
           ordered_shop (Cart.mk 10 7) (CartItem.mk 20 10 1 3) 5 None
           "Great").
  - apply surjective_pairing.
  - vm_compute. reflexivity.
  - reflexivity.
  - by apply list_elem_of_singleton.
  - intros o Ho. by apply elem_of_nil in Ho.
  - intros x Hx. by apply elem_of_nil in Hx.
  - lia.
  - discriminate.
Defined.

(** * Accounts and routes *)

Lemma substring_all s : String.substring 0 (String.length s) s = s.
Proof. induction s as [|a s IH]; simpl; [done|]. by rewrite IH. Qed.

Lemma truthy_Some s v : truthy s = Some v → s = Some v ∧ v ≠ EmptyString.
Proof.
  destruct s as [w|]; [|done]. simpl. case_decide; [done|]. by intros [= <-].
Qed.

Section accounts_properties.

Variable bcrypt_hash : string → string → string.
Variable bcrypt_compare : string → string → bool.
Variable generateAccessToken generateRefreshToken : UserPayload → string.
Variable verifyAccessToken : string → option UserPayload.

Lemma authenticate_inr authorization u :
  authenticate verifyAccessToken authorization = inr u →
  ∃ authHeader,
    authorization = Some authHeader ∧
    String.prefix "Bearer " authHeader = true ∧
    verifyAccessToken
      (String.substring 7 (String.length authHeader - 7) authHeader)
    = Some u.
Proof.
  unfold authenticate. destruct authorization as [h|]; [|done]. simpl.
  case_decide; [done|].
  destruct (String.prefix "Bearer " h) eqn:Hp; [|done].
  destruct (verifyAccessToken _) as [d|] eqn:Hv; [|done].
  intros [= <-]. by exists h.
Qed.

Lemma authenticate_bearer token :
  authenticate verifyAccessToken (Some ("Bearer " +:+ token))
  = match verifyAccessToken token with
    | Some decoded => inr decoded
    | None => inl (resp 403 "Invalid or expired token")
    end.
Proof.
  unfold authenticate. simpl. rewrite Nat.sub_0_r, substring_all.
  by destruct token.
Qed.

(** X21: the refund route. Whatever the request, the route never answers
    with the 403 message of [refundPayment] itself, since [authorize]
    answers first; and the database changes only when the header carries a
    token that verifies with role ADMIN, in which case the route does what
    [refundPayment] does for an administrator. *)
Theorem refund_route_admin_only authorization db orderId :
  message (refund_route verifyAccessToken authorization db orderId).1
  ≠ "Only admins can refund payments" ∧
  ((refund_route verifyAccessToken authorization db orderId).2 ≠ db →
   ∃ u, authenticate verifyAccessToken authorization = inr u ∧
        up_role u = ADMIN ∧
        refund_route verifyAccessToken authorization db orderId
        = refundPayment db (Some ADMIN) orderId).
Proof.
  unfold refund_route.
  destruct (authenticate verifyAccessToken authorization) as [r|u] eqn:Ha.
  - split; [|done]. unfold authenticate in Ha.
    destruct (truthy authorization); [|by simplify_eq].
    destruct (String.prefix _ _); [|by simplify_eq].
    destruct (verifyAccessToken _); by simplify_eq.
  - unfold authorize. case_decide as Hrole; [|done].
    apply list_elem_of_singleton in Hrole. rewrite Hrole. split.
    + unfold refundPayment. rewrite decide_False by (intros Hne; by apply Hne).
      destruct orderId as [orderId|]; [|done].
      destruct (findFirst _ (order db)); [|done]. case_decide; [done|].
      by destruct (_ ≫= _).
    + intros _. by exists u.
Qed.

(** X22: what a request to a cart, order or payment route can do to
    other users. All these routes start with [authenticate]. All but one
    hand the identifier of the token to a handler that acts for that user:
    such a request either leaves the database as it was or carries a token
    that verifies, and then every user other than the one named in the
    token keeps their orders, their cart and the lines of their cart. The
    one exception is POST /refund of the payment router, which names an
    order and no user: it either leaves the database as it was or carries
    a token that verifies with the role ADMIN, and then does what
    [refundPayment] does for an administrator, to the order of whichever
    user. *)
Theorem customer_route_isolation authorization db :
  keyed db →
  (∀ call, (∀ userId, acting_user (call userId) = Some userId) →
     (customer_route verifyAccessToken authorization call db).2 = db ∨
     ∃ u,
       authenticate verifyAccessToken authorization = inr u ∧
       ∀ other, other ≠ up_id u →
         filter (λ o, Order.userId o = other)
           (order (customer_route verifyAccessToken authorization call db).2)
         = filter (λ o, Order.userId o = other) (order db) ∧
         cart_findUnique
           (customer_route verifyAccessToken authorization call db).2 other
         = cart_findUnique db other ∧
         ∀ c, cart_findUnique db other = Some c →
           cart_items
             (customer_route verifyAccessToken authorization call db).2
             (Cart.id c)
           = cart_items db (Cart.id c)) ∧
  (∀ orderId,
     (refund_route verifyAccessToken authorization db orderId).2 = db ∨
     ∃ u,
       authenticate verifyAccessToken authorization = inr u ∧
       up_role u = ADMIN ∧
       refund_route verifyAccessToken authorization db orderId
       = refundPayment db (Some ADMIN) orderId).
Proof.
  intros Hk. split.
  - intros call Hcall. unfold customer_route.
    destruct (authenticate verifyAccessToken authorization) as [r|u] eqn:Ha;
      [by left|].
    right. exists u. split; [done|]. intros other Hne.
    destruct (handle_keeps_others db (call (up_id u)) (up_id u) Hk (Hcall _))
      as (Ho & Hc & Hci).
    split_and!.
    + rewrite <- (filter_filter_weaker (λ o, Order.userId o = other)
                    (λ o, Order.userId o ≠ up_id u))
        by (intros o ->; done).
      rewrite Ho. apply filter_filter_weaker. by intros o ->.
    + unfold cart_findUnique, findFirst.
      rewrite <- (filter_filter_weaker (λ c, Cart.userId c = other)
                    (λ c, Cart.userId c ≠ up_id u))
        by (intros o ->; done).
      rewrite Hc. f_equal. apply filter_filter_weaker. by intros o ->.
    + intros c Hfind. apply findFirst_Some in Hfind as [Hin Hu].
      apply Hci; [done|congruence].
  - intros orderId. unfold refund_route.
    destruct (authenticate verifyAccessToken authorization) as [r|u] eqn:Ha;
      [by left|].
    unfold authorize. case_decide as Hrole; [|by left].
    apply list_elem_of_singleton in Hrole. right. exists u.
    by rewrite Hrole.
Qed.

(** X23: a user who has registered can log in. When [register] has
    succeeded and the hash it stored matches the password, [login] with the
    same e-mail address and password answers 200 with a session of the same
    user, whose role is the one asked for at registration, CUSTOMER when
    none was. *)
Theorem register_login us email password firstName lastName role salt r s
    us1 :
  register bcrypt_hash generateAccessToken generateRefreshToken us
    (Some email) (Some password) firstName lastName role salt
  = (r, Some s, us1) →
  bcrypt_compare password (bcrypt_hash salt password) = true →
  ∃ s' us2,
    login bcrypt_compare generateAccessToken generateRefreshToken us1
      (Some email) (Some password)
    = (resp 200 "Login successful", Some s', us2) ∧
    s_user s' = s_user s ∧
    s_user s = mkPayload (nextUserId us) email (default CUSTOMER role) ∧
    r = resp 201 "User registered successfully".
Proof.
  unfold register.
  destruct (truthy (Some email)) as [e|] eqn:He;
    [|intros; repeat case_match; simplify_eq].
  destruct (truthy (Some password)) as [p|] eqn:Hp;
    [|intros; repeat case_match; simplify_eq].
  apply truthy_Some in He as [[= <-] He]. apply truthy_Some in Hp as [[= <-] Hp].
  destruct (truthy firstName) as [fn|]; [|done].
  destruct (truthy lastName) as [ln|]; [|done].
  destruct (findFirst _ (user us)) eqn:Hf; [done|].
  intros [= <- <- <-] Hcmp. unfold login. simpl.
  rewrite !decide_False by done.
  set (u := User.with_refreshToken _ _).
  assert (findFirst (λ u, User.email u = email) (user us ++ [u]) = Some u)
    as ->.
  { unfold findFirst in *. apply head_None in Hf.
    by rewrite filter_app, Hf, filter_cons_True, filter_nil. }
  simpl. rewrite Hcmp. unfold user_update. simpl.
  rewrite decide_True.
  - by eexists _, _.
  - apply Exists_app. right. by apply Exists_cons_hd.
Qed.

(** X24: [login] does not tell an unknown e-mail address from a wrong
    password: both are answered 401 'Invalid credentials' and leave the
    user table as it was. *)
Theorem login_rejected_alike us email password :
  email ≠ EmptyString → password ≠ EmptyString →
  (∀ u, u ∈ user us → User.email u = email →
        bcrypt_compare password (User.password u) = false) →
  login bcrypt_compare generateAccessToken generateRefreshToken us
    (Some email) (Some password)
  = (resp 401 "Invalid credentials", None, us).
Proof.
  intros He Hp Hbad. unfold login. simpl. rewrite !decide_False by done.
  destruct (findFirst _ (user us)) as [u|] eqn:Hf; [|done].
  apply findFirst_Some in Hf as [Hu Hue]. by rewrite (Hbad u Hu Hue).
Qed.

(** X25: [register] stores the role that the body asks for. Whoever
    registers with role ADMIN gets an access token with which the refund
    route lets them through to [refundPayment] as an administrator. *)
Theorem register_admin_refunds us email password firstName lastName salt r s
    us1 db orderId :
  register bcrypt_hash generateAccessToken generateRefreshToken us
    email password firstName lastName (Some ADMIN) salt
  = (r, Some s, us1) →
  verifyAccessToken (s_accessToken s) = Some (s_user s) →
  refund_route verifyAccessToken (Some ("Bearer " +:+ s_accessToken s)) db
    orderId
  = refundPayment db (Some ADMIN) orderId.
Proof.
  unfold register.
  destruct (truthy email) as [e|]; [|done].
  destruct (truthy password) as [p|]; [|done].
  destruct (truthy firstName) as [fn|]; [|done].
  destruct (truthy lastName) as [ln|]; [|done].
  destruct (findFirst _ (user us)); [done|].
  intros [= <- <- <-]. simpl. intros Hv.
  unfold refund_route. rewrite authenticate_bearer, Hv. unfold authorize.
  by rewrite decide_True by (simpl; by apply list_elem_of_singleton).
Qed.

Lemma user_update_registered_once id f us us' :
  (∀ u, User.id (f u) = User.id u ∧ User.email (f u) = User.email u) →
  user_update id f us = Some us' → registered_once us → registered_once us'.
Proof.
  intros Hf. unfold user_update. case_decide; [|done]. intros [= <-].
  intros [H1 H2 H3]. split; simpl.
  - apply NoDup_fmap_fmap; [|done]. intros u. case_decide; [|done].
    apply Hf.
  - apply NoDup_fmap_fmap; [|done]. intros u. case_decide; [|done].
    apply Hf.
  - intros u Hu. apply list_elem_of_fmap in Hu as (v & -> & Hv).
    case_decide; [|by apply H3]. destruct (Hf v) as [-> _]. by apply H3.
Qed.

(** X26: the account handlers keep the user table well formed: after
    [register], [login] or [updateProfile], however answered, identifiers
    and e-mail addresses are still unique. *)
Theorem accounts_registered_once us :
  registered_once us →
  (∀ email password firstName lastName role salt,
     registered_once
       (register bcrypt_hash generateAccessToken generateRefreshToken us
          email password firstName lastName role salt).2) ∧
  (∀ email password,
     registered_once
       (login bcrypt_compare generateAccessToken generateRefreshToken us
          email password).2) ∧
  (∀ userId firstName lastName avatar,
     registered_once (updateProfile us userId firstName lastName avatar).2).
Proof.
  intros Hr. split_and!.
  - intros email password firstName lastName role salt. unfold register.
    destruct (truthy email) as [e|]; [|done].
    destruct (truthy password) as [p|]; [|done].
    destruct (truthy firstName) as [fn|]; [|done].
    destruct (truthy lastName) as [ln|]; [|done].
    destruct (findFirst _ (user us)) eqn:Hf; [done|]. simpl.
    pose proof (proj1 (findFirst_None _ _) Hf) as Hno.
    destruct Hr as [H1 H2 H3]. split; simpl.
    + apply NoDup_fmap_snoc; [done|]. intros u Hu. simpl.
      specialize (H3 u Hu). lia.
    + apply NoDup_fmap_snoc; [done|]. intros u Hu. simpl. by apply Hno.
    + intros u Hu. apply elem_of_app in Hu as [Hu|Hu].
      * specialize (H3 u Hu). lia.
      * apply list_elem_of_singleton in Hu. subst u. simpl. lia.
  - intros email password. unfold login.
    destruct (truthy email) as [e|]; [|done].
    destruct (truthy password) as [p|]; [|done].
    destruct (findFirst _ (user us)) as [u|]; [|done].
    destruct (bcrypt_compare _ _); [|done].
    destruct (user_update _ _ us) as [us'|] eqn:Hup; [|done]. simpl.
    by eapply user_update_registered_once; [|exact Hup|].
  - intros userId firstName lastName avatar. unfold updateProfile.
    destruct (user_update _ _ us) as [us'|] eqn:Hup; [|done]. simpl.
    eapply user_update_registered_once; [|exact Hup|done].
    intros u. by destruct (truthy firstName), (truthy lastName),
      (truthy avatar).
Qed.

End accounts_properties.

Lemma one_user_registered_once : registered_once one_user.
Proof.
  split; simpl; try apply NoDup_singleton.
  intros u Hu. rows. simpl. lia.
Qed.

(** User 7 checks out with their token and the cart of user 8 keeps its
    line; the administrator, user 1, refunds the order of user 7. *)
Lemma customer_route_isolation_witness :
  keyed last_unit_shop ∧
  (customer_route
     (toy_verify [mkPayload 7 "ada@example.org" CUSTOMER])
     (Some "Bearer 7:customer")
     (λ userId, CreateOrder userId checkout_body "ORD-A-0001")
     last_unit_shop).1
  = resp 201 "Order placed successfully" ∧
  cart_items
    (customer_route
       (toy_verify [mkPayload 7 "ada@example.org" CUSTOMER])
       (Some "Bearer 7:customer")
       (λ userId, CreateOrder userId checkout_body "ORD-A-0001")
       last_unit_shop).2 11
  = cart_items last_unit_shop 11 ∧
  (λ o, (Order.userId o, Order.status o)) <$> order paid_shop
  = [(7, OrderStatus.CONFIRMED)] ∧
  (λ o, (Order.userId o, Order.status o))
    <$> order (refund_route
                 (toy_verify [mkPayload 1 "eve@example.org" ADMIN])
                 (Some "Bearer 1:admin") paid_shop (Some 100)).2
  = [(7, OrderStatus.REFUNDED)] ∧
  refund_route (toy_verify [mkPayload 1 "eve@example.org" ADMIN])
    (Some "Bearer 1:admin") paid_shop (Some 100)
  = refundPayment paid_shop (Some ADMIN) (Some 100).
Proof.
  split; [apply last_unit_shop_keyed|]. split; [vm_compute; reflexivity|].
  split.
  { destruct (proj1 (customer_route_isolation
                       (toy_verify [mkPayload 7 "ada@example.org" CUSTOMER])
                       (Some "Bearer 7:customer")
                       last_unit_shop last_unit_shop_keyed)
                (λ userId, CreateOrder userId checkout_body "ORD-A-0001")
                (λ _, eq_refl))
      as [Hsame|(u & Hu & Hiso)].
    - by rewrite Hsame.
    - vm_compute in Hu. injection Hu as <-.
      destruct (Hiso 8) as (_ & _ & Hc); [simpl; lia|].
      apply (Hc (Cart.mk 11 8)). reflexivity. }
  split; [vm_compute; reflexivity|]. split; [vm_compute; reflexivity|].
  destruct (proj2 (customer_route_isolation
                     (toy_verify [mkPayload 1 "eve@example.org" ADMIN])
                     (Some "Bearer 1:admin")
                     paid_shop paid_shop_keyed) (Some 100))
    as [Hsame|(u & _ & _ & Heq)]; [|exact Heq].
  exfalso. apply (f_equal order) in Hsame. vm_compute in Hsame.
  discriminate Hsame.
Defined.

Lemma register_login_witness :
  ∃ s' us2,
    login toy_compare toy_token toy_token
      (register toy_hash toy_token toy_token one_user
         (Some "grace@example.org") (Some "c0b0l") (Some "Grace")
         (Some "Hopper") None "NaCl").2
      (Some "grace@example.org") (Some "c0b0l")
    = (resp 200 "Login successful", Some s', us2) ∧
    s_user s' = mkPayload 1 "grace@example.org" CUSTOMER.
Proof.
  destruct (register_login toy_hash toy_compare toy_token toy_token one_user
              "grace@example.org" "c0b0l" (Some "Grace") (Some "Hopper") None
              "NaCl"
              (resp 201 "User registered successfully")
              (mkSession (mkPayload 1 "grace@example.org" CUSTOMER)
                 "1:customer" "1:customer")
              (register toy_hash toy_token toy_token one_user
                 (Some "grace@example.org") (Some "c0b0l") (Some "Grace")
                 (Some "Hopper") None "NaCl").2)
    as (s' & us2 & Hlogin & Hs & _).
  - vm_compute. reflexivity.
  - vm_compute. reflexivity.
  - exists s', us2. split; [exact Hlogin|]. by rewrite Hs.
Defined.

Lemma login_rejected_alike_witness :
  login toy_compare toy_token toy_token one_user (Some "ada@example.org")
    (Some "guess")
  = (resp 401 "Invalid credentials", None, one_user) ∧
  login toy_compare toy_token toy_token one_user (Some "eve@example.org")
    (Some "guess")
  = (resp 401 "Invalid credentials", None, one_user).
Proof.
  split; apply login_rejected_alike; try discriminate.
  - intros u Hu _. simpl in Hu. rows. vm_compute. reflexivity.
  - intros u Hu He. simpl in Hu. rows. simpl in He. discriminate.
Defined.

Lemma register_admin_refunds_witness :
  status (register toy_hash toy_token toy_token one_user
            (Some "eve@example.org") (Some "guess") (Some "Eve")
            (Some "Nobody") (Some ADMIN) "NaCl").1.1 = 201 ∧
  refund_route
    (toy_verify [mkPayload 1 "eve@example.org" ADMIN])
    (Some "Bearer 1:admin") paid_shop (Some 100)
  = refundPayment paid_shop (Some ADMIN) (Some 100) ∧
  status (refundPayment paid_shop (Some ADMIN) (Some 100)).1 = 200.
Proof.
  split; [vm_compute; reflexivity|]. split; [|vm_compute; reflexivity].
  apply (register_admin_refunds toy_hash toy_token toy_token
           (toy_verify [mkPayload 1 "eve@example.org" ADMIN]) one_user
           (Some "eve@example.org") (Some "guess") (Some "Eve")
           (Some "Nobody") "NaCl"
           (resp 201 "User registered successfully")
           (mkSession (mkPayload 1 "eve@example.org" ADMIN) "1:admin"
              "1:admin")
           (register toy_hash toy_token toy_token one_user
              (Some "eve@example.org") (Some "guess") (Some "Eve")
              (Some "Nobody") (Some ADMIN) "NaCl").2
           paid_shop (Some 100)).
  - vm_compute. reflexivity.
  - vm_compute. reflexivity.
Defined.

Lemma accounts_registered_once_witness :
  registered_once one_user ∧
  registered_once
    (register toy_hash toy_token toy_token one_user
       (Some "grace@example.org") (Some "c0b0l") (Some "Grace")
       (Some "Hopper") None "NaCl").2.
Proof.
  split; [apply one_user_registered_once|].
  destruct (accounts_registered_once toy_hash toy_compare toy_token toy_token
              one_user one_user_registered_once) as (Hreg & _ & _).
  apply Hreg.
Defined.

(** * Wishlists *)

Lemma wishlist_of_wished_once ws userId :
  wished_once ws →
  wished_once (wishlist_of ws userId).2 ∧
  (wishlist_of ws userId).1 ∈ wishlist (wishlist_of ws userId).2 ∧
  Wishlist.userId (wishlist_of ws userId).1 = userId ∧
  wishlistItem (wishlist_of ws userId).2 = wishlistItem ws ∧
  wishlist_of (wishlist_of ws userId).2 userId = wishlist_of ws userId.
Proof.
  intros [H1 H2 H3 H4 H5 H6]. unfold wishlist_of.
  destruct (findFirst _ (wishlist ws)) as [w|] eqn:Hw; simpl.
  - rewrite Hw. apply findFirst_Some in Hw as [Hw Hu]. by split_and!.
  - pose proof (proj1 (findFirst_None _ _) Hw) as Hno. split_and!; try done.
    + split; simpl; try done.
      * apply NoDup_fmap_snoc; [done|]. intros x Hx. simpl.
        specialize (H5 x Hx). lia.
      * apply NoDup_fmap_snoc; [done|]. intros x Hx. simpl. by apply Hno.
      * intros x Hx. apply elem_of_app in Hx as [Hx|Hx].
        -- specialize (H5 x Hx). lia.
        -- apply list_elem_of_singleton in Hx. subst x. simpl. lia.
      * intros x Hx. specialize (H6 x Hx). lia.
    + apply elem_of_app. right. by apply list_elem_of_singleton.
    + by rewrite findFirst_snoc.
Qed.

(** X29: the wishlist handlers keep the wishlist tables well formed:
    after any of them, however answered, identifiers are unique, a user has
    at most one wishlist and a wishlist holds a product at most once. *)
Theorem handle_wish_wished_once db ws req :
  wished_once ws → wished_once (handle_wish db ws req).2.
Proof.
  intros Hw. destruct req; simpl.
  - unfold getWishlist.
    pose proof (wishlist_of_wished_once ws userId Hw) as [Hw1 _].
    by destruct (wishlist_of ws userId).
  - unfold addToWishlist. destruct productId as [productId|]; [|done].
    destruct (product db !! productId); [|done].
    pose proof (wishlist_of_wished_once ws userId Hw)
      as (Hw1 & Hin & _ & _ & _).
    destruct (wishlist_of ws userId) as [w ws1]. simpl in *.
    destruct (findFirst _ (wishlistItem ws1)) eqn:Hf; [done|]. simpl.
    pose proof (proj1 (findFirst_None _ _) Hf) as Hno.
    destruct Hw1 as [H1 H2 H3 H4 H5 H6]. split; simpl; try done.
    + apply NoDup_fmap_snoc; [done|]. intros x Hx. simpl.
      specialize (H6 x Hx). lia.
    + apply NoDup_fmap_snoc; [done|]. intros x Hx. simpl. intros [= Hi Hp].
      by apply (Hno x Hx).
    + intros x Hx. specialize (H5 x Hx). lia.
    + intros x Hx. apply elem_of_app in Hx as [Hx|Hx].
      * specialize (H6 x Hx). lia.
      * apply list_elem_of_singleton in Hx. subst x. simpl.
        specialize (H5 w Hin). lia.
  - unfold removeFromWishlist.
    destruct (findFirst _ (wishlistItem ws)); [|done].
    destruct (findFirst _ (wishlist ws)); [|done].
    case_decide; [done|]. simpl.
    destruct Hw as [H1 H2 H3 H4 H5 H6]. split; simpl; try done.
    + by apply NoDup_fmap_filter.
    + by apply NoDup_fmap_filter.
    + intros x Hx. apply list_elem_of_filter in Hx as [_ Hx]. by apply H6.
  - unfold clearWishlist. destruct (findFirst _ (wishlist ws)); [|done].
    simpl. destruct Hw as [H1 H2 H3 H4 H5 H6]. split; simpl; try done.
    + by apply NoDup_fmap_filter.
    + by apply NoDup_fmap_filter.
    + intros x Hx. apply list_elem_of_filter in Hx as [_ Hx]. by apply H6.
Qed.

(** X30: a product is put on a wishlist once. After an accepted
    [addToWishlist] the caller's wishlist holds exactly one item of the
    product, and the same request again is answered 400 'Product already
    in wishlist' and changes nothing. *)
Theorem addToWishlist_twice db ws userId productId r ws1 :
  wished_once ws →
  addToWishlist db ws userId (Some productId) = (r, ws1) → status r = 200 →
  (∃ w item,
     findFirst (λ w, Wishlist.userId w = userId) (wishlist ws1) = Some w ∧
     filter (λ i, WishlistItem.wishlistId i = Wishlist.id w
                  ∧ WishlistItem.productId i = productId)
            (wishlistItem ws1)
     = [item]) ∧
  addToWishlist db ws1 userId (Some productId)
  = (resp 400 "Product already in wishlist", ws1).
Proof.
  intros Hw. unfold addToWishlist at 1.
  destruct (product db !! productId) as [p|] eqn:Hp; [|by intros [= <- <-]].
  pose proof (wishlist_of_wished_once ws userId Hw)
    as (Hw1 & Hin & Hu & Hitems & Hagain).
  destruct (wishlist_of ws userId) as [w ws0] eqn:Hwo. simpl in *.
  destruct (findFirst _ (wishlistItem ws0)) eqn:Hf; [by intros [= <- <-]|].
  intros [= <- <-] _.
  set (new := WishlistItem.mk (nextWishId ws0) (Wishlist.id w) productId).
  set (ws1 := mkWishes (wishlist ws0) (wishlistItem ws0 ++ [new])
                (S (nextWishId ws0))).
  assert (findFirst (λ w, Wishlist.userId w = userId) (wishlist ws0) = Some w)
    as Hfw.
  { unfold wishlist_of in Hagain.
    destruct (findFirst _ (wishlist ws0)) as [w'|]; [congruence|].
    injection Hagain as Hw' Hws. exfalso.
    apply (f_equal wishlist) in Hws. simpl in Hws.
    apply (f_equal length) in Hws. rewrite length_app in Hws.
    simpl in Hws. lia. }
  assert (wishlist_of ws1 userId = (w, ws1)) as Hwo1.
  { unfold wishlist_of. simpl. by rewrite Hfw. }
  split.
  - exists w, new. split; [done|]. simpl. rewrite filter_app.
    apply head_None in Hf. rewrite Hf. simpl.
    by rewrite filter_cons_True, filter_nil.
  - unfold addToWishlist. rewrite Hp, Hwo1.
    destruct (findFirst_is_Some
                (λ i, WishlistItem.wishlistId i = Wishlist.id w
                      ∧ WishlistItem.productId i = productId)
                (wishlistItem ws1) new) as [i ->]; try done.
    simpl. apply elem_of_app. right. by apply list_elem_of_singleton.
Qed.

Lemma restocked_cart_shop_linked : linked restocked_cart_shop.
Proof.
  apply handle_linked.
  apply (handle_linked (shop 2000 5 3)
           (CreateOrder 7 checkout_body "ORD-A-0001")), shop_linked.
Qed.

Lemma createOrder_later_number_witness :
  linked restocked_cart_shop ∧
  Forall (λ o, Order.orderNumber o = generateOrderNumber 10 "0.0001")
         (order restocked_cart_shop) ∧
  status (createOrder restocked_cart_shop 7 checkout_body
            (generateOrderNumber 11 "0.0001")).1 ≠ 500.
Proof.
  assert (Forall (λ o, Order.orderNumber o = generateOrderNumber 10 "0.0001")
                 (order restocked_cart_shop)) as Hall.
  { vm_compute. apply Forall_cons. split; [reflexivity|apply Forall_nil_2]. }
  split; [apply restocked_cart_shop_linked|]. split; [exact Hall|].
  apply createOrder_later_number; [apply restocked_cart_shop_linked|].
  intros o Ho. exists 10%N, "0.0001". split; [|lia].
  by apply (proj1 (Forall_forall _ _) Hall).
Defined.

Lemma no_wishes_wished_once : wished_once no_wishes.
Proof.
  split; simpl; try apply NoDup_nil_2; intros x Hx; by apply elem_of_nil in Hx.
Qed.

Lemma handle_wish_wished_once_witness :
  wished_once
    (handle_wish (shop 2000 5 3) no_wishes (AddToWishlist 7 (Some 1))).2.
Proof. apply handle_wish_wished_once, no_wishes_wished_once. Defined.

Lemma addToWishlist_twice_witness :
  wished_once no_wishes ∧
  status (addToWishlist (shop 2000 5 3) no_wishes 7 (Some 1)).1 = 200 ∧
  addToWishlist (shop 2000 5 3)
    (addToWishlist (shop 2000 5 3) no_wishes 7 (Some 1)).2 7 (Some 1)
  = (resp 400 "Product already in wishlist",
     (addToWishlist (shop 2000 5 3) no_wishes 7 (Some 1)).2).
Proof.
  split; [apply no_wishes_wished_once|]. split; [reflexivity|].
  apply (addToWishlist_twice (shop 2000 5 3) no_wishes 7 1
           (addToWishlist (shop 2000 5 3) no_wishes 7 (Some 1)).1
           (addToWishlist (shop 2000 5 3) no_wishes 7 (Some 1)).2).
  - apply no_wishes_wished_once.
  - apply surjective_pairing.
  - reflexivity.
Defined.
